(** * Clinical-trials agent (LAB4-Clinical-Trials-Agent/agent.py)

    A shallow embedding of the four registry query helpers
    ([count_trials], [get_eligibility_criteria], [get_trial_locations],
    [get_trial_phases]), of the tool table and of the tool-calling loop
    [run_agent], followed by the properties the specification states
    about them.

    Python values are dynamically typed, so the helpers are embedded over
    one type [value] of JSON-shaped Python objects, and every operation
    that Python may refuse (subscripting, [.get], [.lower], [len],
    iteration, keyword binding) returns a [result] that is either a value
    or the exception raised. *)

From Stdlib Require Import ZArith List String Ascii Bool Lia.
From Stdlib Require Import DecimalString DecimalZ DecimalPos.
Import ListNotations.
Local Open Scope string_scope.
Local Open Scope list_scope.

(** ** Python values *)

(** What [json.loads] / [response.json()] produce, and what the helpers
    build from it: [None], [bool], [int], [str], [list], and [dict] with
    [str] keys.  A [str] is a sequence of code points; the model covers the
    code points U+0000 to U+00FF (one [ascii] each).  JSON numbers with a
    fraction or an exponent ([float]) are outside the model.  A [dict] is
    an association list in insertion order, read by its first binding of a
    key. *)

Unset Elimination Schemes.
Inductive value : Type :=
| VNone
| VBool (b : bool)
| VInt (n : Z)
| VStr (s : string)
| VList (l : list value)
| VDict (d : list (string * value)).
Set Elimination Schemes.

Section ValueInd.
Variable P : value -> Prop.
Hypothesis HNone : P VNone.
Hypothesis HBool : forall b, P (VBool b).
Hypothesis HInt : forall n, P (VInt n).
Hypothesis HStr : forall s, P (VStr s).
Hypothesis HList : forall l, Forall P l -> P (VList l).
Hypothesis HDict : forall d, Forall (fun kv => P (snd kv)) d -> P (VDict d).

Fixpoint value_ind (v : value) : P v :=
  match v with
  | VNone => HNone
  | VBool b => HBool b
  | VInt n => HInt n
  | VStr s => HStr s
  | VList l =>
      HList l ((fix all (l : list value) : Forall P l :=
                  match l with
                  | [] => Forall_nil _
                  | x :: r => Forall_cons x (value_ind x) (all r)
                  end) l)
  | VDict d =>
      HDict d ((fix all (d : list (string * value))
                  : Forall (fun kv => P (snd kv)) d :=
                  match d with
                  | [] => Forall_nil _
                  | kv :: r => Forall_cons kv (value_ind (snd kv)) (all r)
                  end) d)
  end.
End ValueInd.

(** ** Exceptions and results *)

Inductive exn : Type :=
| KeyError (k : string)      (* d[k] on a dict without k *)
| TypeError                  (* subscripting, len() or iterating the wrong type; bad keyword call *)
| AttributeError             (* .get / .lower on an object that has none *)
| IndexError                 (* choices[0] on an empty list *)
| JSONDecodeError            (* json.loads / response.json() on a malformed payload *)
| RequestException           (* requests.get: transport failure *)
| APIError.                  (* the completion endpoint failed *)

Inductive result (A : Type) : Type :=
| Ok (a : A)
| Raise (e : exn).
Arguments Ok {A} a.
Arguments Raise {A} e.

Definition bind {A B : Type} (c : result A) (k : A -> result B) : result B :=
  match c with
  | Ok a => k a
  | Raise e => Raise e
  end.

Declare Scope py_scope.
Delimit Scope py_scope with py.
Notation "x <- c ;; k" := (bind c (fun x => k))
  (at level 100, c at next level, right associativity) : py_scope.
Local Open Scope py_scope.

(** [for x in xs: ...] building a list, stopping at the first exception. *)
Fixpoint mapM {A B : Type} (f : A -> result B) (xs : list A) : result (list B) :=
  match xs with
  | [] => Ok []
  | x :: r => y <- f x ;; ys <- mapM f r ;; Ok (y :: ys)
  end.

(** [for x in xs: acc = body(acc, x)], stopping at the first exception. *)
Fixpoint foldM {A S : Type} (body : S -> A -> result S) (xs : list A) (acc : S)
  : result S :=
  match xs with
  | [] => Ok acc
  | x :: r => acc' <- body acc x ;; foldM body r acc'
  end.

(** ** Strings *)

(** [str.lower] on the code points of the model: the ASCII capitals and the
    Latin-1 capitals U+00C0..U+00DE (U+00D7, the multiplication sign, is
    not a letter) move up by 32; everything else is unchanged. *)
Definition lower_char (c : ascii) : ascii :=
  let n := N_of_ascii c in
  if ((65 <=? n) && (n <=? 90))%N then ascii_of_N (n + 32)
  else if ((192 <=? n) && (n <=? 222) && negb (n =? 215))%N then ascii_of_N (n + 32)
  else c.

Fixpoint lower (s : string) : string :=
  match s with
  | EmptyString => EmptyString
  | String c r => String (lower_char c) (lower r)
  end.

(** [sub in s] on two strings. *)
Fixpoint is_substring (sub s : string) : bool :=
  if String.prefix sub s then true
  else match s with
       | EmptyString => false
       | String _ r => is_substring sub r
       end.

(** The characters of a string, as Python iterates them. *)
Fixpoint chars (s : string) : list value :=
  match s with
  | EmptyString => []
  | String c r => VStr (String c EmptyString) :: chars r
  end.

(** [f"{n}"] for an [int]. *)
Definition str_of_int (n : Z) : string := NilZero.string_of_int (Z.to_int n).

(** ** Python primitives on values *)

Fixpoint lookup (k : string) (d : list (string * value)) : option value :=
  match d with
  | [] => None
  | (k', v) :: r => if String.eqb k k' then Some v else lookup k r
  end.

Definition keys (d : list (string * value)) : list string := map fst d.

(** [a == b].  [bool] is a subclass of [int], so [True == 1]; a [dict]
    equals another of the same size that maps each of its keys to an equal
    value; lists are equal element by element. *)
Fixpoint py_eq (a b : value) {struct a} : bool :=
  match a, b with
  | VNone, VNone => true
  | VBool x, VBool y => Bool.eqb x y
  | VBool x, VInt n => (n =? (if x then 1 else 0))%Z
  | VInt n, VBool x => (n =? (if x then 1 else 0))%Z
  | VInt n, VInt m => (n =? m)%Z
  | VStr s, VStr t => String.eqb s t
  | VList l, VList l' =>
      (fix all (l l' : list value) : bool :=
         match l, l' with
         | [], [] => true
         | x :: r, y :: r' => py_eq x y && all r r'
         | _, _ => false
         end) l l'
  | VDict d, VDict d' =>
      (List.length d =? List.length d')%nat &&
      (fix all (d : list (string * value)) : bool :=
         match d with
         | [] => true
         | (k, x) :: r =>
             match lookup k d' with
             | Some y => py_eq x y
             | None => false
             end && all r
         end) d
  | _, _ => false
  end.

(** [bool(v)]: the truth value used by [if v], [not v] and [v or w]. *)
Definition truthy (v : value) : bool :=
  match v with
  | VNone => false
  | VBool b => b
  | VInt n => negb (n =? 0)%Z
  | VStr s => negb (String.eqb s "")
  | VList l => match l with [] => false | _ => true end
  | VDict d => match d with [] => false | _ => true end
  end.

(** [a or b]. *)
Definition py_or (a b : value) : value := if truthy a then a else b.

(** [v[k]] with a string subscript. *)
Definition getitem (v : value) (k : string) : result value :=
  match v with
  | VDict d =>
      match lookup k d with
      | Some x => Ok x
      | None => Raise (KeyError k)
      end
  | _ => Raise TypeError
  end.

(** [v.get(k, default)]. *)
Definition get (v : value) (k : string) (default : value) : result value :=
  match v with
  | VDict d =>
      Ok (match lookup k d with
          | Some x => x
          | None => default
          end)
  | _ => Raise AttributeError
  end.

(** [k in v] with a string on the left. *)
Definition contains (k : string) (v : value) : result bool :=
  match v with
  | VDict d => Ok (existsb (String.eqb k) (keys d))
  | VList l => Ok (existsb (fun x => py_eq x (VStr k)) l)
  | VStr s => Ok (is_substring k s)
  | _ => Raise TypeError
  end.

(** [x in xs] on a list, by [==]. *)
Definition list_contains (xs : list value) (x : value) : bool :=
  existsb (fun y => py_eq y x) xs.

(** [len(v)]. *)
Definition len (v : value) : result Z :=
  match v with
  | VList l => Ok (Z.of_nat (List.length l))
  | VStr s => Ok (Z.of_nat (String.length s))
  | VDict d => Ok (Z.of_nat (List.length d))
  | _ => Raise TypeError
  end.

(** The items [for x in v] runs over. *)
Definition iter (v : value) : result (list value) :=
  match v with
  | VList l => Ok l
  | VStr s => Ok (chars s)
  | VDict d => Ok (map VStr (keys d))
  | _ => Raise TypeError
  end.

(** [v[:n]].  A [dict] refuses a slice subscript ([TypeError] up to Python
    3.11; from 3.12 on the same statement raises [KeyError]). *)
Definition slice_to (n : nat) (v : value) : result value :=
  match v with
  | VList l => Ok (VList (firstn n l))
  | VStr s => Ok (VStr (String.substring 0 n s))
  | _ => Raise TypeError
  end.

(** [v.lower()]. *)
Definition py_lower (v : value) : result string :=
  match v with
  | VStr s => Ok (lower s)
  | _ => Raise AttributeError
  end.

(** ** The Python runtime this module calls into *)

(** [json.loads], [json.dumps] and [repr] belong to the interpreter, not to
    this repository; the development is parametric in them. *)
Class Runtime : Type := {
  json_loads : string -> result value;
  json_dumps : value -> string;
  py_repr : value -> string
}.

(** [f"{v}"]: [str(v)].  Lists and dicts print through [repr]. *)
Definition format_value `{Runtime} (v : value) : string :=
  match v with
  | VNone => "None"
  | VBool true => "True"
  | VBool false => "False"
  | VInt n => str_of_int n
  | VStr s => s
  | VList _ | VDict _ => py_repr v
  end.

(** ** The outside world: the registry and the completion endpoint *)

(** What [requests.get] returns: the status code and the outcome of
    [response.json()]. *)
Record response : Type := {
  status_code : Z;
  json : result value
}.

(** A tool invocation as the completion endpoint returns it. *)
Record function_call : Type := {
  name : string;
  arguments : string
}.

Record tool_call : Type := {
  id : string;
  function : function_call
}.

(** [response.choices[0].message]. *)
Record response_message : Type := {
  content : option string;
  tool_calls : option (list tool_call)
}.

Record choice : Type := { message : response_message }.

Record completion : Type := { choices : list choice }.

(** The entries of the [messages] list of [run_agent]. *)
Inductive chat_message : Type :=
| RoleContent (role text : string)
    (* {"role": role, "content": text} *)
| Assistant (m : response_message)
    (* the response_message object, appended as it is *)
| ToolResult (tool_call_id fname text : string).
    (* {"role": "tool", "tool_call_id": .., "name": .., "content": ..} *)

(** The keyword arguments of [client.chat.completions.create]. *)
Record completion_request : Type := {
  req_model : string;
  req_messages : list chat_message;
  req_tools : option value;
  req_tool_choice : option string;
  req_max_tokens : Z
}.

(** What the program does to the outside world, in the order it does it.
    The two progress lines printed before each tool call are recorded by
    what they show. *)
Inductive event : Type :=
| Get (url : string) (params : list (string * value))   (* requests.get *)
| Create (req : completion_request)                     (* client.chat.completions.create *)
| PrintCalling (function_name : string)
| PrintArgs (function_args : value).

(** The two services.  Each answers a call knowing everything that happened
    before it, and each may fail. *)
Record world : Type := {
  requests_get : list event -> string -> list (string * value) -> result response;
  completions_create : list event -> completion_request -> result completion
}.

(** A computation that talks to the world: it reads the history so far and
    returns its outcome with the extended history.  What was done before an
    exception stays in the history. *)
Definition prog (A : Type) : Type := world -> list event -> result A * list event.

Definition ret {A : Type} (a : A) : prog A := fun _ t => (Ok a, t).

Definition lift {A : Type} (r : result A) : prog A := fun _ t => (r, t).

Definition pbind {A B : Type} (c : prog A) (k : A -> prog B) : prog B :=
  fun w t =>
    match c w t with
    | (Ok a, t') => k a w t'
    | (Raise e, t') => (Raise e, t')
    end.

Notation "x <~ c ;; k" := (pbind c (fun x => k))
  (at level 100, c at next level, right associativity) : py_scope.

Definition http_get (url : string) (params : list (string * value)) : prog response :=
  fun w t => (requests_get w t url params, t ++ [Get url params]).

Definition create (req : completion_request) : prog completion :=
  fun w t => (completions_create w t req, t ++ [Create req]).

Definition print (e : event) : prog unit := fun _ t => (Ok tt, t ++ [e]).

(** ** The registry client *)

Definition STUDIES_URL : string := "https://clinicaltrials.gov/api/v2/studies".

Definition api_error (r : response) : value :=
  VDict [("error", VStr ("API error: " ++ str_of_int (status_code r))%string)].

(** *** count_trials *)

Definition count_trials_params (condition status : value) : list (string * value) :=
  [("format", VStr "json");
   ("pageSize", VInt 1000);
   ("query.cond", condition);
   ("filter.overallStatus", status);
   ("fields", VStr "NCTId,BriefTitle")].

(** [s['protocolSection']['identificationModule']['briefTitle']] *)
Definition brief_title (s : value) : result value :=
  p <- getitem s "protocolSection" ;;
  i <- getitem p "identificationModule" ;;
  getitem i "briefTitle".

(** The body of [count_trials] once the response is there. *)
Definition count_trials_summary (condition status : value) (r : response)
  : result value :=
  if (status_code r =? 200)%Z then
    data <- json r ;;
    studies <- get data "studies" (VList []) ;;
    n <- len studies ;;
    first3 <- slice_to 3 studies ;;
    items <- iter first3 ;;
    titles <- mapM brief_title items ;;
    Ok (VDict [("count", VInt n);
               ("condition", condition);
               ("status", status);
               ("sample_titles", VList titles)])
  else Ok (api_error r).

Definition count_trials (condition status : value) : prog value :=
  r <~ http_get STUDIES_URL (count_trials_params condition status) ;;
  lift (count_trials_summary condition status r).

(** *** get_eligibility_criteria *)

Definition get_eligibility_criteria_params (condition max_trials : value)
  : list (string * value) :=
  [("format", VStr "json");
   ("pageSize", max_trials);
   ("query.cond", condition);
   ("filter.overallStatus", VStr "RECRUITING");
   ("fields", VStr "NCTId,BriefTitle,EligibilityCriteria,Sex,MinimumAge,MaximumAge")].

Section WithRuntime.
Context `{RT : Runtime}.

(** One turn of the loop over [studies]: the dictionary appended to
    [criteria_list]. *)
Definition criteria_entry (study : value) : result value :=
  protocol <- getitem study "protocolSection" ;;
  eligibility <- get protocol "eligibilityModule" (VDict []) ;;
  i <- getitem protocol "identificationModule" ;;
  nct_id <- getitem i "nctId" ;;
  i' <- getitem protocol "identificationModule" ;;
  title <- getitem i' "briefTitle" ;;
  criteria <- get eligibility "eligibilityCriteria" (VStr "N/A") ;;
  sex <- get eligibility "sex" (VStr "N/A") ;;
  lo <- get eligibility "minimumAge" (VStr "N/A") ;;
  hi <- get eligibility "maximumAge" (VStr "N/A") ;;
  Ok (VDict [("nct_id", nct_id);
             ("title", title);
             ("criteria", criteria);
             ("sex", sex);
             ("age_range", VStr (format_value lo ++ " - " ++ format_value hi)%string)]).

Definition get_eligibility_criteria_summary (condition : value) (r : response)
  : result value :=
  if (status_code r =? 200)%Z then
    data <- json r ;;
    studies <- get data "studies" (VList []) ;;
    items <- iter studies ;;
    criteria_list <- mapM criteria_entry items ;;
    Ok (VDict [("condition", condition);
               ("number_of_trials", VInt (Z.of_nat (List.length criteria_list)));
               ("criteria", VList criteria_list)])
  else Ok (api_error r).

Definition get_eligibility_criteria (condition max_trials : value) : prog value :=
  r <~ http_get STUDIES_URL (get_eligibility_criteria_params condition max_trials) ;;
  lift (get_eligibility_criteria_summary condition r).

End WithRuntime.

(** *** get_trial_locations *)

Definition get_trial_locations_params (condition country : value)
  : list (string * value) :=
  let params :=
    [("format", VStr "json");
     ("pageSize", VInt 50);
     ("query.cond", condition);
     ("fields", VStr "NCTId,BriefTitle,LocationFacility,LocationCity,LocationCountry")] in
  if truthy country then params ++ [("query.locn", country)] else params.

(** The test of line 152:
    [country and loc.get('country', '').lower() != country.lower()];
    [true] means the entry is skipped. *)
Definition country_mismatch (country loc : value) : result bool :=
  if truthy country then
    c <- get loc "country" (VStr "") ;;
    lc <- py_lower c ;;
    lf <- py_lower country ;;
    Ok (negb (String.eqb lc lf))
  else Ok false.

Definition facility_info (loc : value) : result value :=
  f <- get loc "facility" (VStr "N/A") ;;
  c <- get loc "city" (VStr "N/A") ;;
  k <- get loc "country" (VStr "N/A") ;;
  Ok (VDict [("facility", f); ("city", c); ("country", k)]).

(** One turn of the inner loop over [locations]. *)
Definition location_step (country : value) (facilities : list value) (loc : value)
  : result (list value) :=
  skip <- country_mismatch country loc ;;
  if skip then Ok facilities
  else
    info <- facility_info loc ;;
    if negb (list_contains facilities info)
    then Ok (facilities ++ [info])
    else Ok facilities.

(** One turn of the outer loop over [studies]. *)
Definition study_step (country : value) (facilities : list value) (study : value)
  : result (list value) :=
  protocol <- getitem study "protocolSection" ;;
  has <- contains "contactsLocationsModule" protocol ;;
  if has then
    m <- getitem protocol "contactsLocationsModule" ;;
    locations <- get m "locations" (VList []) ;;
    locs <- iter locations ;;
    foldM (location_step country) locs facilities
  else Ok facilities.

(** The list [facilities] when the two loops are over. *)
Definition collect_facilities (country studies : value) : result (list value) :=
  items <- iter studies ;;
  foldM (study_step country) items [].

Definition get_trial_locations_summary (condition country : value) (r : response)
  : result value :=
  if (status_code r =? 200)%Z then
    data <- json r ;;
    studies <- get data "studies" (VList []) ;;
    facilities <- collect_facilities country studies ;;
    Ok (VDict [("condition", condition);
               ("country", py_or country (VStr "all"));
               ("number_of_facilities", VInt (Z.of_nat (List.length facilities)));
               ("facilities", VList (firstn 20 facilities))])
  else Ok (api_error r).

Definition get_trial_locations (condition country : value) : prog value :=
  r <~ http_get STUDIES_URL (get_trial_locations_params condition country) ;;
  lift (get_trial_locations_summary condition country r).

(** *** get_trial_phases *)

Definition get_trial_phases_params (condition phase : value) : list (string * value) :=
  [("format", VStr "json");
   ("pageSize", VInt 100);
   ("query.cond", condition);
   ("query.term", phase);
   ("fields", VStr "NCTId,BriefTitle,Phase,StartDate,CompletionDate")].

(** One turn of the loop over [studies]: the dictionary appended to
    [trials]. *)
Definition trial_entry (study : value) : result value :=
  protocol <- getitem study "protocolSection" ;;
  status_module <- get protocol "statusModule" (VDict []) ;;
  i <- getitem protocol "identificationModule" ;;
  nct_id <- getitem i "nctId" ;;
  i' <- getitem protocol "identificationModule" ;;
  title <- getitem i' "briefTitle" ;;
  design <- get protocol "designModule" (VDict []) ;;
  phases <- get design "phases" (VList [VStr "N/A"]) ;;
  start <- get status_module "startDateStruct" (VDict []) ;;
  start_date <- get start "date" (VStr "N/A") ;;
  completion <- get status_module "completionDateStruct" (VDict []) ;;
  completion_date <- get completion "date" (VStr "N/A") ;;
  Ok (VDict [("nct_id", nct_id);
             ("title", title);
             ("phase", phases);
             ("start_date", start_date);
             ("completion_date", completion_date)]).

Definition get_trial_phases_summary (condition phase : value) (r : response)
  : result value :=
  if (status_code r =? 200)%Z then
    data <- json r ;;
    studies <- get data "studies" (VList []) ;;
    items <- iter studies ;;
    trials <- mapM trial_entry items ;;
    Ok (VDict [("condition", condition);
               ("phase", phase);
               ("count", VInt (Z.of_nat (List.length trials)));
               ("trials", VList trials)])
  else Ok (api_error r).

Definition get_trial_phases (condition phase : value) : prog value :=
  r <~ http_get STUDIES_URL (get_trial_phases_params condition phase) ;;
  lift (get_trial_phases_summary condition phase r).

(** ** The tool catalog *)

Definition string_property (description : string) : value :=
  VDict [("type", VStr "string"); ("description", VStr description)].

Definition tool (fname description : string) (properties : list (string * value))
  (required : list string) : value :=
  VDict [("type", VStr "function");
         ("function",
          VDict [("name", VStr fname);
                 ("description", VStr description);
                 ("parameters",
                  VDict [("type", VStr "object");
                         ("properties", VDict properties);
                         ("required", VList (map VStr required))])])].

Definition tools : value :=
  VList [
    tool "count_trials"
      "Count the number of clinical trials for a specific medical condition and status. Use this when users ask 'how many trials' or want to know trial counts."
      [("condition",
        string_property "The medical condition or disease (e.g., 'diabetes', 'asthma', 'ulcerative colitis')");
       ("status",
        VDict [("type", VStr "string");
               ("enum", VList [VStr "RECRUITING"; VStr "COMPLETED"; VStr "TERMINATED";
                               VStr "ACTIVE_NOT_RECRUITING"]);
               ("description", VStr "The trial status");
               ("default", VStr "RECRUITING")])]
      ["condition"];
    tool "get_eligibility_criteria"
      "Get eligibility criteria for clinical trials of a specific condition. Use this when users ask about eligibility, inclusion/exclusion criteria, or who can participate."
      [("condition", string_property "The medical condition");
       ("max_trials",
        VDict [("type", VStr "integer");
               ("description", VStr "Maximum number of trials to analyze");
               ("default", VInt 5)])]
      ["condition"];
    tool "get_trial_locations"
      "Get locations and facilities running clinical trials for a condition. Use this when users ask about trial sites, locations, or which hospitals/centers are conducting trials."
      [("condition", string_property "The medical condition");
       ("country",
        string_property "Optional country name to filter by (e.g., 'Spain', 'France', 'Germany')")]
      ["condition"];
    tool "get_trial_phases"
      "Get trials for a specific phase. Use this when users ask about Phase 1, 2, 3, or 4 trials, or trial duration by phase."
      [("condition", string_property "The medical condition");
       ("phase",
        VDict [("type", VStr "string");
               ("enum", VList [VStr "PHASE1"; VStr "PHASE2"; VStr "PHASE3"; VStr "PHASE4"]);
               ("description", VStr "The trial phase")])]
      ["condition"; "phase"]
  ].

(** ** Calling a helper with keyword arguments *)

(** Calling a helper [f(first, second)] or
    [f(first, second=default)] with the keyword arguments unpacked from
    [function_args]: the argument must be a mapping, every key
    must name a parameter, and a parameter without default must be
    given. *)
Definition call_with_kwargs (f : value -> value -> prog value)
  (first second : string) (default : option value) (function_args : value)
  : prog value :=
  match function_args with
  | VDict d =>
      if forallb (fun k => String.eqb k first || String.eqb k second) (keys d) then
        match lookup first d,
              match lookup second d with
              | Some v => Some v
              | None => default
              end
        with
        | Some a, Some b => f a b
        | _, _ => lift (Raise TypeError)
        end
      else lift (Raise TypeError)
  | _ => lift (Raise TypeError)
  end.

Section Agent.
Context `{RT : Runtime}.

(** The table from tool names to helpers, each with its signature. *)
Definition available_functions : list (string * (value -> prog value)) :=
  [("count_trials",
    call_with_kwargs count_trials "condition" "status" (Some (VStr "RECRUITING")));
   ("get_eligibility_criteria",
    call_with_kwargs get_eligibility_criteria "condition" "max_trials" (Some (VInt 5)));
   ("get_trial_locations",
    call_with_kwargs get_trial_locations "condition" "country" (Some VNone));
   ("get_trial_phases",
    call_with_kwargs get_trial_phases "condition" "phase" None)].

Fixpoint lookup_function (fname : string) (table : list (string * (value -> prog value)))
  : option (value -> prog value) :=
  match table with
  | [] => None
  | (k, f) :: r => if String.eqb fname k then Some f else lookup_function fname r
  end.

(** [available_functions[function_name]] *)
Definition resolve (function_name : string) : result (value -> prog value) :=
  match lookup_function function_name available_functions with
  | Some f => Ok f
  | None => Raise (KeyError function_name)
  end.

(** ** The agent *)

Definition SYSTEM_PROMPT : string :=
  "You are a clinical trials research assistant. You help pharmaceutical researchers find information about clinical trials using the ClinicalTrials.gov database. Answer questions clearly and cite specific data when available.".

Definition DEFAULT_MODEL : string := "llama-3.3-70b-versatile".

(** [response.choices[0].message] *)
Definition first_message (r : completion) : result response_message :=
  match choices r with
  | c :: _ => Ok (message c)
  | [] => Raise IndexError
  end.

(** One turn of the loop over [tool_calls]; returns [messages] with the
    tool result appended. *)
Definition tool_step (messages : list chat_message) (tc : tool_call)
  : prog (list chat_message) :=
  let function_name := name (function tc) in
  function_args <~ lift (json_loads (arguments (function tc))) ;;
  _ <~ print (PrintCalling function_name) ;;
  _ <~ print (PrintArgs function_args) ;;
  f <~ lift (resolve function_name) ;;
  function_response <~ f function_args ;;
  ret (messages ++ [ToolResult (id tc) function_name (json_dumps function_response)]).

Fixpoint for_each {A S : Type} (body : S -> A -> prog S) (xs : list A) (acc : S)
  : prog S :=
  match xs with
  | [] => ret acc
  | x :: r => acc' <~ body acc x ;; for_each body r acc'
  end.

Definition initial_messages (user_question : string) : list chat_message :=
  [RoleContent "system" SYSTEM_PROMPT; RoleContent "user" user_question].

Definition first_request (user_question model : string) : completion_request :=
  {| req_model := model;
     req_messages := initial_messages user_question;
     req_tools := Some tools;
     req_tool_choice := Some "auto";
     req_max_tokens := 4096 |}.

Definition final_request (model : string) (messages : list chat_message)
  : completion_request :=
  {| req_model := model;
     req_messages := messages;
     req_tools := None;
     req_tool_choice := None;
     req_max_tokens := 4096 |}.

(** [run_agent] returns [message.content], which the endpoint leaves
    [None] when a message only carries tool calls. *)
Definition run_agent (user_question model : string) : prog (option string) :=
  response <~ create (first_request user_question model) ;;
  response_message <~ lift (first_message response) ;;
  match tool_calls response_message with
  | None | Some [] => ret (content response_message)
  | Some calls =>
      messages <~ for_each tool_step calls
                    (initial_messages user_question ++ [Assistant response_message]) ;;
      final_response <~ create (final_request model messages) ;;
      final_message <~ lift (first_message final_response) ;;
      ret (content final_message)
  end.

End Agent.

(** ** Reading the results *)

(** The keys of the summaries that are computed from [studies]. *)
Definition STUDIES_KEYS : list string :=
  ["count"; "sample_titles"; "number_of_trials"; "criteria";
   "number_of_facilities"; "facilities"; "trials"].

(** Reads the status code back from the text of an error dictionary. *)
Definition read_status (text : string) : option Z :=
  if String.prefix "API error: " text
  then option_map Z.of_int
         (NilZero.int_of_string (String.substring 11 (String.length text - 11) text))
  else None.

(** An error dictionary for [code]: it has an ["error"] entry whose text
    carries the code, and none of the keys computed from [studies]. *)
Definition error_dictionary (code : Z) (v : value) : Prop :=
  exists text,
    v = VDict [("error", VStr text)] /\
    read_status text = Some code /\
    forall k, In k STUDIES_KEYS -> getitem v k = Raise (KeyError k).

(** [data.get('studies', [])] on the payload of a response. *)
Definition studies_of (r : response) : result value :=
  data <- json r ;;
  get data "studies" (VList []).

(** The events of a history that are registry calls, and those that are
    completion calls. *)
Definition registry_calls (t : list event) : list (list (string * value)) :=
  flat_map (fun e => match e with Get _ p => [p] | _ => [] end) t.

Definition completion_calls (t : list event) : list completion_request :=
  flat_map (fun e => match e with Create r => [r] | _ => [] end) t.

(** [get_eligibility_criteria] never returns more than [max_trials]
    entries, whatever the response holds. *)
Definition bounded_by_max_trials `{Runtime} : Prop :=
  forall (w : world) (t : list event) (condition : value) (max_trials : Z)
         (r : response) (v : value),
    requests_get w t STUDIES_URL
      (get_eligibility_criteria_params condition (VInt max_trials)) = Ok r ->
    status_code r = 200%Z ->
    fst (get_eligibility_criteria condition (VInt max_trials) w t) = Ok v ->
    exists n entries,
      getitem v "number_of_trials" = Ok (VInt n) /\
      getitem v "criteria" = Ok (VList entries) /\
      (n <= max_trials)%Z /\
      (Z.of_nat (List.length entries) <= max_trials)%Z.

(** ** Sample data *)

(** A runtime for the samples: [json.dumps] and [repr] on values whose
    strings need no escaping, [json.loads] on the payloads listed. *)
Definition dq : string := String (ascii_of_nat 34) "".

Fixpoint render (quote none true false : string) (v : value) : string :=
  match v with
  | VNone => none
  | VBool b => if b then true else false
  | VInt n => str_of_int n
  | VStr s => quote ++ s ++ quote
  | VList l =>
      "[" ++
      (fix items (l : list value) : string :=
         match l with
         | [] => ""
         | [x] => render quote none true false x
         | x :: r => render quote none true false x ++ ", " ++ items r
         end) l ++ "]"
  | VDict d =>
      "{" ++
      (fix items (d : list (string * value)) : string :=
         match d with
         | [] => ""
         | [(k, x)] => quote ++ k ++ quote ++ ": " ++ render quote none true false x
         | (k, x) :: r =>
             quote ++ k ++ quote ++ ": " ++ render quote none true false x ++ ", " ++ items r
         end) d ++ "}"
  end%string.

Definition sample_dumps : value -> string := render dq "null" "true" "false".

Definition sample_repr : value -> string := render "'" "None" "True" "False".

Definition asthma_phase3 : value :=
  VDict [("condition", VStr "asthma"); ("phase", VStr "PHASE3")].

Definition diabetes : value := VDict [("condition", VStr "diabetes")].

Definition sample_loads (s : string) : result value :=
  if String.eqb s "{}" then Ok (VDict [])
  else if String.eqb s (sample_dumps asthma_phase3) then Ok asthma_phase3
  else if String.eqb s (sample_dumps diabetes) then Ok diabetes
  else Raise JSONDecodeError.

Definition sample_runtime : Runtime :=
  {| json_loads := sample_loads; json_dumps := sample_dumps; py_repr := sample_repr |}.

(** A world for the samples: the registry answers every request with [r],
    the completion endpoint answers its n-th call with the n-th entry of
    [script]. *)
Definition stub_world (r : response) (script : list completion) : world :=
  {| requests_get := fun _ _ _ => Ok r;
     completions_create := fun t _ =>
       match nth_error script (List.length (completion_calls t)) with
       | Some c => Ok c
       | None => Raise APIError
       end |}.

Definition ok_200 (data : value) : response := {| status_code := 200; json := Ok data |}.

Definition not_found : response := {| status_code := 404; json := Raise JSONDecodeError |}.

Definition says (text : string) : completion :=
  {| choices := [{| message := {| content := Some text; tool_calls := None |} |}] |}.

Definition asks (calls : list tool_call) : completion :=
  {| choices := [{| message := {| content := None; tool_calls := Some calls |} |}] |}.

Definition invoke (call_id fname args : string) : tool_call :=
  {| id := call_id; function := {| name := fname; arguments := args |} |}.

(** A study record with the identification module only. *)
Definition bare_study (nct title : value) : value :=
  VDict [("protocolSection",
          VDict [("identificationModule",
                  VDict [("nctId", nct); ("briefTitle", title)])])].

Definition location (f c k : string) : value :=
  VDict [("facility", VStr f); ("city", VStr c); ("country", VStr k)].

(** [n] location entries of [n] different facilities. *)
Definition sites (n : nat) : list value :=
  map (fun i => location ("Site " ++ str_of_int (Z.of_nat i)) "Madrid" "Spain") (seq 0 n).

(** A study record with the given location entries. *)
Definition study_at (locs : list value) : value :=
  VDict [("protocolSection",
          VDict [("contactsLocationsModule", VDict [("locations", VList locs)])])].

(** ** Reading a record along a key path *)

(** The value found by following [path] through nested dictionaries;
    [None] when a key of the path is missing. *)
Fixpoint at_path (path : list string) (v : value) : option value :=
  match path with
  | [] => Some v
  | k :: rest =>
      match v with
      | VDict d =>
          match lookup k d with
          | Some x => at_path rest x
          | None => None
          end
      | _ => None
      end
  end.

Definition read_or (path : list string) (record default : value) : value :=
  match at_path path record with
  | Some x => x
  | None => default
  end.

Definition NA : value := VStr "N/A".






(** ** Equality up to letter case *)

(** The other case of a letter that has one among the code points of the
    model; any other character is left alone. *)
Definition swap_case_char (c : ascii) : ascii :=
  let n := N_of_ascii c in
  if ((65 <=? n) && (n <=? 90))%N then ascii_of_N (n + 32)
  else if ((97 <=? n) && (n <=? 122))%N then ascii_of_N (n - 32)
  else if ((192 <=? n) && (n <=? 222) && negb (n =? 215))%N then ascii_of_N (n + 32)
  else if ((224 <=? n) && (n <=? 254) && negb (n =? 247))%N then ascii_of_N (n - 32)
  else c.

(** Two characters are the same letter when they are equal or one is the
    other case of the other. *)
Definition same_letter (a b : ascii) : Prop := a = b \/ b = swap_case_char a.

Definition same_letterb (a b : ascii) : bool :=
  Ascii.eqb a b || Ascii.eqb b (swap_case_char a).

(** Two strings are equal up to letter case when they have the same
    length and the same letter at each position. *)
Inductive same_up_to_case : string -> string -> Prop :=
| same_empty : same_up_to_case "" ""
| same_cons (a b : ascii) (s t : string) :
    same_letter a b -> same_up_to_case s t ->
    same_up_to_case (String a s) (String b t).

Definition all_chars : list ascii := map ascii_of_nat (seq 0 256).

(** With a country argument, an entry is kept exactly when its country
    equals the argument up to letter case. *)
Definition filter_is_case_insensitive : Prop :=
  forall (country s : string) (d : list (string * value)),
    lookup "country" d = Some (VStr s) ->
    (country_mismatch (VStr country) (VDict d) = Ok false <-> same_up_to_case s country).

(** ** Deduplication *)

Fixpoint unique (ks : list string) : bool :=
  match ks with
  | [] => true
  | k :: r => negb (existsb (String.eqb k) r) && unique r
  end.

(** What [json.loads] builds: no dictionary, at any depth, has a key
    twice. *)
Fixpoint well_formed (v : value) : bool :=
  match v with
  | VList l => forallb well_formed l
  | VDict d => unique (keys d) && forallb (fun kv => well_formed (snd kv)) d
  | _ => true
  end.

(** Collects the results of [f] over [xs], stopping at the first
    exception. *)
Fixpoint concatM {A B : Type} (f : A -> result (list B)) (xs : list A)
  : result (list B) :=
  match xs with
  | [] => Ok []
  | x :: r => ys <- f x ;; zs <- concatM f r ;; Ok (ys ++ zs)
  end.

(** The facility entry of a location entry that passes the country
    filter. *)
Definition kept_entry (country loc : value) : result (list value) :=
  skip <- country_mismatch country loc ;;
  if skip then Ok [] else info <- facility_info loc ;; Ok [info].

Definition kept_entries_of_study (country study : value) : result (list value) :=
  protocol <- getitem study "protocolSection" ;;
  has <- contains "contactsLocationsModule" protocol ;;
  if has then
    m <- getitem protocol "contactsLocationsModule" ;;
    locations <- get m "locations" (VList []) ;;
    locs <- iter locations ;;
    concatM (kept_entry country) locs
  else Ok [].

(** The scan: the facility entries of all location entries that pass the
    filter, study by study and location by location, repetitions
    included. *)
Definition scanned (country studies : value) : result (list value) :=
  items <- iter studies ;;
  concatM (kept_entries_of_study country) items.

(** [facility_info not in facilities], then [append]. *)
Definition add_new (facilities : list value) (info : value) : list value :=
  if list_contains facilities info then facilities else facilities ++ [info].

(** The entries of [scan] that are not equal ([==]) to an earlier one,
    in the order of [scan]; [seen] holds what came before. *)
Fixpoint first_seen (seen scan : list value) : list value :=
  match scan with
  | [] => []
  | x :: r =>
      if existsb (fun earlier => py_eq earlier x) seen
      then first_seen (seen ++ [x]) r
      else x :: first_seen (seen ++ [x]) r
  end.

(** How many entries of [l] are equal ([==]) to [t]. *)
Definition occurrences (t : value) (l : list value) : nat :=
  List.length (filter (fun r => py_eq r t) l).

(** No entry of [l] is equal to a later one. *)
Definition distinct (l : list value) : Prop :=
  ForallOrdPairs (fun a b => py_eq a b = false) l.

(** ** What the tool loop does *)

(** The identifier a tool-result message is tagged with. *)
Definition tagged_with (m : chat_message) : option string :=
  match m with
  | ToolResult call_id _ _ => Some call_id
  | _ => None
  end.

Section ToolLoop.
Context `{RT : Runtime}.

(** [invocations_run w t calls events msgs]: starting from the history
    [t], the invocations [calls] are executed one after the other, each
    with one registry call after its two progress lines; [events] is what
    this adds to the history and [msgs] are the tool-result messages, one
    per invocation, in the order of the invocations. *)
Inductive invocations_run (w : world)
  : list event -> list tool_call -> list event -> list chat_message -> Prop :=
| run_none (t : list event) : invocations_run w t [] [] []
| run_one (t : list event) (tc : tool_call) (calls : list tool_call)
    (args : value) (f : value -> prog value) (params : list (string * value))
    (res : value) (events : list event) (msgs : list chat_message) :
    let fname := name (function tc) in
    let segment := [PrintCalling fname; PrintArgs args; Get STUDIES_URL params] in
    json_loads (arguments (function tc)) = Ok args ->
    resolve fname = Ok f ->
    f args w (t ++ [PrintCalling fname; PrintArgs args]) = (Ok res, t ++ segment) ->
    getitem args "condition" = Ok (match lookup "query.cond" params with
                                   | Some c => c
                                   | None => VNone
                                   end) ->
    invocations_run w (t ++ segment) calls events msgs ->
    invocations_run w t (tc :: calls) (segment ++ events)
      (ToolResult (id tc) fname (json_dumps res) :: msgs).

(** [invocation_fails w t tc e added]: from the history [t], executing
    the invocation [tc] raises [e], and [added] is what this adds to the
    history: nothing when the argument payload does not parse; the two
    progress lines when the name is not in the function table; the two
    progress lines and what the function has sent when it is the call
    that raises. *)
Inductive invocation_fails (w : world) (t : list event) (tc : tool_call)
  : exn -> list event -> Prop :=
| fails_payload (e : exn) :
    json_loads (arguments (function tc)) = Raise e ->
    invocation_fails w t tc e []
| fails_lookup (args : value) (e : exn) :
    let fname := name (function tc) in
    json_loads (arguments (function tc)) = Ok args ->
    resolve fname = Raise e ->
    invocation_fails w t tc e [PrintCalling fname; PrintArgs args]
| fails_call (args : value) (f : value -> prog value) (e : exn) (sent : list event) :
    let fname := name (function tc) in
    let lines := [PrintCalling fname; PrintArgs args] in
    json_loads (arguments (function tc)) = Ok args ->
    resolve fname = Ok f ->
    f args w (t ++ lines) = (Raise e, t ++ lines ++ sent) ->
    invocation_fails w t tc e (lines ++ sent).

(** Whatever the first completion asks for, [run_agent] executes every
    invocation, then asks for one more completion and returns its
    content. *)
Definition executes_every_invocation : Prop :=
  forall (w : world) (t : list event) (user_question model : string)
         (first : completion) (m : response_message) (calls : list tool_call),
    completions_create w t (first_request user_question model) = Ok first ->
    first_message first = Ok m ->
    tool_calls m = Some calls ->
    calls <> [] ->
    exists done tool_messages final_message,
      run_agent user_question model w t = (Ok (content final_message), t ++ done) /\
      List.length (registry_calls done) = List.length calls /\
      map tagged_with tool_messages = map (fun tc => Some (id tc)) calls /\
      completion_calls done =
        [first_request user_question model;
         final_request model
           (initial_messages user_question ++ [Assistant m] ++ tool_messages)].

End ToolLoop.

(** A question that makes the model ask for one Phase 3 query. *)
Definition phase3_script : list completion :=
  [asks [invoke "call_1" "get_trial_phases" (sample_dumps asthma_phase3)];
   says "Two Phase 3 asthma trials were found."].

Definition two_trials : response :=
  ok_200 (VDict [("studies", VList [bare_study (VStr "NCT01") (VStr "A");
                                    bare_study (VStr "NCT02") (VStr "B")])]).

(** ** Further notions used by the additional properties *)

(** The entry [e] carries the trial number and the title of the record
    [study]. *)
Definition identified_by (study e : value) : Prop :=
  exists nct title,
    at_path ["protocolSection"; "identificationModule"; "nctId"] study = Some nct /\
    at_path ["protocolSection"; "identificationModule"; "briefTitle"] study = Some title /\
    getitem e "nct_id" = Ok nct /\
    getitem e "title" = Ok title.

(** *** Reading the tool catalog *)

Definition catalog : list value :=
  match tools with
  | VList entries => entries
  | _ => []
  end.

(** The name a catalog entry announces. *)
Definition declared_name (entry : value) : option string :=
  match at_path ["function"; "name"] entry with
  | Some (VStr s) => Some s
  | _ => None
  end.

(** The parameters a catalog entry announces. *)
Definition declared_properties (entry : value) : list string :=
  match at_path ["function"; "parameters"; "properties"] entry with
  | Some (VDict d) => keys d
  | _ => []
  end.

(** The parameters a catalog entry announces as required. *)
Definition declared_required (entry : value) : list string :=
  match at_path ["function"; "parameters"; "required"] entry with
  | Some (VList l) =>
      flat_map (fun v => match v with VStr s => [s] | _ => [] end) l
  | _ => []
  end.

(** The default a catalog entry announces for a parameter. *)
Definition declared_default (entry : value) (parameter : string) : option value :=
  at_path ["function"; "parameters"; "properties"; parameter; "default"] entry.

(** The arguments [d] fit a catalog entry: every key is an announced
    parameter and every required parameter is there. *)
Definition conforms (entry : value) (d : list (string * value)) : bool :=
  forallb (fun k => existsb (String.eqb k) (declared_properties entry)) (keys d)
  && forallb (fun k => existsb (String.eqb k) (keys d)) (declared_required entry).

(** *** Reading a run of the agent *)

(** The invocations the first completion asks for ([[]] when that call
    fails, returns no choice, or asks for none). *)
Definition requested_invocations (w : world) (t : list event)
  (user_question model : string) : list tool_call :=
  match completions_create w t (first_request user_question model) with
  | Ok first =>
      match first_message first with
      | Ok m =>
          match tool_calls m with
          | Some calls => calls
          | None => []
          end
      | Raise _ => []
      end
  | Raise _ => []
  end.

Section Fits.
Context `{RT : Runtime}.

(** An invocation that fits the catalog: its name is the name of an
    entry, its payload parses to an object, and the object fits the
    entry. *)
Definition fits_catalog (tc : tool_call) : Prop :=
  exists entry d,
    In entry catalog /\
    declared_name entry = Some (name (function tc)) /\
    json_loads (arguments (function tc)) = Ok (VDict d) /\
    conforms entry d = true.

End Fits.

(** ** The script around the agent *)

(** What the [__main__] block of the module does, in order: the events of
    the runs of [run_agent], the lines it prints itself, and the prompts
    of [input].  A line printed with the answer in it is recorded by its
    parts, and the line printed for an exception by the exception. *)
Inductive console_event : Type :=
| Agent (e : event)
| Say (text : string)
| SayAnswer (before : string) (answer : option string) (after : string)
    (* print(f"{before}{answer}{after}") *)
| SayError (e : exn)
| Ask (prompt : string).

(** What the two services have seen so far. *)
Definition agent_history (c : list console_event) : list event :=
  flat_map (fun x => match x with Agent e => [e] | _ => [] end) c.

Definition NL : string := String (ascii_of_nat 10) "".

Fixpoint repeat_string (s : string) (n : nat) : string :=
  match n with
  | O => ""
  | S k => (s ++ repeat_string s k)%string
  end.

Definition RULE : string := repeat_string "=" 80.

Definition test_questions : list string :=
  ["How many trials are currently recruiting for diabetes?";
   "What are typical eligibility criteria for Ulcerative Colitis trials?";
   "Which clinical sites in Spain have been used for depression trials?";
   "Show me Phase 3 Asthma trials"].

(** [question.lower() in ['quit', 'exit', 'q']] *)
Definition is_quit (question : string) : bool :=
  existsb (String.eqb (lower question)) ["quit"; "exit"; "q"].

Section Main.
Context `{RT : Runtime}.

(** [try: answer = run_agent(question); print(...answer...)]
    [except Exception as e: print(...e...)] *)
Definition try_run_agent (w : world) (before after question : string)
  (c : list console_event) : list console_event :=
  let h := agent_history c in
  let (outcome, h') := run_agent question DEFAULT_MODEL w h in
  let c' := c ++ map Agent (skipn (List.length h) h') in
  match outcome with
  | Ok answer => c' ++ [SayAnswer before answer after]
  | Raise e => c' ++ [SayError e]
  end.

(** The loop over [enumerate(test_questions, 1)], from number [i] on. *)
Fixpoint test_loop (w : world) (i : Z) (questions : list string)
  (c : list console_event) : list console_event :=
  match questions with
  | [] => c
  | question :: r =>
      let c1 := c ++ [Say (NL ++ RULE);
                      Say ("QUESTION " ++ str_of_int i ++ ": " ++ question);
                      Say RULE]%string in
      let c2 := try_run_agent w (NL ++ "ANSWER:" ++ NL)%string "" question c1 in
      test_loop w (i + 1) r (c2 ++ [Say NL])
  end.

(** How the script ends: the loop is left by [break], or [input] finds
    the input exhausted and raises [EOFError], which nothing catches. *)
Inductive ending : Type := Quit | EndOfInput.

(** The [while True] loop, reading the lines of [stdin]. *)
Fixpoint interactive_mode (w : world) (stdin : list string)
  (c : list console_event) : ending * list console_event :=
  let c0 := c ++ [Ask (NL ++ "Your question: ")%string] in
  match stdin with
  | [] => (EndOfInput, c0)
  | question :: r =>
      if is_quit question then (Quit, c0)
      else interactive_mode w r
             (try_run_agent w (" Answer:" ++ NL)%string NL question c0)
  end.

Definition main (w : world) (stdin : list string) : ending * list console_event :=
  let c := [Say RULE; Say "CLINICAL TRIALS AGENT"; Say RULE] in
  let c := test_loop w 1 test_questions c in
  let c := c ++ [Say (NL ++ RULE)%string; Say "INTERACTIVE MODE"; Say RULE] in
  interactive_mode w stdin c.

End Main.

(** The questions of the input that come before the first quit word. *)
Fixpoint questions_before_quit (stdin : list string) : list string :=
  match stdin with
  | [] => []
  | question :: r => if is_quit question then [] else question :: questions_before_quit r
  end.

Definition has_quit (stdin : list string) : bool := existsb is_quit stdin.

(** The completion calls of a console log that offer the catalog: the
    first call of each run of [run_agent]. *)
Definition questions_put (c : list console_event) : list completion_request :=
  filter (fun req => match req_tools req with Some _ => true | None => false end)
    (completion_calls (agent_history c)).

(** How many answers or errors the script has printed. *)
Definition reports (c : list console_event) : nat :=
  List.length (filter (fun x => match x with
                                | SayAnswer _ _ _ | SayError _ => true
                                | _ => false
                                end) c).

(** ** The facilities a response holds *)

(** Read off the payload alone, without the loops of
    [get_trial_locations]. *)

(** The study records of a [studies] value. *)
Definition records (studies : value) : list value :=
  match studies with
  | VList l => l
  | _ => []
  end.

(** The location entries of a study record. *)
Definition locations_of (study : value) : list value :=
  match at_path ["protocolSection"; "contactsLocationsModule"; "locations"] study with
  | Some (VList l) => l
  | _ => []
  end.

(** The (facility, city, country) triple of a location entry, a missing
    field read as ["N/A"]. *)
Definition triple_of (loc : value) : value :=
  VDict [("facility", read_or ["facility"] loc NA);
         ("city", read_or ["city"] loc NA);
         ("country", read_or ["country"] loc NA)].

(** The location entry passes the country filter: no country is asked
    for, or the entry has a country whose lowercase form is that of the
    country asked for. *)
Definition passes_filter (country loc : value) : bool :=
  if truthy country then
    match country, at_path ["country"] loc with
    | VStr c, Some (VStr s) => String.eqb (lower s) (lower c)
    | _, _ => false
    end
  else true.

(** The triples of the location entries that pass the filter, in the
    order of the scan over the studies and their locations, repetitions
    included. *)
Definition listed_triples (country studies : value) : list value :=
  map triple_of
    (filter (passes_filter country) (flat_map locations_of (records studies))).

(** Every location entry of the response has exactly one entry in the
    collected list, and this entry is its triple. *)
Definition every_triple_is_listed_once (country : value) : Prop :=
  forall (studies : value) (collected : list value) (loc : value),
    collect_facilities country studies = Ok collected ->
    In loc (flat_map locations_of (records studies)) ->
    exists before after,
      collected = before ++ triple_of loc :: after /\
      ~ In (triple_of loc) before /\
      ~ In (triple_of loc) after.

(** * Properties *)

(** ** Bookkeeping lemmas *)

Lemma read_status_str_of_int (n : Z) :
  read_status ("API error: " ++ str_of_int n)%string = Some n.
Proof.
  unfold read_status. cbn [String.prefix String.append].
  change (String.length _) with (11 + String.length (str_of_int n))%nat.
  rewrite Nat.add_comm, Nat.add_sub.
  cbn [String.substring String.append].
  assert (E : forall s, String.substring 0 (String.length s) s = s).
  { induction s as [|c s IH]; cbn; [reflexivity | now rewrite IH]. }
  rewrite E. unfold str_of_int.
  rewrite NilZero.isi.
  - cbn. rewrite DecimalZ.of_to.
    now destruct (NilZero.string_of_int (Z.to_int n)).
  - destruct n; cbn; try discriminate.
    intros [= H]. now apply DecimalPos.Unsigned.to_uint_nonnil in H.
  - destruct n; cbn; try discriminate.
    intros [= H]. now apply DecimalPos.Unsigned.to_uint_nonnil in H.
Qed.

Lemma api_error_is_error_dictionary (r : response) :
  error_dictionary (status_code r) (api_error r).
Proof.
  exists ("API error: " ++ str_of_int (status_code r))%string.
  split; [reflexivity|]. split; [apply read_status_str_of_int|].
  intros k Hk. unfold STUDIES_KEYS in Hk. cbn in Hk.
  repeat (destruct Hk as [<- | Hk]; [reflexivity|]). contradiction.
Qed.

Lemma not_200 (r : response) : status_code r <> 200%Z -> (status_code r =? 200)%Z = false.
Proof. apply Z.eqb_neq. Qed.

(** Splits [x <- c ;; k = Ok v] into [c = Ok a] and [k a = Ok v]. *)
Ltac bind_ok H :=
  match type of H with
  | bind ?c _ = Ok _ =>
      let E := fresh "E" in
      destruct c eqn:E; cbn [bind] in H; [| discriminate H]
  end.

Lemma studies_of_absent (r : response) (d : list (string * value)) :
  json r = Ok (VDict d) ->
  lookup "studies" d = None \/ lookup "studies" d = Some (VList []) ->
  studies_of r = Ok (VList []).
Proof.
  intros Hj Hs. unfold studies_of. rewrite Hj. cbn.
  destruct Hs as [-> | ->]; reflexivity.
Qed.

Lemma count_trials_summary_200 (condition status : value) (r : response) :
  status_code r = 200%Z ->
  count_trials_summary condition status r =
    (studies <- studies_of r ;;
     n <- len studies ;;
     first3 <- slice_to 3 studies ;;
     items <- iter first3 ;;
     titles <- mapM brief_title items ;;
     Ok (VDict [("count", VInt n);
                ("condition", condition);
                ("status", status);
                ("sample_titles", VList titles)])).
Proof.
  intros H. unfold count_trials_summary, studies_of. rewrite H. cbn.
  destruct (json r); reflexivity.
Qed.

Lemma get_trial_locations_summary_200 (condition country : value) (r : response) :
  status_code r = 200%Z ->
  get_trial_locations_summary condition country r =
    (studies <- studies_of r ;;
     facilities <- collect_facilities country studies ;;
     Ok (VDict [("condition", condition);
                ("country", py_or country (VStr "all"));
                ("number_of_facilities", VInt (Z.of_nat (List.length facilities)));
                ("facilities", VList (firstn 20 facilities))])).
Proof.
  intros H. unfold get_trial_locations_summary, studies_of. rewrite H. cbn.
  destruct (json r); reflexivity.
Qed.

Lemma get_trial_phases_summary_200 (condition phase : value) (r : response) :
  status_code r = 200%Z ->
  get_trial_phases_summary condition phase r =
    (studies <- studies_of r ;;
     items <- iter studies ;;
     trials <- mapM trial_entry items ;;
     Ok (VDict [("condition", condition);
                ("phase", phase);
                ("count", VInt (Z.of_nat (List.length trials)));
                ("trials", VList trials)])).
Proof.
  intros H. unfold get_trial_phases_summary, studies_of. rewrite H. cbn.
  destruct (json r); reflexivity.
Qed.

Lemma get_eligibility_criteria_summary_200 `{RT : Runtime}
  (condition : value) (r : response) :
  status_code r = 200%Z ->
  get_eligibility_criteria_summary condition r =
    (studies <- studies_of r ;;
     items <- iter studies ;;
     criteria_list <- mapM criteria_entry items ;;
     Ok (VDict [("condition", condition);
                ("number_of_trials", VInt (Z.of_nat (List.length criteria_list)));
                ("criteria", VList criteria_list)])).
Proof.
  intros H. unfold get_eligibility_criteria_summary, studies_of. rewrite H. cbn.
  destruct (json r); reflexivity.
Qed.

(** What a helper returns is what its summary makes of the response. *)
Lemma count_trials_run (w : world) (t : list event) (r : response) (c s : value) :
  requests_get w t STUDIES_URL (count_trials_params c s) = Ok r ->
  count_trials c s w t =
    (count_trials_summary c s r, t ++ [Get STUDIES_URL (count_trials_params c s)]).
Proof. intros H. unfold count_trials, pbind, http_get, lift. now rewrite H. Qed.

Lemma get_eligibility_criteria_run `{RT : Runtime}
  (w : world) (t : list event) (r : response) (c m : value) :
  requests_get w t STUDIES_URL (get_eligibility_criteria_params c m) = Ok r ->
  get_eligibility_criteria c m w t =
    (get_eligibility_criteria_summary c r,
     t ++ [Get STUDIES_URL (get_eligibility_criteria_params c m)]).
Proof. intros H. unfold get_eligibility_criteria, pbind, http_get, lift. now rewrite H. Qed.

Lemma get_trial_locations_run (w : world) (t : list event) (r : response) (c k : value) :
  requests_get w t STUDIES_URL (get_trial_locations_params c k) = Ok r ->
  get_trial_locations c k w t =
    (get_trial_locations_summary c k r,
     t ++ [Get STUDIES_URL (get_trial_locations_params c k)]).
Proof. intros H. unfold get_trial_locations, pbind, http_get, lift. now rewrite H. Qed.

Lemma get_trial_phases_run (w : world) (t : list event) (r : response) (c p : value) :
  requests_get w t STUDIES_URL (get_trial_phases_params c p) = Ok r ->
  get_trial_phases c p w t =
    (get_trial_phases_summary c p r,
     t ++ [Get STUDIES_URL (get_trial_phases_params c p)]).
Proof. intros H. unfold get_trial_phases, pbind, http_get, lift. now rewrite H. Qed.

Section Properties.
Context `{RT : Runtime}.

(** *** Non-200 responses *)

(** C1. When the registry answers with a status other than 200, each of
    the four helpers returns (it does not raise) an error dictionary: its
    ["error"] text carries the status code, and none of the keys computed
    from [studies] is present. *)
Theorem non_200_yields_error_dictionary
  (w : world) (t : list event) (r : response) (condition arg : value) :
  (forall params, requests_get w t STUDIES_URL params = Ok r) ->
  status_code r <> 200%Z ->
  (exists v, fst (count_trials condition arg w t) = Ok v
             /\ error_dictionary (status_code r) v) /\
  (exists v, fst (get_eligibility_criteria condition arg w t) = Ok v
             /\ error_dictionary (status_code r) v) /\
  (exists v, fst (get_trial_locations condition arg w t) = Ok v
             /\ error_dictionary (status_code r) v) /\
  (exists v, fst (get_trial_phases condition arg w t) = Ok v
             /\ error_dictionary (status_code r) v).
Proof.
  intros Hw Hs. apply not_200 in Hs.
  repeat split; exists (api_error r);
    (split; [| apply api_error_is_error_dictionary]).
  - rewrite (count_trials_run _ _ r) by apply Hw.
    unfold count_trials_summary. now rewrite Hs.
  - rewrite (get_eligibility_criteria_run _ _ r) by apply Hw.
    unfold get_eligibility_criteria_summary. now rewrite Hs.
  - rewrite (get_trial_locations_run _ _ r) by apply Hw.
    unfold get_trial_locations_summary. now rewrite Hs.
  - rewrite (get_trial_phases_run _ _ r) by apply Hw.
    unfold get_trial_phases_summary. now rewrite Hs.
Qed.

(** *** Responses without studies *)

(** C7. On a 200 response whose payload has no ["studies"] key, or has it
    with an empty array, each of the four helpers returns (it does not
    raise) its summary with a zero count and empty lists. *)
Theorem no_studies_yields_empty_summary
  (w : world) (t : list event) (r : response) (d : list (string * value))
  (condition arg : value) :
  (forall params, requests_get w t STUDIES_URL params = Ok r) ->
  status_code r = 200%Z ->
  json r = Ok (VDict d) ->
  lookup "studies" d = None \/ lookup "studies" d = Some (VList []) ->
  fst (count_trials condition arg w t) =
    Ok (VDict [("count", VInt 0); ("condition", condition); ("status", arg);
               ("sample_titles", VList [])]) /\
  fst (get_eligibility_criteria condition arg w t) =
    Ok (VDict [("condition", condition); ("number_of_trials", VInt 0);
               ("criteria", VList [])]) /\
  fst (get_trial_locations condition arg w t) =
    Ok (VDict [("condition", condition); ("country", py_or arg (VStr "all"));
               ("number_of_facilities", VInt 0); ("facilities", VList [])]) /\
  fst (get_trial_phases condition arg w t) =
    Ok (VDict [("condition", condition); ("phase", arg); ("count", VInt 0);
               ("trials", VList [])]).
Proof.
  intros Hw Hs Hj Hd.
  pose proof (studies_of_absent r d Hj Hd) as E.
  repeat split.
  - rewrite (count_trials_run _ _ r) by apply Hw.
    rewrite count_trials_summary_200, E by assumption. reflexivity.
  - rewrite (get_eligibility_criteria_run _ _ r) by apply Hw.
    rewrite get_eligibility_criteria_summary_200, E by assumption. reflexivity.
  - rewrite (get_trial_locations_run _ _ r) by apply Hw.
    rewrite get_trial_locations_summary_200, E by assumption. reflexivity.
  - rewrite (get_trial_phases_run _ _ r) by apply Hw.
    rewrite get_trial_phases_summary_200, E by assumption. reflexivity.
Qed.

(** *** The agent without tool calls *)

(** C3. When the first completion carries no tool invocation
    ([tool_calls] is [None] or empty), [run_agent] returns the content of
    that message as it is; the only thing it has done is that one
    completion call: no registry call, no second completion call. *)
Theorem no_tool_call_returns_text
  (w : world) (t : list event) (user_question model : string)
  (first : completion) (m : response_message) :
  completions_create w t (first_request user_question model) = Ok first ->
  first_message first = Ok m ->
  tool_calls m = None \/ tool_calls m = Some [] ->
  exists done,
    run_agent user_question model w t = (Ok (content m), t ++ done) /\
    completion_calls done = [first_request user_question model] /\
    registry_calls done = [].
Proof.
  intros Hc Hm Ht.
  exists [Create (first_request user_question model)].
  split; [| split; reflexivity].
  unfold run_agent, pbind, create, lift. rewrite Hc, Hm.
  destruct Ht as [-> | ->]; reflexivity.
Qed.

End Properties.

Lemma no_studies_yields_empty_summary_witness :
  fst (count_trials (VStr "diabetes") (VStr "RECRUITING")
         (stub_world (ok_200 (VDict [])) []) []) =
    Ok (VDict [("count", VInt 0); ("condition", VStr "diabetes");
               ("status", VStr "RECRUITING"); ("sample_titles", VList [])]) /\
  fst (@get_eligibility_criteria sample_runtime (VStr "diabetes") (VStr "RECRUITING")
         (stub_world (ok_200 (VDict [])) []) []) =
    Ok (VDict [("condition", VStr "diabetes"); ("number_of_trials", VInt 0);
               ("criteria", VList [])]) /\
  fst (get_trial_locations (VStr "diabetes") (VStr "RECRUITING")
         (stub_world (ok_200 (VDict [])) []) []) =
    Ok (VDict [("condition", VStr "diabetes");
               ("country", py_or (VStr "RECRUITING") (VStr "all"));
               ("number_of_facilities", VInt 0); ("facilities", VList [])]) /\
  fst (get_trial_phases (VStr "diabetes") (VStr "RECRUITING")
         (stub_world (ok_200 (VDict [])) []) []) =
    Ok (VDict [("condition", VStr "diabetes"); ("phase", VStr "RECRUITING");
               ("count", VInt 0); ("trials", VList [])]).
Proof.
  apply (@no_studies_yields_empty_summary sample_runtime
           (stub_world (ok_200 (VDict [])) []) [] (ok_200 (VDict [])) []).
  - intros params. reflexivity.
  - reflexivity.
  - reflexivity.
  - left. reflexivity.
Defined.

Lemma no_tool_call_returns_text_witness :
  exists done,
    @run_agent sample_runtime "Show me Phase 3 Asthma trials" DEFAULT_MODEL
      (stub_world not_found [says "Which condition?"]) [] =
      (Ok (Some "Which condition?"), [] ++ done) /\
    completion_calls done = [first_request "Show me Phase 3 Asthma trials" DEFAULT_MODEL] /\
    registry_calls done = [].
Proof.
  apply (@no_tool_call_returns_text sample_runtime
           (stub_world not_found [says "Which condition?"]) []
           "Show me Phase 3 Asthma trials" DEFAULT_MODEL
           (says "Which condition?")
           {| content := Some "Which condition?"; tool_calls := None |}).
  - reflexivity.
  - reflexivity.
  - left. reflexivity.
Defined.

Lemma non_200_yields_error_dictionary_witness :
  (exists v, fst (count_trials (VStr "diabetes") (VStr "RECRUITING")
                    (stub_world not_found []) []) = Ok v
             /\ error_dictionary 404 v) /\
  (exists v, fst (@get_eligibility_criteria sample_runtime (VStr "diabetes")
                    (VStr "RECRUITING") (stub_world not_found []) []) = Ok v
             /\ error_dictionary 404 v) /\
  (exists v, fst (get_trial_locations (VStr "diabetes") (VStr "RECRUITING")
                    (stub_world not_found []) []) = Ok v
             /\ error_dictionary 404 v) /\
  (exists v, fst (get_trial_phases (VStr "diabetes") (VStr "RECRUITING")
                    (stub_world not_found []) []) = Ok v
             /\ error_dictionary 404 v).
Proof.
  apply (@non_200_yields_error_dictionary sample_runtime
           (stub_world not_found []) [] not_found).
  - intros params. reflexivity.
  - simpl. lia.
Defined.

(** ** Lengths and slices *)

Lemma mapM_length {A B : Type} (f : A -> result B) (xs : list A) (ys : list B) :
  mapM f xs = Ok ys -> List.length ys = List.length xs.
Proof.
  revert ys. induction xs as [|x xs IH]; intros ys H; cbn in H.
  - now injection H as <-.
  - bind_ok H. bind_ok H. injection H as <-. cbn. f_equal. now apply IH.
Qed.

Lemma chars_substring (n : nat) (s : string) :
  chars (String.substring 0 n s) = firstn n (chars s).
Proof.
  revert s. induction n as [|n IH]; intros [|c s]; cbn; try reflexivity.
  now rewrite IH.
Qed.

(** Iterating over [v[:n]] visits the first [n] items of [v]. *)
Lemma iter_slice_to (n : nat) (v v' : value) (items' : list value) :
  slice_to n v = Ok v' ->
  iter v' = Ok items' ->
  exists items, iter v = Ok items /\ items' = firstn n items.
Proof.
  destruct v; cbn; try discriminate; intros [= <-]; cbn; intros [= <-].
  - exists (chars s). split; [reflexivity | apply chars_substring].
  - exists l. split; reflexivity.
Qed.

(** ** The bound of get_eligibility_criteria *)

Lemma mapM_Forall2 {A B : Type} (f : A -> result B) (xs : list A) (ys : list B) :
  mapM f xs = Ok ys -> Forall2 (fun x y => f x = Ok y) xs ys.
Proof.
  revert ys. induction xs as [|x xs IH]; intros ys H; cbn in H.
  - injection H as <-. constructor.
  - bind_ok H. bind_ok H. injection H as <-. constructor; auto.
Qed.

Section MaxTrials.
Context `{RT : Runtime}.

(** C6, as the code has it.  [get_eligibility_criteria] sends
    [max_trials] to the registry as the page size and then reports every
    study record of the response: on a 200 response the ["criteria"] list
    has one entry per record and ["number_of_trials"] is its length.  So
    the summary is bounded by [max_trials] when the response holds at
    most [max_trials] records. *)
Theorem criteria_follow_the_response
  (w : world) (t : list event) (condition max_trials : value)
  (r : response) (v : value) :
  requests_get w t STUDIES_URL
    (get_eligibility_criteria_params condition max_trials) = Ok r ->
  status_code r = 200%Z ->
  fst (get_eligibility_criteria condition max_trials w t) = Ok v ->
  (exists params,
     snd (get_eligibility_criteria condition max_trials w t)
       = t ++ [Get STUDIES_URL params] /\
     lookup "pageSize" params = Some max_trials) /\
  (exists studies items entries,
     studies_of r = Ok studies /\
     iter studies = Ok items /\
     Forall2 (fun study e => criteria_entry study = Ok e) items entries /\
     getitem v "criteria" = Ok (VList entries) /\
     getitem v "number_of_trials" = Ok (VInt (Z.of_nat (List.length items))) /\
     forall m : Z,
       (Z.of_nat (List.length items) <= m)%Z ->
       (Z.of_nat (List.length entries) <= m)%Z).
Proof.
  intros Hw Hs H.
  rewrite (get_eligibility_criteria_run _ _ r) in * by assumption.
  cbn [fst snd] in *. split.
  - eexists. split; reflexivity.
  - rewrite get_eligibility_criteria_summary_200 in H by assumption.
    do 3 bind_ok H. injection H as <-.
    exists a, a0, a1. pose proof (mapM_length _ _ _ E1) as L.
    repeat split; try assumption.
    + now apply mapM_Forall2.
    + cbn. now rewrite L.
    + intros m. now rewrite L.
Qed.

End MaxTrials.

(** Two records come back although one was asked for: both are reported. *)
Lemma two_records_for_max_trials_1 :
  ~ @bounded_by_max_trials sample_runtime.
Proof.
  intros H.
  pose (r := ok_200 (VDict [("studies",
                             VList [bare_study (VStr "NCT01") (VStr "A");
                                    bare_study (VStr "NCT02") (VStr "B")])])).
  destruct (H (stub_world r []) [] (VStr "asthma") 1%Z r _ eq_refl eq_refl eq_refl)
    as (n & entries & Hn & _ & Hle & _).
  vm_compute in Hn. injection Hn as <-. lia.
Qed.

Lemma criteria_follow_the_response_witness :
  let r := ok_200 (VDict [("studies",
                           VList [bare_study (VStr "NCT01") (VStr "A");
                                  bare_study (VStr "NCT02") (VStr "B")])]) in
  let w := stub_world r [] in
  let v := VDict [("condition", VStr "asthma");
                  ("number_of_trials", VInt 2);
                  ("criteria",
                   VList [VDict [("nct_id", VStr "NCT01"); ("title", VStr "A");
                                 ("criteria", VStr "N/A"); ("sex", VStr "N/A");
                                 ("age_range", VStr "N/A - N/A")];
                          VDict [("nct_id", VStr "NCT02"); ("title", VStr "B");
                                 ("criteria", VStr "N/A"); ("sex", VStr "N/A");
                                 ("age_range", VStr "N/A - N/A")]])] in
  (exists params,
     snd (@get_eligibility_criteria sample_runtime (VStr "asthma") (VInt 1) w [])
       = [] ++ [Get STUDIES_URL params] /\
     lookup "pageSize" params = Some (VInt 1)) /\
  (exists studies items entries,
     studies_of r = Ok studies /\
     iter studies = Ok items /\
     Forall2 (fun study e => @criteria_entry sample_runtime study = Ok e) items entries /\
     getitem v "criteria" = Ok (VList entries) /\
     getitem v "number_of_trials" = Ok (VInt (Z.of_nat (List.length items))) /\
     forall m : Z,
       (Z.of_nat (List.length items) <= m)%Z ->
       (Z.of_nat (List.length entries) <= m)%Z).
Proof.
  intros r w v.
  apply (@criteria_follow_the_response sample_runtime w [] (VStr "asthma") (VInt 1) r v).
  - reflexivity.
  - reflexivity.
  - reflexivity.
Defined.

(** ** Missing keys *)

Lemma getitem_ok (v : value) (k : string) (x : value) :
  getitem v k = Ok x -> exists d, v = VDict d /\ lookup k d = Some x.
Proof.
  destruct v; cbn; try discriminate.
  destruct (lookup k d) eqn:E; [|discriminate].
  intros [= <-]. now exists d.
Qed.

Lemma get_ok (v : value) (k : string) (default x : value) :
  get v k default = Ok x ->
  exists d, v = VDict d /\
            x = match lookup k d with Some y => y | None => default end.
Proof.
  destruct v; cbn; try discriminate. intros [= <-]. now exists d.
Qed.





(** Splits [x <- c ;; k = Raise e] into the two ways it can fail. *)
Ltac bind_raise H :=
  match type of H with
  | bind ?c _ = Raise _ =>
      let E := fresh "E" in
      destruct c eqn:E; cbn [bind] in H;
      [| injection H as -> ]
  end.








Lemma lookup_in_keys (k : string) (d : list (string * value)) :
  existsb (String.eqb k) (keys d) = true -> exists x, lookup k d = Some x.
Proof.
  induction d as [|[k' x] d IH]; cbn; [discriminate|].
  destruct (String.eqb k k'); cbn; [now exists x | exact IH].
Qed.







(** Opens the next read of [H : ... = Ok e]: a value that is subscripted
    or asked with [.get] has to be a dictionary. *)
Ltac open_read H :=
  match type of H with
  | context [getitem ?v _] =>
      is_var v; destruct v; cbn [getitem get bind lookup] in H; try discriminate H
  | context [get ?v _ _] =>
      is_var v; destruct v; cbn [getitem get bind lookup] in H; try discriminate H
  | context [getitem (VDict ?d) ?k] =>
      cbn [getitem get bind lookup] in H
  | context [match lookup ?k ?d with _ => _ end] =>
      let L := fresh "L" in
      destruct (lookup k d) eqn:L; cbn [getitem get bind lookup] in H; try discriminate H
  end.








Section MissingKeys.
Context `{RT : Runtime}.


End MissingKeys.



(** Two records without phase and dates, as in the end-to-end example of
    the specification. *)
Example asthma_phase3_two_records :
  get_trial_phases_summary (VStr "asthma") (VStr "PHASE3")
    (ok_200 (VDict [("studies",
                     VList [bare_study (VStr "NCT01") (VStr "A");
                            bare_study (VStr "NCT02") (VStr "B")])])) =
    Ok (VDict [("condition", VStr "asthma"); ("phase", VStr "PHASE3");
               ("count", VInt 2);
               ("trials",
                VList [VDict [("nct_id", VStr "NCT01"); ("title", VStr "A");
                              ("phase", VList [NA]); ("start_date", NA);
                              ("completion_date", NA)];
                       VDict [("nct_id", VStr "NCT02"); ("title", VStr "B");
                              ("phase", VList [NA]); ("start_date", NA);
                              ("completion_date", NA)]])]).
Proof. reflexivity. Qed.

(** ** The country filter *)

Lemma existsb_eqb_In (c : ascii) (l : list ascii) :
  existsb (Ascii.eqb c) l = true -> In c l.
Proof.
  rewrite existsb_exists. intros (x & Hx & E).
  apply Ascii.eqb_eq in E. now subst.
Qed.

Lemma in_all_chars (c : ascii) : In c all_chars.
Proof.
  destruct c as [[] [] [] [] [] [] [] []];
    apply existsb_eqb_In; vm_compute; reflexivity.
Qed.

Lemma lower_char_agree_all :
  forallb (fun a =>
    forallb (fun b =>
      Bool.eqb (Ascii.eqb (lower_char a) (lower_char b)) (same_letterb a b))
      all_chars) all_chars = true.
Proof. vm_compute. reflexivity. Qed.

Lemma lower_char_same_letter (a b : ascii) :
  lower_char a = lower_char b <-> same_letter a b.
Proof.
  pose proof lower_char_agree_all as H.
  rewrite forallb_forall in H. specialize (H a (in_all_chars a)).
  rewrite forallb_forall in H. specialize (H b (in_all_chars b)).
  apply Bool.eqb_prop in H.
  rewrite <- Ascii.eqb_eq, H. unfold same_letterb, same_letter.
  rewrite orb_true_iff, !Ascii.eqb_eq. reflexivity.
Qed.

Lemma lower_same_up_to_case (s t : string) :
  lower s = lower t <-> same_up_to_case s t.
Proof.
  revert t. induction s as [|a s IH]; intros [|b t]; cbn.
  - split; [constructor | reflexivity].
  - split; [discriminate | inversion 1].
  - split; [discriminate | inversion 1].
  - split.
    + intros [= Hc Hr]. constructor.
      * now apply lower_char_same_letter.
      * now apply IH.
    + inversion 1; subst. f_equal.
      * now apply lower_char_same_letter.
      * now apply IH.
Qed.

Lemma lower_nonempty (s : string) : s <> "" -> lower s <> "".
Proof. destruct s; [congruence | discriminate]. Qed.

Lemma truthy_nonempty (c : string) : c <> "" -> truthy (VStr c) = true.
Proof. intros Hc. cbn. destruct c; [congruence | reflexivity]. Qed.

Lemma country_mismatch_false (c : string) (d : list (string * value)) :
  c <> "" ->
  country_mismatch (VStr c) (VDict d) = Ok false <->
  exists s, lookup "country" d = Some (VStr s) /\ lower s = lower c.
Proof.
  intros Hc. unfold country_mismatch. rewrite (truthy_nonempty c Hc). cbn [get].
  destruct (lookup "country" d) as [x|] eqn:L.
  - destruct x as [| | |s| |]; cbn [bind py_lower];
      try (split; [discriminate | now intros (s' & [=] & _)]).
    split.
    + intros [= H]. apply negb_false_iff, String.eqb_eq in H. now exists s.
    + intros (s' & [= <-] & H). rewrite H, String.eqb_refl. reflexivity.
  - cbn [bind py_lower lower].
    assert (E : String.eqb "" (lower c) = false).
    { apply String.eqb_neq. intros E. now apply (lower_nonempty c Hc). }
    rewrite E. split; [discriminate | now intros (s & [=] & _)].
Qed.

Section CountryFilter.

(** C8, as the code has it.  With a non-empty country argument [c], a
    location entry is kept exactly when it has a country that is a string
    whose [str.lower()] form equals the [str.lower()] form of [c]; on the
    strings of the model, made of the code points U+0000 to U+00FF, the
    two forms are equal exactly when the strings are equal up to letter
    case.  An entry that is not kept leaves the list of facilities as it
    is; an entry that is kept has its facility entry appended, unless an
    equal one is already there.  With the empty string as country
    argument no entry is filtered out: each is handled as in a call
    without country. *)
Theorem country_filter_ignores_case
  (c : string) (d : list (string * value)) (facilities : list value) :
  (c <> "" ->
     (country_mismatch (VStr c) (VDict d) = Ok false <->
        exists s, lookup "country" d = Some (VStr s) /\ lower s = lower c) /\
     (forall s, lower s = lower c <-> same_up_to_case s c) /\
     (country_mismatch (VStr c) (VDict d) = Ok true ->
        location_step (VStr c) facilities (VDict d) = Ok facilities) /\
     (country_mismatch (VStr c) (VDict d) = Ok false ->
        exists info,
          facility_info (VDict d) = Ok info /\
          location_step (VStr c) facilities (VDict d) =
            Ok (if list_contains facilities info then facilities
                else facilities ++ [info]))) /\
  (c = "" ->
     forall (loc : value) (fs : list value),
       country_mismatch (VStr c) loc = Ok false /\
       location_step (VStr c) fs loc = location_step VNone fs loc).
Proof.
  split.
  - intros Hc. split; [now apply country_mismatch_false|].
    split; [intros s; apply lower_same_up_to_case|]. split.
    + intros H. unfold location_step. now rewrite H.
    + intros H. unfold location_step. rewrite H. cbn [bind].
      unfold facility_info. cbn [get bind].
      eexists. split; [reflexivity|].
      now destruct (list_contains facilities _).
  - intros -> loc fs. split; reflexivity.
Qed.

End CountryFilter.

(** With the empty string as country argument no entry is filtered out. *)
Lemma empty_country_keeps_every_entry : ~ filter_is_case_insensitive.
Proof.
  intros H.
  destruct (H "" "France" [("country", VStr "France")] eq_refl) as [H1 _].
  specialize (H1 eq_refl). inversion H1.
Qed.

Lemma country_filter_ignores_case_witness :
  let spain := [("facility", VStr "Hospital del Mar"); ("city", VStr "Barcelona");
                ("country", VStr "spain")] in
  ((country_mismatch (VStr "Spain") (VDict spain) = Ok false <->
      exists s, lookup "country" spain = Some (VStr s) /\ lower s = lower "Spain") /\
   (forall s, lower s = lower "Spain" <-> same_up_to_case s "Spain") /\
   (country_mismatch (VStr "Spain") (VDict spain) = Ok true ->
      location_step (VStr "Spain") [] (VDict spain) = Ok []) /\
   (country_mismatch (VStr "Spain") (VDict spain) = Ok false ->
      exists info,
        facility_info (VDict spain) = Ok info /\
        location_step (VStr "Spain") [] (VDict spain) =
          Ok (if list_contains [] info then [] else [] ++ [info]))) /\
  (country_mismatch (VStr "") (location "Hopital Cochin" "Paris" "France") = Ok false /\
   location_step (VStr "") [] (location "Hopital Cochin" "Paris" "France") =
     location_step VNone [] (location "Hopital Cochin" "Paris" "France")).
Proof.
  intros spain. split.
  - apply (country_filter_ignores_case "Spain" spain []). discriminate.
  - apply (country_filter_ignores_case "" spain [] : _ /\ _). reflexivity.
Defined.

(** The example of the specification: an entry with country ["spain"]
    passes the filter ["Spain"], an entry in France does not. *)
Example spain_matches_Spain :
  collect_facilities (VStr "Spain")
    (VList [study_at [location "Hospital del Mar" "Barcelona" "spain";
                      location "Hopital Cochin" "Paris" "France"]]) =
    Ok [location "Hospital del Mar" "Barcelona" "spain"].
Proof. reflexivity. Qed.

(** ** Equality of values *)

Lemma py_eq_dict (d d' : list (string * value)) :
  py_eq (VDict d) (VDict d') =
    (List.length d =? List.length d')%nat &&
    forallb (fun kv => match lookup (fst kv) d' with
                       | Some y => py_eq (snd kv) y
                       | None => false
                       end) d.
Proof.
  cbn [py_eq]. f_equal.
  induction d as [|[k x] d IH]; [reflexivity|]. cbn. now rewrite IH.
Qed.

Lemma py_eq_list_cons (x y : value) (l l' : list value) :
  py_eq (VList (x :: l)) (VList (y :: l')) = py_eq x y && py_eq (VList l) (VList l').
Proof. reflexivity. Qed.

Lemma well_formed_dict (d : list (string * value)) :
  well_formed (VDict d) = true ->
  unique (keys d) = true /\ Forall (fun kv => well_formed (snd kv) = true) d.
Proof.
  cbn [well_formed]. rewrite andb_true_iff, forallb_forall, Forall_forall. tauto.
Qed.

Lemma well_formed_list (l : list value) :
  well_formed (VList l) = true -> Forall (fun x => well_formed x = true) l.
Proof. cbn [well_formed]. now rewrite forallb_forall, Forall_forall. Qed.

Lemma unique_NoDup (ks : list string) : unique ks = true -> NoDup ks.
Proof.
  induction ks as [|k r IH]; cbn; [constructor|].
  rewrite andb_true_iff, negb_true_iff. intros [Hk Hr]. constructor; auto.
  intros Hin. assert (existsb (String.eqb k) r = true); [| congruence].
  apply existsb_exists. exists k. split; [assumption | apply String.eqb_refl].
Qed.

Lemma lookup_Some_In (k : string) (d : list (string * value)) (x : value) :
  lookup k d = Some x -> In (k, x) d.
Proof.
  induction d as [|[k' y] d IH]; cbn; [discriminate|].
  destruct (String.eqb k k') eqn:E.
  - apply String.eqb_eq in E. subst. intros [= ->]. now left.
  - intros H. right. auto.
Qed.

Lemma lookup_None_keys (k : string) (d : list (string * value)) :
  lookup k d = None -> ~ In k (keys d).
Proof.
  induction d as [|[k' y] d IH]; cbn; [tauto|].
  destruct (String.eqb k k') eqn:E; [discriminate|].
  apply String.eqb_neq in E. intros H [Hk | Hk]; [cbn in Hk; congruence | now apply IH].
Qed.

Lemma lookup_unique (k : string) (d : list (string * value)) (x : value) :
  unique (keys d) = true -> In (k, x) d -> lookup k d = Some x.
Proof.
  induction d as [|[k' y] d IH]; cbn; [tauto|].
  rewrite andb_true_iff, negb_true_iff. intros [Hk Hu] [[= -> ->] | Hin].
  - now rewrite String.eqb_refl.
  - destruct (String.eqb k k') eqn:E; [| auto].
    apply String.eqb_eq in E. subst k'.
    assert (existsb (String.eqb k) (map fst d) = true) as Hex; [| congruence].
    apply existsb_exists. exists k. split; [| apply String.eqb_refl].
    now apply (in_map fst) in Hin.
Qed.

Lemma py_eq_refl (a : value) : well_formed a = true -> py_eq a a = true.
Proof.
  induction a as [| b | n | s | l IH | d IH] using value_ind; intros W;
    try reflexivity.
  - apply Bool.eqb_reflx.
  - apply Z.eqb_refl.
  - apply String.eqb_refl.
  - apply well_formed_list in W.
    induction l as [|x l IHl]; [reflexivity|].
    rewrite py_eq_list_cons. inversion IH; inversion W; subst.
    rewrite andb_true_iff. auto.
  - apply well_formed_dict in W as [U W].
    rewrite py_eq_dict, Nat.eqb_refl. cbn [andb].
    apply forallb_forall. intros [k x] Hin. cbn [fst snd].
    rewrite (lookup_unique _ _ _ U Hin).
    rewrite Forall_forall in IH, W.
    apply (IH _ Hin). apply (W _ Hin).
Qed.

Lemma py_eq_dict_true (d d' : list (string * value)) :
  py_eq (VDict d) (VDict d') = true <->
  List.length d = List.length d' /\
  forall k x, In (k, x) d -> exists y, lookup k d' = Some y /\ py_eq x y = true.
Proof.
  rewrite py_eq_dict, andb_true_iff, Nat.eqb_eq, forallb_forall.
  split; intros [HL H]; (split; [exact HL|]).
  - intros k x Hin. specialize (H _ Hin). cbn [fst snd] in H.
    destruct (lookup k d'); [| discriminate]. eauto.
  - intros [k x] Hin. cbn [fst snd].
    destruct (H _ _ Hin) as (y & -> & Hy). exact Hy.
Qed.

(** Two dictionaries of the same size, the keys of the first among the
    keys of the second: then the keys of the second are among the keys
    of the first. *)
Lemma keys_of_equal_dicts (d d' : list (string * value)) :
  unique (keys d) = true ->
  List.length d = List.length d' ->
  (forall k x, In (k, x) d -> exists y, lookup k d' = Some y) ->
  forall k y, In (k, y) d' -> exists x, In (k, x) d.
Proof.
  intros U HL H k y Hin.
  assert (I : incl (keys d') (keys d)).
  { apply NoDup_length_incl.
    - now apply unique_NoDup.
    - unfold keys. rewrite !length_map. lia.
    - intros k0 Hk. unfold keys in Hk. apply in_map_iff in Hk as ([k1 x] & <- & Hx).
      destruct (H _ _ Hx) as (y0 & Hy). apply lookup_Some_In in Hy.
      now apply (in_map fst) in Hy. }
  assert (Hk : In k (keys d')) by now apply (in_map fst) in Hin.
  apply I in Hk. unfold keys in Hk. apply in_map_iff in Hk as ([k1 x] & E & Hx).
  cbn in E. subst. eauto.
Qed.

(** Settles a goal about [==] on [None], [bool], [int] and [str]. *)
Ltac scalar_eq :=
  cbn in *;
  repeat match goal with
         | H : Bool.eqb _ _ = true |- _ => apply Bool.eqb_prop in H
         | H : (_ =? _)%Z = true |- _ => apply Z.eqb_eq in H
         | H : String.eqb _ _ = true |- _ => apply String.eqb_eq in H
         end;
  subst;
  repeat match goal with
         | b : bool |- _ => destruct b
         end;
  try discriminate;
  first [ reflexivity | apply Z.eqb_refl | apply String.eqb_refl ].

Lemma py_eq_sym (a : value) :
  well_formed a = true ->
  forall b, well_formed b = true -> py_eq a b = true -> py_eq b a = true.
Proof.
  induction a as [| x | n | s | l IH | d IH] using value_ind;
    intros Wa b Wb H; destruct b as [| y | m | t | l' | d']; cbn in H;
    try discriminate H; try reflexivity.
  - cbn. now destruct x, y.
  - exact H.
  - exact H.
  - cbn. now rewrite Z.eqb_sym.
  - cbn. now rewrite String.eqb_sym.
  - apply well_formed_list in Wa, Wb.
    change (py_eq (VList l) (VList l') = true) in H.
    revert l' Wb H. induction l as [|x l IHl]; intros [|y l'] Wb H;
      try discriminate H; [reflexivity|].
    rewrite py_eq_list_cons in *. apply andb_true_iff in H as [H1 H2].
    inversion IH; inversion Wa; inversion Wb; subst.
    apply andb_true_iff. split; auto.
  - change (py_eq (VDict d) (VDict d') = true) in H.
    apply well_formed_dict in Wa as [Ua Wa]. apply well_formed_dict in Wb as [Ub Wb].
    apply py_eq_dict_true in H as [HL H]. apply py_eq_dict_true.
    split; [now symmetry|]. intros k y Hin.
    destruct (keys_of_equal_dicts d d' Ua HL) with (k := k) (y := y) as (x & Hx);
      [intros k0 x0 H0; destruct (H _ _ H0) as (y0 & ? & _); eauto | assumption |].
    exists x. split; [now apply lookup_unique|].
    destruct (H _ _ Hx) as (y0 & Hy0 & E).
    rewrite (lookup_unique _ _ _ Ub Hin) in Hy0. injection Hy0 as <-.
    rewrite Forall_forall in IH, Wa, Wb.
    apply (IH _ Hx); [apply (Wa _ Hx) | apply (Wb _ Hin) | exact E].
Qed.

Lemma py_eq_trans (a : value) :
  well_formed a = true ->
  forall b c, well_formed b = true -> well_formed c = true ->
  py_eq a b = true -> py_eq b c = true -> py_eq a c = true.
Proof.
  induction a as [| x | n | s | l IH | d IH] using value_ind;
    intros Wa b c Wb Wc H1 H2;
    destruct b as [| y | m | t | l' | d']; cbn in H1; try discriminate H1;
    destruct c as [| z | p | u | l'' | d'']; cbn in H2; try discriminate H2;
    try reflexivity.
  all: try solve [scalar_eq].
  - apply well_formed_list in Wa, Wb, Wc.
    change (py_eq (VList l) (VList l') = true) in H1.
    change (py_eq (VList l') (VList l'') = true) in H2.
    change (py_eq (VList l) (VList l'') = true).
    revert l' l'' Wb Wc H1 H2.
    induction l as [|x l IHl]; intros [|y l'] [|z l''] Wb Wc H1 H2;
      try discriminate H1; try discriminate H2; [reflexivity|].
    rewrite py_eq_list_cons in *.
    apply andb_true_iff in H1 as [H1 H1']. apply andb_true_iff in H2 as [H2 H2'].
    inversion IH; inversion Wa; inversion Wb; inversion Wc; subst.
    apply andb_true_iff. split; eauto.
  - change (py_eq (VDict d) (VDict d') = true) in H1.
    change (py_eq (VDict d') (VDict d'') = true) in H2.
    change (py_eq (VDict d) (VDict d'') = true).
    apply well_formed_dict in Wa as [Ua Wa]. apply well_formed_dict in Wb as [Ub Wb].
    apply well_formed_dict in Wc as [Uc Wc].
    apply py_eq_dict_true in H1 as [L1 H1]. apply py_eq_dict_true in H2 as [L2 H2].
    apply py_eq_dict_true. split; [congruence|]. intros k x Hx.
    destruct (H1 _ _ Hx) as (y & Hy & E1).
    pose proof (lookup_Some_In _ _ _ Hy) as Hy'.
    destruct (H2 _ _ Hy') as (z & Hz & E2).
    exists z. split; [exact Hz|].
    pose proof (lookup_Some_In _ _ _ Hz) as Hz'.
    rewrite Forall_forall in IH, Wa, Wb, Wc.
    apply (IH _ Hx) with (b := y);
      [apply (Wa _ Hx) | apply (Wb _ Hy') | apply (Wc _ Hz') | exact E1 | exact E2].
Qed.

(** ** The two loops of get_trial_locations *)

Lemma list_contains_app (l : list value) (x y : value) :
  list_contains (l ++ [x]) y = list_contains l y || py_eq x y.
Proof. unfold list_contains. rewrite existsb_app. cbn. now rewrite orb_false_r. Qed.

Lemma list_contains_true (l : list value) (y : value) :
  list_contains l y = true <-> exists z, In z l /\ py_eq z y = true.
Proof. unfold list_contains. apply existsb_exists. Qed.

(** The loop with its list of distinct entries finds the first
    occurrences of the scan. *)
Lemma fold_add_new_first_seen (scan acc seen : list value) :
  Forall (fun x => well_formed x = true) scan ->
  Forall (fun x => well_formed x = true) acc ->
  (forall y, well_formed y = true -> list_contains acc y = list_contains seen y) ->
  fold_left add_new scan acc = acc ++ first_seen seen scan.
Proof.
  revert acc seen. induction scan as [|x scan IH]; intros acc seen Ws Wa Hm.
  - cbn. now rewrite app_nil_r.
  - inversion Ws as [|? ? Wx Ws']; subst. cbn [fold_left first_seen].
    change (existsb (fun earlier => py_eq earlier x) seen)
      with (list_contains seen x).
    unfold add_new at 2. rewrite <- (Hm x Wx).
    destruct (list_contains acc x) eqn:E.
    + apply IH; try assumption.
      intros y Wy. rewrite list_contains_app, <- (Hm y Wy).
      destruct (py_eq x y) eqn:Exy; [| now rewrite orb_false_r].
      rewrite orb_true_r. apply list_contains_true.
      apply list_contains_true in E as (z & Hz & Ezx).
      exists z. split; [assumption|].
      rewrite Forall_forall in Wa.
      now apply (py_eq_trans z (Wa _ Hz) x y).
    + rewrite (IH (acc ++ [x]) (seen ++ [x])); try assumption.
      * now rewrite <- app_assoc.
      * apply Forall_app. split; [assumption | now constructor].
      * intros y Wy. rewrite !list_contains_app. now rewrite (Hm y Wy).
Qed.

Lemma foldM_concatM {A : Type} (body : list value -> A -> result (list value))
  (f : A -> result (list value)) (xs : list A) (acc : list value) :
  (forall acc x, body acc x = (l <- f x ;; Ok (fold_left add_new l acc))) ->
  foldM body xs acc = (l <- concatM f xs ;; Ok (fold_left add_new l acc)).
Proof.
  intros Hb. revert acc. induction xs as [|x xs IH]; intros acc; cbn; [reflexivity|].
  rewrite Hb. destruct (f x) as [l|e]; cbn; [| reflexivity].
  rewrite IH. destruct (concatM f xs) as [l'|e]; cbn; [| reflexivity].
  now rewrite fold_left_app.
Qed.

Lemma location_step_add_new (country : value) (acc : list value) (loc : value) :
  location_step country acc loc =
    (l <- kept_entry country loc ;; Ok (fold_left add_new l acc)).
Proof.
  unfold location_step, kept_entry.
  destruct (country_mismatch country loc) as [[|]|e]; cbn; try reflexivity.
  destruct (facility_info loc) as [info|e]; cbn; [| reflexivity].
  unfold add_new. now destruct (list_contains acc info).
Qed.

Lemma study_step_add_new (country : value) (acc : list value) (study : value) :
  study_step country acc study =
    (l <- kept_entries_of_study country study ;; Ok (fold_left add_new l acc)).
Proof.
  unfold study_step, kept_entries_of_study.
  destruct (getitem study "protocolSection") as [protocol|e]; cbn; [| reflexivity].
  destruct (contains "contactsLocationsModule" protocol) as [[|]|e]; cbn;
    try reflexivity.
  destruct (getitem protocol "contactsLocationsModule") as [m|e]; cbn; [| reflexivity].
  destruct (get m "locations" (VList [])) as [locations|e]; cbn; [| reflexivity].
  destruct (iter locations) as [locs|e]; cbn; [| reflexivity].
  apply foldM_concatM. apply location_step_add_new.
Qed.

(** The two loops compute the scan and keep what is new, entry by entry;
    they raise exactly when the scan raises. *)
Lemma collect_facilities_scanned (country studies : value) :
  collect_facilities country studies =
    (scan <- scanned country studies ;; Ok (fold_left add_new scan [])).
Proof.
  unfold collect_facilities, scanned.
  destruct (iter studies) as [items|e]; cbn; [| reflexivity].
  apply foldM_concatM. apply study_step_add_new.
Qed.

(** *** Well-formed values stay well formed *)

Lemma iter_well_formed (v : value) (items : list value) :
  well_formed v = true -> iter v = Ok items -> Forall (fun x => well_formed x = true) items.
Proof.
  destruct v; cbn [iter]; try discriminate; intros W [= <-].
  - induction s; cbn; constructor; auto.
  - now apply well_formed_list.
  - apply Forall_forall. intros x Hx. apply in_map_iff in Hx as (k & <- & _).
    reflexivity.
Qed.

Lemma getitem_well_formed (v : value) (k : string) (x : value) :
  well_formed v = true -> getitem v k = Ok x -> well_formed x = true.
Proof.
  intros W H. apply getitem_ok in H as (d & -> & L).
  apply well_formed_dict in W as [_ W]. rewrite Forall_forall in W.
  apply (W _ (lookup_Some_In _ _ _ L)).
Qed.

Lemma get_well_formed (v : value) (k : string) (default x : value) :
  well_formed v = true -> well_formed default = true ->
  get v k default = Ok x -> well_formed x = true.
Proof.
  intros W Wd H. apply get_ok in H as (d & -> & ->).
  destruct (lookup k d) eqn:L; [| assumption].
  apply well_formed_dict in W as [_ W]. rewrite Forall_forall in W.
  apply (W _ (lookup_Some_In _ _ _ L)).
Qed.

Lemma facility_info_well_formed (loc info : value) :
  well_formed loc = true -> facility_info loc = Ok info -> well_formed info = true.
Proof.
  unfold facility_info. intros W H. do 3 bind_ok H. injection H as <-.
  apply get_well_formed in E, E0, E1; try assumption; try reflexivity.
  cbn. now rewrite E, E0, E1.
Qed.

Lemma kept_entry_well_formed (country loc : value) (l : list value) :
  well_formed loc = true -> kept_entry country loc = Ok l -> Forall (fun x => well_formed x = true) l.
Proof.
  unfold kept_entry. intros W H. bind_ok H. destruct a.
  - injection H as <-. constructor.
  - bind_ok H. injection H as <-. constructor; [| constructor].
    now apply (facility_info_well_formed loc).
Qed.

Lemma concatM_Forall {A B : Type} (P : A -> Prop) (Q : B -> Prop)
  (f : A -> result (list B)) (xs : list A) (zs : list B) :
  (forall x ys, P x -> f x = Ok ys -> Forall Q ys) ->
  Forall P xs -> concatM f xs = Ok zs -> Forall Q zs.
Proof.
  intros Hf. revert zs. induction xs as [|x xs IH]; intros zs Hx H; cbn in H.
  - injection H as <-. constructor.
  - inversion Hx; subst. do 2 bind_ok H. injection H as <-.
    apply Forall_app. split; eauto.
Qed.

Lemma kept_entries_of_study_well_formed (country study : value) (l : list value) :
  well_formed study = true ->
  kept_entries_of_study country study = Ok l -> Forall (fun x => well_formed x = true) l.
Proof.
  unfold kept_entries_of_study. intros W H. do 2 bind_ok H.
  destruct a0; [| injection H as <-; constructor].
  do 3 bind_ok H.
  apply getitem_well_formed in E; [| assumption].
  apply getitem_well_formed in E1; [| assumption].
  apply get_well_formed in E2; [| assumption | reflexivity].
  apply iter_well_formed in E3; [| assumption].
  eapply concatM_Forall; [| exact E3 | exact H].
  intros x ys Wx. now apply kept_entry_well_formed.
Qed.

Lemma scanned_well_formed (country studies : value) (scan : list value) :
  well_formed studies = true -> scanned country studies = Ok scan ->
  Forall (fun x => well_formed x = true) scan.
Proof.
  unfold scanned. intros W H. bind_ok H.
  apply iter_well_formed in E; [| assumption].
  eapply concatM_Forall; [| exact E | exact H].
  intros x ys Wx. now apply kept_entries_of_study_well_formed.
Qed.

(** *** Distinct entries *)

Lemma list_contains_false (l : list value) (x : value) :
  list_contains l x = false <-> Forall (fun a => py_eq a x = false) l.
Proof.
  unfold list_contains. induction l as [|a l IH]; cbn.
  - split; [constructor | reflexivity].
  - rewrite orb_false_iff, IH. split.
    + intros [? ?]. now constructor.
    + inversion 1; subst. auto.
Qed.

Lemma distinct_snoc (l : list value) (x : value) :
  distinct l -> list_contains l x = false -> distinct (l ++ [x]).
Proof.
  unfold distinct. intros D H. apply list_contains_false in H.
  induction D as [|a l Ha D IH]; cbn.
  - constructor; constructor.
  - inversion H; subst. constructor; [| auto].
    apply Forall_app. split; [assumption | now constructor].
Qed.

Lemma add_new_distinct (acc : list value) (x : value) :
  distinct acc -> distinct (add_new acc x).
Proof.
  intros D. unfold add_new. destruct (list_contains acc x) eqn:E; [assumption|].
  now apply distinct_snoc.
Qed.

Lemma fold_add_new_distinct (scan acc : list value) :
  distinct acc -> distinct (fold_left add_new scan acc).
Proof.
  revert acc. induction scan as [|x scan IH]; intros acc D; cbn; [assumption|].
  apply IH. now apply add_new_distinct.
Qed.

Lemma add_new_keeps (acc : list value) (x t : value) :
  list_contains acc t = true -> list_contains (add_new acc x) t = true.
Proof.
  intros H. unfold add_new. destruct (list_contains acc x); [assumption|].
  rewrite list_contains_app, H. reflexivity.
Qed.

Lemma fold_add_new_keeps (scan acc : list value) (t : value) :
  list_contains acc t = true -> list_contains (fold_left add_new scan acc) t = true.
Proof.
  revert acc. induction scan as [|x scan IH]; intros acc H; cbn; [assumption|].
  apply IH. now apply add_new_keeps.
Qed.

Lemma fold_add_new_contains (scan acc : list value) (t : value) :
  well_formed t = true -> In t scan ->
  list_contains (fold_left add_new scan acc) t = true.
Proof.
  intros W. revert acc. induction scan as [|x scan IH]; intros acc Hin;
    [destruct Hin|]. destruct Hin as [<- | Hin]; cbn.
  - apply fold_add_new_keeps. unfold add_new.
    destruct (list_contains acc x) eqn:E; [assumption|].
    rewrite list_contains_app, py_eq_refl by assumption. apply orb_true_r.
  - now apply IH.
Qed.

Lemma fold_add_new_In (scan acc : list value) (r : value) :
  In r (fold_left add_new scan acc) -> In r acc \/ In r scan.
Proof.
  revert acc. induction scan as [|x scan IH]; intros acc H; cbn in H; [now left|].
  apply IH in H as [H | H]; [| right; now right].
  unfold add_new in H. destruct (list_contains acc x); [now left|].
  apply in_app_or in H as [H | H]; [now left |].
  cbn in H. destruct H as [<- | []]. right. now left.
Qed.

Lemma fold_add_new_well_formed (scan acc : list value) :
  Forall (fun x => well_formed x = true) scan -> Forall (fun x => well_formed x = true) acc ->
  Forall (fun x => well_formed x = true) (fold_left add_new scan acc).
Proof.
  intros Ws Wa. apply Forall_forall. intros r Hr.
  rewrite Forall_forall in Ws, Wa.
  apply fold_add_new_In in Hr as [Hr | Hr]; auto.
Qed.

(** Among distinct entries, exactly one equals a value the list contains. *)
Lemma occurrences_one (l : list value) (t : value) :
  distinct l -> Forall (fun x => well_formed x = true) l -> well_formed t = true ->
  list_contains l t = true -> occurrences t l = 1%nat.
Proof.
  unfold occurrences, distinct. intros D. induction D as [|a l Ha D IH];
    intros W Wt H; [discriminate H|].
  inversion W as [|? ? Wa Wl]; subst. cbn in *.
  destruct (py_eq a t) eqn:E; cbn.
  - f_equal. apply length_zero_iff_nil.
    assert (N : forall r, In r l -> py_eq r t = false).
    { intros r Hr. destruct (py_eq r t) eqn:Er; [| reflexivity].
      rewrite Forall_forall in Ha, Wl.
      rewrite <- (Ha _ Hr). symmetry.
      apply (py_eq_trans a Wa t r Wt (Wl _ Hr) E).
      apply (py_eq_sym r (Wl _ Hr) t Wt Er). }
    clear -N. induction l as [|r l IHl]; [reflexivity|]. cbn.
    rewrite (N r (or_introl eq_refl)). apply IHl. intros r' Hr'. apply N. now right.
  - apply IH; assumption.
Qed.

Lemma first_seen_In (seen scan : list value) (r : value) :
  In r (first_seen seen scan) -> In r scan.
Proof.
  revert seen. induction scan as [|x scan IH]; intros seen H; cbn [first_seen] in H;
    [assumption|].
  destruct (existsb (fun earlier => py_eq earlier x) seen).
  - right. eauto.
  - destruct H as [<- | H]; [now left | right; eauto].
Qed.

(** On entries made of strings, [==] is plain equality of the triples. *)
Lemma location_eq (f c k f' c' k' : string) :
  py_eq (location f c k) (location f' c' k') = true <-> f = f' /\ c = c' /\ k = k'.
Proof.
  unfold location. cbn. rewrite !andb_true_iff, !String.eqb_eq. tauto.
Qed.

Lemma existsb_keys_lookup (k : string) (d : list (string * value)) :
  existsb (String.eqb k) (keys d) =
    match lookup k d with Some _ => true | None => false end.
Proof.
  induction d as [|[k' x] d IH]; cbn; [reflexivity|].
  destruct (String.eqb k k'); cbn; [reflexivity | exact IH].
Qed.

(** *** The scan, read off the payload *)

Lemma lower_empty (c : string) : lower c = "" -> c = "".
Proof. destruct c; [reflexivity | discriminate]. Qed.

Lemma truthy_str (c : string) : truthy (VStr c) = true -> c <> "".
Proof. cbn. destruct c; [discriminate | discriminate]. Qed.

(** What one location entry contributes to the scan. *)
Lemma kept_entry_listed (country loc : value) (l : list value) :
  kept_entry country loc = Ok l ->
  (exists d, loc = VDict d) /\
  l = if passes_filter country loc then [triple_of loc] else [].
Proof.
  unfold kept_entry, country_mismatch, passes_filter, facility_info, triple_of, read_or.
  intros H. destruct (truthy country) eqn:T.
  - destruct loc as [| | | | |d]; try discriminate H.
    split; [now exists d|]. cbn [get bind at_path] in H |- *.
    destruct (lookup "country" d) as [x|] eqn:L.
    + destruct x as [| | |s| |]; try discriminate H.
      destruct country as [| | |c| |]; try discriminate H.
      cbn [py_lower bind] in H.
      destruct (String.eqb (lower s) (lower c)); cbn [negb] in H.
      * cbn [get bind] in H. injection H as <-.
        destruct (lookup "facility" d), (lookup "city" d); reflexivity.
      * injection H as <-. reflexivity.
    + cbn [py_lower bind lower] in H.
      destruct country as [| | |c| |]; try discriminate H.
      cbn [py_lower bind] in H.
      assert (E : String.eqb "" (lower c) = false).
      { apply String.eqb_neq. intros E. symmetry in E. apply lower_empty in E.
        now apply truthy_str in T. }
      rewrite E in H. cbn [negb] in H. injection H as <-. reflexivity.
  - cbn [bind] in H. destruct loc as [| | | | |d]; try discriminate H.
    split; [now exists d|]. cbn [get bind at_path] in H |- *.
    injection H as <-.
    destruct (lookup "facility" d), (lookup "city" d), (lookup "country" d);
      reflexivity.
Qed.

Lemma concatM_kept_entry_listed (country : value) (locs l : list value) :
  concatM (kept_entry country) locs = Ok l ->
  Forall (fun loc => exists d, loc = VDict d) locs /\
  l = map triple_of (filter (passes_filter country) locs).
Proof.
  revert l. induction locs as [|loc locs IH]; intros l H; cbn in H.
  - injection H as <-. split; [constructor | reflexivity].
  - do 2 bind_ok H. injection H as <-.
    destruct (kept_entry_listed _ _ _ E) as [D ->].
    destruct (IH _ eq_refl) as [F ->]. split; [now constructor|].
    cbn [filter]. now destruct (passes_filter country loc).
Qed.

(** Iterating over a string or over a dictionary yields strings, which
    are no location entries and no study records. *)
Lemma no_dict_among_strings (ks : list string) :
  Forall (fun v => exists d, v = VDict d) (map VStr ks) -> ks = [].
Proof.
  destruct ks as [|k ks]; [reflexivity|]. inversion 1 as [|? ? (d & E) _].
  discriminate E.
Qed.

Lemma chars_are_strings (s : string) :
  exists ks, chars s = map VStr ks.
Proof.
  induction s as [|c s (ks & IH)].
  - now exists [].
  - exists (String c "" :: ks). cbn. now rewrite IH.
Qed.

Lemma iter_of_dicts (v : value) (items : list value) :
  iter v = Ok items ->
  Forall (fun x => exists d, x = VDict d) items ->
  items = match v with VList l => l | _ => [] end.
Proof.
  destruct v; cbn [iter]; try discriminate; intros [= <-] F.
  - destruct (chars_are_strings s) as (ks & E). rewrite E in *.
    now rewrite (no_dict_among_strings ks F).
  - reflexivity.
  - unfold keys in *. rewrite <- map_map in F.
    apply no_dict_among_strings in F. rewrite <- map_map. now rewrite F.
Qed.

Lemma contains_dict (k : string) (d : list (string * value)) (b : bool) :
  contains k (VDict d) = Ok b -> existsb (String.eqb k) (keys d) = b.
Proof. cbn. now intros [= ->]. Qed.

Lemma kept_entries_of_study_listed (country study : value) (l : list value) :
  kept_entries_of_study country study = Ok l ->
  (exists d, study = VDict d) /\
  l = map triple_of (filter (passes_filter country) (locations_of study)).
Proof.
  unfold kept_entries_of_study, locations_of. intros H.
  destruct study as [| | | | |d]; try discriminate H.
  split; [now exists d|]. cbn [getitem at_path] in H |- *.
  destruct (lookup "protocolSection" d) as [p|]; [| discriminate H].
  cbn [bind] in H. bind_ok H. destruct a.
  - destruct p as [| | | | |pd]; try discriminate H.
    cbn [getitem] in H. apply contains_dict in E.
    destruct (lookup_in_keys _ _ E) as (m & L). rewrite L in H |- *.
    cbn [bind] in H. destruct m as [| | | | |md]; try discriminate H.
    cbn [get bind] in H. bind_ok H.
    destruct (concatM_kept_entry_listed _ _ _ H) as [F ->].
    rewrite (iter_of_dicts _ _ E0 F).
    destruct (lookup "locations" md) as [[| | | | |]|]; reflexivity.
  - injection H as <-.
    destruct p as [| | | | |pd]; try reflexivity.
    apply contains_dict in E.
    rewrite existsb_keys_lookup in E.
    destruct (lookup "contactsLocationsModule" pd); [discriminate | reflexivity].
Qed.

Lemma concatM_studies_listed (country : value) (items l : list value) :
  concatM (kept_entries_of_study country) items = Ok l ->
  Forall (fun x => exists d, x = VDict d) items /\
  l = map triple_of (filter (passes_filter country) (flat_map locations_of items)).
Proof.
  revert l. induction items as [|x items IH]; intros l H; cbn in H.
  - injection H as <-. split; [constructor | reflexivity].
  - do 2 bind_ok H. injection H as <-.
    destruct (kept_entries_of_study_listed _ _ _ E) as [D ->].
    destruct (IH _ eq_refl) as [F ->]. split; [now constructor|].
    cbn [flat_map]. now rewrite filter_app, map_app.
Qed.

(** The scan of the two loops is the list of triples read off the
    payload. *)
Lemma scanned_listed (country studies : value) (scan : list value) :
  scanned country studies = Ok scan -> scan = listed_triples country studies.
Proof.
  unfold scanned, listed_triples, records. intros H. bind_ok H.
  destruct (concatM_studies_listed _ _ _ H) as [F ->].
  now rewrite (iter_of_dicts _ _ E F).
Qed.

(** What the two loops collect, read off the payload: the triples of the
    entries that pass the filter, each at its first occurrence. *)
Lemma collect_facilities_listed (country studies : value) (collected : list value) :
  well_formed studies = true ->
  collect_facilities country studies = Ok collected ->
  collected = first_seen [] (listed_triples country studies) /\
  distinct collected /\
  Forall (fun x => well_formed x = true) (listed_triples country studies).
Proof.
  intros W H. rewrite collect_facilities_scanned in H.
  bind_ok H. injection H as <-.
  pose proof (scanned_well_formed _ _ _ W E) as Ws.
  rewrite (scanned_listed _ _ _ E) in *.
  split; [| split; [| exact Ws]].
  - now rewrite (fold_add_new_first_seen _ [] []) by (auto using Forall_nil).
  - apply fold_add_new_distinct. constructor.
Qed.

Section Deduplication.

(** C5, as the code has it.  On a well-formed payload, when the two loops
    of [get_trial_locations] end, the list they have collected is made of
    the (facility, city, country) triples of the location entries that
    pass the country filter (of all location entries when no country is
    given): it holds exactly one entry equal ([==]) to each of these
    triples, however often the scan meets it; every collected entry is
    one of these triples; no collected entry equals a later one; and the
    collected list is the list of these triples in the order of the scan
    over the studies and their locations, each kept at its first
    occurrence. *)
Theorem facilities_are_deduplicated
  (country studies : value) (collected : list value) :
  well_formed studies = true ->
  collect_facilities country studies = Ok collected ->
  (forall t, In t (listed_triples country studies) ->
             occurrences t collected = 1%nat) /\
  (forall r, In r collected -> In r (listed_triples country studies)) /\
  distinct collected /\
  collected = first_seen [] (listed_triples country studies).
Proof.
  intros W H.
  destruct (collect_facilities_listed _ _ _ W H) as (F & D & Ws).
  rewrite collect_facilities_scanned in H. bind_ok H. injection H as E'.
  rewrite (scanned_listed _ _ _ E) in E'.
  split; [| split; [| split]].
  - intros t Ht. rewrite Forall_forall in Ws. apply occurrences_one.
    + exact D.
    + rewrite <- E'. apply fold_add_new_well_formed;
        [now apply Forall_forall | constructor].
    + now apply Ws.
    + rewrite <- E'. apply fold_add_new_contains; [now apply Ws | assumption].
  - rewrite F. apply first_seen_In.
  - exact D.
  - exact F.
Qed.

End Deduplication.

(** Two ways in which a location entry has no entry of its own: under the
    filter ["Spain"] a facility in France, listed twice, is not collected
    at all; and a facility named [1] is taken for the facility named
    [True] met before it. *)
Lemma triples_are_not_always_listed_once :
  ~ every_triple_is_listed_once (VStr "Spain") /\
  ~ every_triple_is_listed_once VNone.
Proof.
  split; intros H.
  - destruct (H (VList [study_at [location "Hopital Cochin" "Paris" "France";
                                  location "Hopital Cochin" "Paris" "France"]])
                [] (location "Hopital Cochin" "Paris" "France") eq_refl)
      as (before & after & E & _).
    + cbn. auto.
    + destruct before; discriminate E.
  - destruct (H (VList [study_at [VDict [("facility", VBool true)];
                                  VDict [("facility", VInt 1)]]])
                [VDict [("facility", VBool true); ("city", NA); ("country", NA)]]
                (VDict [("facility", VInt 1)]) eq_refl)
      as (before & after & E & _).
    + cbn. auto.
    + destruct before as [|x [|y before]]; cbn in E; discriminate E.
Qed.

Lemma facilities_are_deduplicated_witness :
  let a := location "Hospital del Mar" "Barcelona" "Spain" in
  let a_more := VDict [("facility", VStr "Hospital del Mar"); ("zip", VStr "08003");
                       ("city", VStr "Barcelona"); ("country", VStr "SPAIN")] in
  let a_caps := location "Hospital del Mar" "Barcelona" "SPAIN" in
  let b := location "Hopital Cochin" "Paris" "France" in
  let c := location "Hospital La Paz" "Madrid" "Spain" in
  let studies := VList [study_at [a; b; a_more; a]; study_at [c; b; a_more; a]] in
  (forall t, In t (listed_triples (VStr "spain") studies) ->
             occurrences t [a; a_caps; c] = 1%nat) /\
  (forall r, In r [a; a_caps; c] -> In r (listed_triples (VStr "spain") studies)) /\
  distinct [a; a_caps; c] /\
  [a; a_caps; c] = first_seen [] (listed_triples (VStr "spain") studies).
Proof.
  intros a a_more a_caps b c studies.
  apply (facilities_are_deduplicated (VStr "spain") studies [a; a_caps; c]).
  - reflexivity.
  - reflexivity.
Defined.

(** What the sample holds: under the filter ["spain"] six of the eight
    location entries pass, with three different triples. *)
Example listed_triples_of_the_sample :
  let a := location "Hospital del Mar" "Barcelona" "Spain" in
  let a_more := VDict [("facility", VStr "Hospital del Mar"); ("zip", VStr "08003");
                       ("city", VStr "Barcelona"); ("country", VStr "SPAIN")] in
  let a_caps := location "Hospital del Mar" "Barcelona" "SPAIN" in
  let b := location "Hopital Cochin" "Paris" "France" in
  let c := location "Hospital La Paz" "Madrid" "Spain" in
  listed_triples (VStr "spain")
    (VList [study_at [a; b; a_more; a]; study_at [c; b; a_more; a]])
  = [a; a_caps; a; c; a_caps; a].
Proof. reflexivity. Qed.

(** The scan of the sample meets the first facility three times. *)
Example scan_with_repetitions :
  let a := location "Hospital del Mar" "Barcelona" "Spain" in
  let b := location "Hopital Cochin" "Paris" "France" in
  let c := location "Charite" "Berlin" "Germany" in
  scanned VNone (VList [study_at [a; b; a]; study_at [c; a]]) = Ok [a; b; a; c; a].
Proof. reflexivity. Qed.

(** [True == 1] in Python, so a facility named [1] is a duplicate of a
    facility named [True]. *)
Example true_equals_one :
  collect_facilities VNone
    (VList [study_at [VDict [("facility", VBool true)];
                      VDict [("facility", VInt 1)]]]) =
    Ok [VDict [("facility", VBool true); ("city", NA); ("country", NA)]].
Proof. reflexivity. Qed.

(** ** Fixed caps after deduplication *)

Lemma Forall_firstn_value (P : value -> Prop) (n : nat) (l : list value) :
  Forall P l -> Forall P (firstn n l).
Proof.
  revert n. induction l as [|x l IH]; intros [|n] H; cbn; try constructor.
  - now inversion H.
  - apply IH. now inversion H.
Qed.

Lemma distinct_firstn (n : nat) (l : list value) :
  distinct l -> distinct (firstn n l).
Proof.
  unfold distinct. intros D. revert n.
  induction D as [|a l Ha D IH]; intros [|n]; cbn; try constructor.
  - now apply Forall_firstn_value.
  - apply IH.
Qed.

Lemma collected_facilities_distinct (country studies : value)
  (collected : list value) :
  collect_facilities country studies = Ok collected -> distinct collected.
Proof.
  intros H. rewrite collect_facilities_scanned in H.
  bind_ok H. injection H as <-. apply fold_add_new_distinct. constructor.
Qed.

Section Caps.

(** C9. On a 200 response, the ["facilities"] list of
    [get_trial_locations] is the first 20 entries of the deduplicated
    list the two loops have collected: no listed entry equals a later
    one, and on a well-formed payload the list is cut from the triples of
    the location entries that pass the filter, each kept at its first
    occurrence.  The ["sample_titles"] list of [count_trials] holds the
    titles of the first 3 study records.  So the two lists have at most
    20 and at most 3 entries. *)
Theorem results_are_capped (condition arg : value) (r : response) :
  status_code r = 200%Z ->
  (forall v, get_trial_locations_summary condition arg r = Ok v ->
     exists studies collected,
       studies_of r = Ok studies /\
       collect_facilities arg studies = Ok collected /\
       getitem v "facilities" = Ok (VList (firstn 20 collected)) /\
       (List.length (firstn 20 collected) <= 20)%nat /\
       distinct (firstn 20 collected) /\
       (well_formed studies = true ->
        firstn 20 collected
          = firstn 20 (first_seen [] (listed_triples arg studies)))) /\
  (forall v, count_trials_summary condition arg r = Ok v ->
     exists studies items titles,
       studies_of r = Ok studies /\
       iter studies = Ok items /\
       mapM brief_title (firstn 3 items) = Ok titles /\
       getitem v "sample_titles" = Ok (VList titles) /\
       (List.length titles <= 3)%nat).
Proof.
  intros Hs. split; intros v H.
  - rewrite get_trial_locations_summary_200 in H by assumption.
    bind_ok H. bind_ok H. injection H as <-.
    exists a, a0. split; [first [assumption | reflexivity]|].
    split; [assumption|].
    split; [reflexivity|]. split; [apply firstn_le_length|]. split.
    + apply distinct_firstn. now apply (collected_facilities_distinct arg a).
    + intros W. now destruct (collect_facilities_listed _ _ _ W E0) as (-> & _).
  - rewrite count_trials_summary_200 in H by assumption.
    do 5 bind_ok H. injection H as <-.
    destruct (iter_slice_to 3 a a1 a2 E1 E2) as (items & Hi & ->).
    exists a, items, a3. repeat split; try assumption.
    rewrite (mapM_length _ _ _ E3). apply firstn_le_length.
Qed.

(** C10. On a 200 response, ["number_of_facilities"] is the length of the
    whole deduplicated list, counted before ["facilities"] is cut to 20
    entries: the list has no entry equal to a later one, and on a
    well-formed payload it is the list of the triples of the location
    entries that pass the filter, each kept at its first occurrence.  And
    there is a response, with 21 different triples among its location
    entries, for which the number reported (21) exceeds the length of the
    list returned (20). *)
Theorem number_of_facilities_counts_before_truncation
  (condition country : value) (r : response) (v : value) :
  status_code r = 200%Z ->
  get_trial_locations_summary condition country r = Ok v ->
  (exists studies collected,
     studies_of r = Ok studies /\
     collect_facilities country studies = Ok collected /\
     distinct collected /\
     (well_formed studies = true ->
      collected = first_seen [] (listed_triples country studies)) /\
     getitem v "number_of_facilities" = Ok (VInt (Z.of_nat (List.length collected))) /\
     getitem v "facilities" = Ok (VList (firstn 20 collected))) /\
  (exists r' studies' v' listed,
     status_code r' = 200%Z /\
     studies_of r' = Ok studies' /\
     well_formed studies' = true /\
     distinct (first_seen [] (listed_triples VNone studies')) /\
     List.length (first_seen [] (listed_triples VNone studies')) = 21%nat /\
     get_trial_locations_summary condition VNone r' = Ok v' /\
     getitem v' "number_of_facilities" = Ok (VInt 21) /\
     getitem v' "facilities" = Ok (VList listed) /\
     List.length listed = 20%nat).
Proof.
  intros Hs H. split.
  - rewrite get_trial_locations_summary_200 in H by assumption.
    bind_ok H. bind_ok H. injection H as <-.
    exists a, a0. split; [first [assumption | reflexivity]|].
    split; [assumption|]. split.
    + now apply (collected_facilities_distinct country a).
    + split; [| split; reflexivity].
      intros W. now destruct (collect_facilities_listed _ _ _ W E0) as (-> & _).
  - pose (studies' := VList [study_at (sites 21 ++ sites 4)]).
    exists (ok_200 (VDict [("studies", studies')])), studies'.
    destruct (collect_facilities_listed VNone studies' (sites 21)) as (E & D & _);
      [reflexivity | vm_compute; reflexivity |].
    eexists. eexists. split; [reflexivity|]. split; [reflexivity|].
    split; [reflexivity|]. rewrite <- E.
    split; [exact D|]. split; [reflexivity|].
    split; [vm_compute; reflexivity|].
    split; [reflexivity|]. split; reflexivity.
Qed.

End Caps.

Lemma results_are_capped_witness :
  let studies := VList [study_at (sites 21 ++ sites 4)] in
  let r := ok_200 (VDict [("studies", studies)]) in
  let four := ok_200 (VDict [("studies",
                              VList [bare_study (VStr "NCT01") (VStr "A");
                                     bare_study (VStr "NCT02") (VStr "B");
                                     bare_study (VStr "NCT03") (VStr "C");
                                     bare_study (VStr "NCT04") (VStr "D")])]) in
  (exists studies collected,
     studies_of r = Ok studies /\
     collect_facilities VNone studies = Ok collected /\
     getitem (VDict [("condition", VStr "depression"); ("country", VStr "all");
                     ("number_of_facilities", VInt 21);
                     ("facilities", VList (sites 20))])
       "facilities" = Ok (VList (firstn 20 collected)) /\
     (List.length (firstn 20 collected) <= 20)%nat /\
     distinct (firstn 20 collected) /\
     (well_formed studies = true ->
      firstn 20 collected
        = firstn 20 (first_seen [] (listed_triples VNone studies)))) /\
  (exists studies items titles,
     studies_of four = Ok studies /\
     iter studies = Ok items /\
     mapM brief_title (firstn 3 items) = Ok titles /\
     getitem (VDict [("count", VInt 4); ("condition", VStr "diabetes");
                     ("status", VNone);
                     ("sample_titles", VList [VStr "A"; VStr "B"; VStr "C"])])
       "sample_titles" = Ok (VList titles) /\
     (List.length titles <= 3)%nat).
Proof.
  intros studies r four.
  destruct (results_are_capped (VStr "depression") VNone r eq_refl) as [H1 _].
  destruct (results_are_capped (VStr "diabetes") VNone four eq_refl) as [_ H2].
  split; [apply H1; vm_compute | apply H2]; reflexivity.
Defined.

(** The samples behind the witness: 25 location entries of 21 facilities,
    of which 20 are listed; four records, three titles. *)
Example locations_of_25_entries :
  get_trial_locations_summary (VStr "depression") VNone
    (ok_200 (VDict [("studies", VList [study_at (sites 21 ++ sites 4)])])) =
    Ok (VDict [("condition", VStr "depression"); ("country", VStr "all");
               ("number_of_facilities", VInt 21);
               ("facilities", VList (sites 20))]).
Proof. vm_compute. reflexivity. Qed.

Example count_trials_four_records :
  count_trials_summary (VStr "diabetes") (VStr "RECRUITING")
    (ok_200 (VDict [("studies",
                     VList [bare_study (VStr "NCT01") (VStr "A");
                            bare_study (VStr "NCT02") (VStr "B");
                            bare_study (VStr "NCT03") (VStr "C");
                            bare_study (VStr "NCT04") (VStr "D")])])) =
    Ok (VDict [("count", VInt 4); ("condition", VStr "diabetes");
               ("status", VStr "RECRUITING");
               ("sample_titles", VList [VStr "A"; VStr "B"; VStr "C"])]).
Proof. reflexivity. Qed.

Lemma number_of_facilities_counts_before_truncation_witness :
  let r := ok_200 (VDict [("studies", VList [study_at (sites 21 ++ sites 4)])]) in
  let v := VDict [("condition", VStr "depression"); ("country", VStr "all");
                  ("number_of_facilities", VInt 21);
                  ("facilities", VList (sites 20))] in
  (exists studies collected,
     studies_of r = Ok studies /\
     collect_facilities VNone studies = Ok collected /\
     distinct collected /\
     (well_formed studies = true ->
      collected = first_seen [] (listed_triples VNone studies)) /\
     getitem v "number_of_facilities" = Ok (VInt (Z.of_nat (List.length collected))) /\
     getitem v "facilities" = Ok (VList (firstn 20 collected))) /\
  (exists r' studies' v' listed,
     status_code r' = 200%Z /\
     studies_of r' = Ok studies' /\
     well_formed studies' = true /\
     distinct (first_seen [] (listed_triples VNone studies')) /\
     List.length (first_seen [] (listed_triples VNone studies')) = 21%nat /\
     get_trial_locations_summary (VStr "depression") VNone r' = Ok v' /\
     getitem v' "number_of_facilities" = Ok (VInt 21) /\
     getitem v' "facilities" = Ok (VList listed) /\
     List.length listed = 20%nat).
Proof.
  intros r v.
  apply (number_of_facilities_counts_before_truncation (VStr "depression") VNone r v).
  - reflexivity.
  - vm_compute. reflexivity.
Defined.

(** ** The tool loop *)

Lemma resolve_cases `{RT : Runtime} (fname : string) (f : value -> prog value) :
  resolve fname = Ok f ->
  (fname = "count_trials" /\
   f = call_with_kwargs count_trials "condition" "status" (Some (VStr "RECRUITING"))) \/
  (fname = "get_eligibility_criteria" /\
   f = call_with_kwargs get_eligibility_criteria "condition" "max_trials" (Some (VInt 5))) \/
  (fname = "get_trial_locations" /\
   f = call_with_kwargs get_trial_locations "condition" "country" (Some VNone)) \/
  (fname = "get_trial_phases" /\
   f = call_with_kwargs get_trial_phases "condition" "phase" None).
Proof.
  unfold resolve, available_functions. cbn [lookup_function].
  destruct (String.eqb fname "count_trials") eqn:E1;
    [apply String.eqb_eq in E1; intros [= <-]; auto|].
  destruct (String.eqb fname "get_eligibility_criteria") eqn:E2;
    [apply String.eqb_eq in E2; intros [= <-]; auto|].
  destruct (String.eqb fname "get_trial_locations") eqn:E3;
    [apply String.eqb_eq in E3; intros [= <-]; auto|].
  destruct (String.eqb fname "get_trial_phases") eqn:E4;
    [apply String.eqb_eq in E4; intros [= <-]; auto 6|].
  discriminate.
Qed.

(** A keyword call is rejected before anything is sent, or it sends one
    request. *)
Lemma call_with_kwargs_outcome
  (h : value -> value -> prog value) (build : value -> value -> list (string * value))
  (second : string) (default : option value)
  (args : value) (w : world) (t t' : list event) (o : result value) :
  (forall c x w t, snd (h c x w t) = t ++ [Get STUDIES_URL (build c x)]) ->
  (forall c x, lookup "query.cond" (build c x) = Some c) ->
  call_with_kwargs h "condition" second default args w t = (o, t') ->
  (o = Raise TypeError /\ t' = t) \/
  (exists params c,
     t' = t ++ [Get STUDIES_URL params] /\
     getitem args "condition" = Ok c /\
     lookup "query.cond" params = Some c).
Proof.
  intros Hh Hb H. unfold call_with_kwargs, lift in H.
  destruct args as [| | | | |d]; try (injection H as <- <-; now left).
  destruct (forallb _ (keys d)); [| injection H as <- <-; now left].
  destruct (lookup "condition" d) as [c|] eqn:L; [| injection H as <- <-; now left].
  destruct (match lookup second d with Some v => Some v | None => default end)
    as [x|]; [| injection H as <- <-; now left].
  right. exists (build c x), c. split; [| split].
  - specialize (Hh c x w t). rewrite H in Hh. exact Hh.
  - cbn. now rewrite L.
  - apply Hb.
Qed.

Section ToolLoopFacts.
Context `{RT : Runtime}.

(** A helper called with keyword arguments returns only after one
    registry call, made for the condition it was given. *)
Lemma call_with_kwargs_one_get
  (h : value -> value -> prog value) (build : value -> value -> list (string * value))
  (second : string) (default : option value)
  (args : value) (w : world) (t t' : list event) (res : value) :
  (forall c x w t, snd (h c x w t) = t ++ [Get STUDIES_URL (build c x)]) ->
  (forall c x, lookup "query.cond" (build c x) = Some c) ->
  call_with_kwargs h "condition" second default args w t = (Ok res, t') ->
  exists params c,
    t' = t ++ [Get STUDIES_URL params] /\
    getitem args "condition" = Ok c /\
    lookup "query.cond" params = Some c.
Proof.
  intros Hh Hb H. unfold call_with_kwargs in H.
  destruct args as [| | | | |d]; try discriminate H.
  destruct (forallb _ (keys d)); [| discriminate H].
  destruct (lookup "condition" d) as [c|] eqn:L; [| discriminate H].
  destruct (match lookup second d with Some v => Some v | None => default end)
    as [x|]; [| discriminate H].
  exists (build c x), c. split; [| split].
  - specialize (Hh c x w t). rewrite H in Hh. exact Hh.
  - cbn. now rewrite L.
  - apply Hb.
Qed.

Lemma helper_trace (build : list (string * value)) (k : response -> result value)
  (w : world) (t : list event) :
  snd ((r <~ http_get STUDIES_URL build ;; lift (k r)) w t)
    = t ++ [Get STUDIES_URL build].
Proof.
  unfold pbind, http_get, lift. now destruct (requests_get w t STUDIES_URL build).
Qed.

Lemma available_function_one_get
  (fname : string) (f : value -> prog value) (args : value)
  (w : world) (t t' : list event) (res : value) :
  resolve fname = Ok f ->
  f args w t = (Ok res, t') ->
  exists params c,
    t' = t ++ [Get STUDIES_URL params] /\
    getitem args "condition" = Ok c /\
    lookup "query.cond" params = Some c.
Proof.
  unfold resolve, available_functions. cbn [lookup_function].
  destruct (String.eqb fname "count_trials");
    [intros [= <-]; apply (call_with_kwargs_one_get _ count_trials_params);
     [intros; apply helper_trace | reflexivity] |].
  destruct (String.eqb fname "get_eligibility_criteria");
    [intros [= <-];
     apply (call_with_kwargs_one_get _ get_eligibility_criteria_params);
     [intros; apply helper_trace | reflexivity] |].
  destruct (String.eqb fname "get_trial_locations");
    [intros [= <-]; apply (call_with_kwargs_one_get _ get_trial_locations_params);
     [intros; apply helper_trace
     | intros c x; unfold get_trial_locations_params; now destruct (truthy x)] |].
  destruct (String.eqb fname "get_trial_phases");
    [intros [= <-]; apply (call_with_kwargs_one_get _ get_trial_phases_params);
     [intros; apply helper_trace | reflexivity] |].
  discriminate.
Qed.

Lemma table_function_outcome
  (fname : string) (f : value -> prog value) (args : value)
  (w : world) (t : list event) :
  resolve fname = Ok f ->
  (fst (f args w t) = Raise TypeError /\ snd (f args w t) = t) \/
  (exists params c,
     snd (f args w t) = t ++ [Get STUDIES_URL params] /\
     getitem args "condition" = Ok c /\
     lookup "query.cond" params = Some c).
Proof.
  intros R. destruct (f args w t) as [o t'] eqn:E. cbn [fst snd].
  destruct (resolve_cases _ _ R) as [[_ ->] | [[_ ->] | [[_ ->] | [_ ->]]]].
  - eapply (call_with_kwargs_outcome _ count_trials_params); [| | exact E].
    + intros; apply helper_trace.
    + reflexivity.
  - eapply (call_with_kwargs_outcome _ get_eligibility_criteria_params);
      [| | exact E].
    + intros; apply helper_trace.
    + reflexivity.
  - eapply (call_with_kwargs_outcome _ get_trial_locations_params); [| | exact E].
    + intros; apply helper_trace.
    + intros c x. unfold get_trial_locations_params. now destruct (truthy x).
  - eapply (call_with_kwargs_outcome _ get_trial_phases_params); [| | exact E].
    + intros; apply helper_trace.
    + reflexivity.
Qed.

(** When the loop over the invocations does not raise, it has executed
    them one after the other. *)
Lemma for_each_tool_step (w : world) (calls : list tool_call) :
  forall (t t' : list event) (messages messages' : list chat_message),
    for_each tool_step calls messages w t = (Ok messages', t') ->
    exists events msgs,
      invocations_run w t calls events msgs /\
      t' = t ++ events /\
      messages' = messages ++ msgs.
Proof.
  induction calls as [|tc calls IH]; intros t t' messages messages' H.
  - cbn in H. injection H as <- <-. exists [], []. rewrite !app_nil_r.
    repeat split. constructor.
  - cbn [for_each] in H. unfold pbind at 1 in H.
    destruct (tool_step messages tc w t) as [[acc|e] t1] eqn:S; [| discriminate H].
    unfold tool_step, pbind, lift, print, ret in S.
    destruct (json_loads (arguments (function tc))) as [args|] eqn:EL;
      [| discriminate S].
    destruct (resolve (name (function tc))) as [f|] eqn:ER; [| discriminate S].
    destruct (f args w ((t ++ [PrintCalling (name (function tc))]) ++ [PrintArgs args]))
      as [[res|e] t2] eqn:EF; [| discriminate S].
    injection S as <- <-.
    rewrite <- app_assoc in EF. cbn [app] in EF.
    destruct (available_function_one_get _ _ _ _ _ _ _ ER EF)
      as (params & c & -> & Hc & Hq).
    rewrite <- app_assoc in EF, H. cbn [app] in EF, H.
    destruct (IH _ _ _ _ H) as (events & msgs & Hrun & -> & ->).
    exists ([PrintCalling (name (function tc)); PrintArgs args; Get STUDIES_URL params]
              ++ events),
           (ToolResult (id tc) (name (function tc)) (json_dumps res) :: msgs).
    split; [| split].
    + eapply run_one; eauto. now rewrite Hq.
    + now rewrite <- app_assoc.
    + now rewrite <- app_assoc.
Qed.

Lemma invocations_run_counts (w : world) (t : list event) (calls : list tool_call)
  (events : list event) (msgs : list chat_message) :
  invocations_run w t calls events msgs ->
  List.length (registry_calls events) = List.length calls /\
  completion_calls events = [] /\
  map tagged_with msgs = map (fun tc => Some (id tc)) calls.
Proof.
  induction 1 as [| t tc calls args f params res events msgs fname segment
                    HL HR HF HC Hrun (IH1 & IH2 & IH3)].
  - repeat split.
  - subst segment. unfold registry_calls, completion_calls in *.
    rewrite !flat_map_app, length_app, IH1, IH2. cbn [map tagged_with].
    rewrite IH3. repeat split.
Qed.

(** Conversely, invocations that run make the loop return. *)
Lemma invocations_run_for_each (w : world) (t : list event) (calls : list tool_call)
  (events : list event) (msgs : list chat_message) :
  invocations_run w t calls events msgs ->
  forall messages,
    for_each tool_step calls messages w t = (Ok (messages ++ msgs), t ++ events).
Proof.
  induction 1 as [t | t tc calls args f params res events msgs fname segment
                      HL HR HF HC Hrun IH]; intros messages.
  - cbn. unfold ret. now rewrite !app_nil_r.
  - assert (T : tool_step messages tc w t
                = (Ok (messages ++ [ToolResult (id tc) fname (json_dumps res)]),
                   t ++ segment)).
    { unfold tool_step, pbind, lift, print, ret. rewrite HL. fold fname.
      rewrite HR, <- app_assoc. cbn [app]. rewrite HF. reflexivity. }
    cbn [for_each]. unfold pbind at 1. rewrite T, IH.
    now rewrite <- !app_assoc.
Qed.

Lemma invocation_fails_tool_step (w : world) (t : list event) (tc : tool_call)
  (e : exn) (added : list event) :
  invocation_fails w t tc e added ->
  forall messages, tool_step messages tc w t = (Raise e, t ++ added).
Proof.
  intros H messages.
  destruct H as [e HL | args e fname HL HR | args f e sent fname lines HL HR HF];
    unfold tool_step, pbind, lift, print, ret; rewrite HL.
  - now rewrite app_nil_r.
  - fold fname. rewrite HR. now rewrite <- app_assoc.
  - fold fname. rewrite HR, <- app_assoc. cbn [app]. fold lines. now rewrite HF.
Qed.

(** What a failing invocation has sent: no completion request, and at
    most one request to the registry. *)
Lemma invocation_fails_events (w : world) (t : list event) (tc : tool_call)
  (e : exn) (added : list event) :
  invocation_fails w t tc e added ->
  completion_calls added = [] /\ (List.length (registry_calls added) <= 1)%nat.
Proof.
  intros H.
  destruct H as [e HL | args e fname HL HR | args f e sent fname lines HL HR HF].
  - split; [reflexivity | cbn; lia].
  - split; [reflexivity | cbn; lia].
  - destruct (table_function_outcome fname f args w (t ++ lines) HR)
      as [[_ D] | (params & c & D & _)]; rewrite HF in D; cbn [snd] in D.
    + rewrite app_assoc in D. rewrite <- (app_nil_r (t ++ lines)) in D at 2.
      apply app_inv_head in D. subst sent. split; [reflexivity | cbn; lia].
    + rewrite app_assoc in D. apply app_inv_head in D. subst sent.
      split; [reflexivity | cbn; lia].
Qed.

(** An invocation that raises is one that fails. *)
Lemma tool_step_raises (w : world) (t t' : list event)
  (messages : list chat_message) (tc : tool_call) (e : exn) :
  tool_step messages tc w t = (Raise e, t') ->
  exists added, invocation_fails w t tc e added /\ t' = t ++ added.
Proof.
  unfold tool_step, pbind, lift, print, ret. intros H.
  destruct (json_loads (arguments (function tc))) as [args|e0] eqn:EL.
  - destruct (resolve (name (function tc))) as [f|e0] eqn:ER.
    + rewrite <- app_assoc in H. cbn [app] in H.
      destruct (f args w (t ++ [PrintCalling (name (function tc)); PrintArgs args]))
        as [[res|e1] t2] eqn:EF; [discriminate H|].
      injection H as <- <-.
      destruct (table_function_outcome _ f args w
                  (t ++ [PrintCalling (name (function tc)); PrintArgs args]) ER)
        as [[_ D] | (params & c & D & _)]; rewrite EF in D; cbn [snd] in D; subst t2.
      * exists ([PrintCalling (name (function tc)); PrintArgs args] ++ []).
        split; [| now rewrite app_nil_r].
        apply (fails_call w t tc args f e1 []); assumption.
      * exists ([PrintCalling (name (function tc)); PrintArgs args]
                  ++ [Get STUDIES_URL params]).
        split; [| now rewrite app_assoc].
        rewrite <- app_assoc in EF.
        apply (fails_call w t tc args f e1 [Get STUDIES_URL params]); assumption.
    + injection H as <- <-.
      exists [PrintCalling (name (function tc)); PrintArgs args].
      split; [| now rewrite <- app_assoc].
      now apply (fails_lookup w t tc args e0).
  - injection H as <- <-. exists []. split; [| now rewrite app_nil_r].
    now apply fails_payload.
Qed.

(** When the loop over the invocations raises, the invocations before
    the failing one have run and the later ones are left alone. *)
Lemma for_each_tool_step_raises (w : world) (calls : list tool_call) :
  forall (t t' : list event) (messages : list chat_message) (e : exn),
    for_each tool_step calls messages w t = (Raise e, t') ->
    exists done tc skipped events msgs added,
      calls = done ++ tc :: skipped /\
      invocations_run w t done events msgs /\
      invocation_fails w (t ++ events) tc e added /\
      t' = t ++ events ++ added.
Proof.
  induction calls as [|tc calls IH]; intros t t' messages e H.
  - discriminate H.
  - cbn [for_each] in H. unfold pbind at 1 in H.
    destruct (tool_step messages tc w t) as [[acc|e0] t1] eqn:S.
    + assert (S' : for_each tool_step [tc] messages w t = (Ok acc, t1)).
      { cbn [for_each]. unfold pbind at 1. now rewrite S. }
      destruct (for_each_tool_step _ _ _ _ _ _ S') as (ev1 & m1 & R1 & -> & ->).
      destruct (IH _ _ _ _ H)
        as (done & tc' & skipped & events & msgs & added & -> & R & F & ->).
      inversion R1 as [| t0 tc0 calls0 args f params res events0 msgs0 fname segment
                         HL HR HF HC Hrest]; subst.
      inversion Hrest; subst. rewrite app_nil_r in R, F |- *.
      exists (tc :: done), tc', skipped, (segment ++ events),
             (ToolResult (id tc) fname (json_dumps res) :: msgs), added.
      split; [reflexivity|].
      split; [apply (run_one w t tc done args f params res events msgs); assumption|].
      split; [now rewrite app_assoc|]. now rewrite <- !app_assoc.
    + injection H as <- <-.
      destruct (tool_step_raises _ _ _ _ _ _ S) as (added & F & ->).
      exists [], tc, calls, [], [], added.
      split; [reflexivity|]. split; [constructor|].
      split; [now rewrite app_nil_r | reflexivity].
Qed.

Lemma for_each_app {A S : Type} (body : S -> A -> prog S) (xs ys : list A)
  (acc : S) (w : world) (t : list event) :
  for_each body (xs ++ ys) acc w t =
    match for_each body xs acc w t with
    | (Ok acc', t') => for_each body ys acc' w t'
    | (Raise e, t') => (Raise e, t')
    end.
Proof.
  revert acc t. induction xs as [|x xs IH]; intros acc t; [reflexivity|].
  cbn [app for_each]. unfold pbind.
  destruct (body acc x w t) as [[acc'|e] t']; [apply IH | reflexivity].
Qed.

End ToolLoopFacts.

Section AgentWithTools.
Context `{RT : Runtime}.

(** C2, as the code has it.  Let the first completion carry N >= 1 tool
    invocations.  When the invocations run (every argument payload
    parses, every name is in the table, every call returns),
    [run_agent] has executed them in the order they were returned, each
    with exactly one registry call made for its condition, and has
    appended one tool-result message per invocation, tagged with its
    identifier, after the assistant message; it then makes one more
    completion call, on the whole conversation and without tools, and
    returns the content of its answer: N registry calls and two
    completion calls in all.  When an invocation fails, the exception it
    raises comes out of [run_agent]: the invocations before it have been
    executed as above, the failing one has sent at most one request to
    the registry, and nothing follows, neither the remaining invocations
    nor the second completion call.  One of the two is always the
    case. *)
Theorem tool_calls_are_executed_in_order
  (w : world) (t : list event) (user_question model : string)
  (first : completion) (m : response_message) (calls : list tool_call) :
  completions_create w t (first_request user_question model) = Ok first ->
  first_message first = Ok m ->
  tool_calls m = Some calls ->
  calls <> [] ->
  let t1 := t ++ [Create (first_request user_question model)] in
  let conversation := initial_messages user_question ++ [Assistant m] in
  (forall events tool_messages,
     invocations_run w t1 calls events tool_messages ->
     let messages := conversation ++ tool_messages in
     List.length (registry_calls events) = List.length calls /\
     completion_calls events = [] /\
     map tagged_with tool_messages = map (fun tc => Some (id tc)) calls /\
     snd (run_agent user_question model w t)
       = t1 ++ events ++ [Create (final_request model messages)] /\
     (forall final final_message,
        completions_create w (t1 ++ events) (final_request model messages) = Ok final ->
        first_message final = Ok final_message ->
        fst (run_agent user_question model w t) = Ok (content final_message))) /\
  (forall done tc skipped events tool_messages e added,
     calls = done ++ tc :: skipped ->
     invocations_run w t1 done events tool_messages ->
     invocation_fails w (t1 ++ events) tc e added ->
     run_agent user_question model w t = (Raise e, t1 ++ events ++ added) /\
     List.length (registry_calls events) = List.length done /\
     (List.length (registry_calls added) <= 1)%nat /\
     completion_calls (events ++ added) = [] /\
     map tagged_with tool_messages = map (fun tc => Some (id tc)) done) /\
  ((exists events tool_messages, invocations_run w t1 calls events tool_messages) \/
   (exists done tc skipped events tool_messages e added,
      calls = done ++ tc :: skipped /\
      invocations_run w t1 done events tool_messages /\
      invocation_fails w (t1 ++ events) tc e added)).
Proof.
  intros H1 Hm Hc Hne t1 conversation.
  assert (Hrun : run_agent user_question model w t =
                 (let (o, t2) := for_each tool_step calls conversation w t1 in
                  match o with
                  | Ok messages =>
                      (final <~ create (final_request model messages) ;;
                       final_message <~ lift (first_message final) ;;
                       ret (content final_message)) w t2
                  | Raise e => (Raise e, t2)
                  end)).
  { unfold run_agent. unfold pbind at 1. unfold create at 1. rewrite H1.
    unfold pbind at 1. unfold lift at 1. rewrite Hm, Hc.
    destruct calls as [|tc calls]; [congruence|].
    unfold pbind at 1. fold conversation. fold t1.
    now destruct (for_each tool_step (tc :: calls) conversation w t1) as [[?|?] ?]. }
  split; [| split].
  - intros events msgs R messages.
    destruct (invocations_run_counts _ _ _ _ _ R) as (N1 & N2 & N3).
    split; [exact N1|]. split; [exact N2|]. split; [exact N3|].
    rewrite Hrun, (invocations_run_for_each _ _ _ _ _ R conversation).
    fold messages. unfold pbind, create, lift, ret. split.
    + destruct (completions_create w (t1 ++ events) (final_request model messages))
        as [final|e]; [destruct (first_message final) |]; cbn [snd];
        now rewrite <- app_assoc.
    + intros final fm H2 Hf. now rewrite H2, Hf.
  - intros done tc skipped events msgs e added -> R F.
    destruct (invocations_run_counts _ _ _ _ _ R) as (N1 & N2 & N3).
    destruct (invocation_fails_events _ _ _ _ _ F) as (C & N).
    split; [| split; [exact N1 | split; [exact N | split; [| exact N3]]]].
    + rewrite Hrun, for_each_app, (invocations_run_for_each _ _ _ _ _ R conversation).
      cbn [for_each]. unfold pbind at 1.
      rewrite (invocation_fails_tool_step _ _ _ _ _ F). now rewrite <- app_assoc.
    + unfold completion_calls in *. now rewrite flat_map_app, N2, C.
  - destruct (for_each tool_step calls conversation w t1) as [[messages|e] t2] eqn:L.
    + left. destruct (for_each_tool_step _ _ _ _ _ _ L) as (events & msgs & R & _).
      now exists events, msgs.
    + right. destruct (for_each_tool_step_raises _ _ _ _ _ _ L)
        as (done & tc & skipped & events & msgs & added & E & R & F & _).
      now exists done, tc, skipped, events, msgs, e, added.
Qed.

End AgentWithTools.

(** The model asks for a tool that is not in the table: the lookup raises
    [KeyError], no registry call and no second completion call are
    made. *)
Lemma unknown_tool_raises : ~ @executes_every_invocation sample_runtime.
Proof.
  intros H.
  pose (calls := [invoke "call_1" "get_trial_sites" "{}"]).
  destruct (H (stub_world not_found [asks calls]) []
              "Which sites run asthma trials?" DEFAULT_MODEL (asks calls)
              {| content := None; tool_calls := Some calls |} calls
              eq_refl eq_refl eq_refl)
    as (done & msgs & fm & Hrun & _).
  - discriminate.
  - vm_compute in Hrun. discriminate Hrun.
Qed.

(** What [run_agent] does on that input. *)
Example unknown_tool_trace :
  @run_agent sample_runtime "Which sites run asthma trials?" DEFAULT_MODEL
    (stub_world not_found [asks [invoke "call_1" "get_trial_sites" "{}"]]) [] =
    (Raise (KeyError "get_trial_sites"),
     [Create (first_request "Which sites run asthma trials?" DEFAULT_MODEL);
      PrintCalling "get_trial_sites"; PrintArgs (VDict [])]).
Proof. reflexivity. Qed.

Lemma tool_calls_are_executed_in_order_witness :
  let q := "Show me Phase 3 Asthma trials" in
  let ask := invoke "call_1" "get_trial_phases" (sample_dumps asthma_phase3) in
  let bad := invoke "call_2" "get_trial_phases" "{}" in
  let late := invoke "call_3" "count_trials" (sample_dumps diabetes) in
  let first := first_request q DEFAULT_MODEL in
  let sent :=
    [PrintCalling "get_trial_phases"; PrintArgs asthma_phase3;
     Get STUDIES_URL (get_trial_phases_params (VStr "asthma") (VStr "PHASE3"))] in
  let summary :=
    VDict [("condition", VStr "asthma"); ("phase", VStr "PHASE3"); ("count", VInt 2);
           ("trials",
            VList [VDict [("nct_id", VStr "NCT01"); ("title", VStr "A");
                          ("phase", VList [NA]); ("start_date", NA);
                          ("completion_date", NA)];
                   VDict [("nct_id", VStr "NCT02"); ("title", VStr "B");
                          ("phase", VList [NA]); ("start_date", NA);
                          ("completion_date", NA)]])] in
  let result := ToolResult "call_1" "get_trial_phases" (sample_dumps summary) in
  let messages :=
    initial_messages q
      ++ [Assistant {| content := None; tool_calls := Some [ask] |}] ++ [result] in
  (@run_agent sample_runtime q DEFAULT_MODEL (stub_world two_trials phase3_script) [] =
     (Ok (Some "Two Phase 3 asthma trials were found."),
      ([] ++ [Create first]) ++ (sent ++ [])
        ++ [Create (final_request DEFAULT_MODEL messages)])) /\
  (@run_agent sample_runtime q DEFAULT_MODEL
     (stub_world two_trials [asks [ask; bad; late]; says "never asked"]) [] =
     (Raise TypeError,
      ([] ++ [Create first]) ++ (sent ++ [])
        ++ [PrintCalling "get_trial_phases"; PrintArgs (VDict [])] ++ [])).
Proof.
  intros q ask bad late first sent summary result messages.
  pose (params := get_trial_phases_params (VStr "asthma") (VStr "PHASE3")).
  pose (f := call_with_kwargs get_trial_phases "condition" "phase" None).
  assert (R : forall script,
             @invocations_run sample_runtime (stub_world two_trials script)
               ([] ++ [Create first]) [ask] (sent ++ []) [result]).
  { intros script.
    apply (@run_one sample_runtime (stub_world two_trials script) ([] ++ [Create first])
             ask [] asthma_phase3 f params summary [] []);
      try reflexivity.
    apply run_none. }
  split.
  - destruct (@tool_calls_are_executed_in_order sample_runtime
                (stub_world two_trials phase3_script) [] q DEFAULT_MODEL
                (asks [ask]) {| content := None; tool_calls := Some [ask] |} [ask]
                eq_refl eq_refl eq_refl ltac:(discriminate)) as (A & _).
    destruct (A (sent ++ []) [result] (R phase3_script)) as (_ & _ & _ & Hs & Hf).
    specialize (Hf (says "Two Phase 3 asthma trials were found.")
                  {| content := Some "Two Phase 3 asthma trials were found.";
                     tool_calls := None |} eq_refl eq_refl).
    rewrite (surjective_pairing (run_agent _ _ _ _)), Hs, Hf. reflexivity.
  - destruct (@tool_calls_are_executed_in_order sample_runtime
                (stub_world two_trials [asks [ask; bad; late]; says "never asked"])
                [] q DEFAULT_MODEL
                (asks [ask; bad; late])
                {| content := None; tool_calls := Some [ask; bad; late] |}
                [ask; bad; late]
                eq_refl eq_refl eq_refl ltac:(discriminate)) as (_ & B & _).
    apply (B [ask] bad [late] (sent ++ []) [result] TypeError
             ([PrintCalling "get_trial_phases"; PrintArgs (VDict [])] ++ [])).
    + reflexivity.
    + apply R.
    + apply (@fails_call sample_runtime _ _ bad (VDict []) f TypeError []);
        reflexivity.
Defined.

(** * Further properties of the registry client *)

Lemma foldM_ext {A S : Type} (f g : S -> A -> result S) (xs : list A) (acc : S) :
  (forall acc x, f acc x = g acc x) -> foldM f xs acc = foldM g xs acc.
Proof.
  intros H. revert acc. induction xs as [|x xs IH]; intros acc; cbn; [reflexivity|].
  rewrite H. destruct (g acc x); cbn; auto.
Qed.

Lemma foldM_app {A S : Type} (f : S -> A -> result S) (xs ys : list A) (acc : S) :
  foldM f (xs ++ ys) acc = (acc' <- foldM f xs acc ;; foldM f ys acc').
Proof.
  revert acc. induction xs as [|x xs IH]; intros acc; cbn; [reflexivity|].
  destruct (f acc x); cbn; auto.
Qed.

(** ** count_trials looks at three records only *)

Section CountTrials.


End CountTrials.


(** ** Entries keep the identification of their record *)

Lemma criteria_entry_identification `{RT : Runtime} (study e : value) :
  criteria_entry study = Ok e -> identified_by study e.
Proof.
  unfold criteria_entry. intros H.
  repeat open_read H; injection H as <-;
    do 2 eexists; repeat split; cbn;
    repeat match goal with
           | L : lookup ?k ?d = _ |- context [lookup ?k ?d] => rewrite L
           end; reflexivity.
Qed.

Lemma trial_entry_identification (study e : value) :
  trial_entry study = Ok e -> identified_by study e.
Proof.
  unfold trial_entry. intros H.
  repeat open_read H; injection H as <-;
    do 2 eexists; repeat split; cbn;
    repeat match goal with
           | L : lookup ?k ?d = _ |- context [lookup ?k ?d] => rewrite L
           end; reflexivity.
Qed.

Section EveryRecord.
Context `{RT : Runtime}.

(** X2. [get_trial_phases] and [get_eligibility_criteria] cut nothing:
    on a 200 response whose [studies] is a list, the entries of
    ["trials"] (of ["criteria"]) stand one for one, in the same order, for
    the records of the response, each with the trial number and the title
    of its record, and ["count"] (["number_of_trials"]) is the number of
    records. *)
Theorem entries_follow_the_records
  (condition phase : value) (r : response) (l : list value) :
  status_code r = 200%Z ->
  studies_of r = Ok (VList l) ->
  (forall v, get_trial_phases_summary condition phase r = Ok v ->
     exists entries,
       getitem v "trials" = Ok (VList entries) /\
       Forall2 identified_by l entries /\
       getitem v "count" = Ok (VInt (Z.of_nat (List.length l)))) /\
  (forall v, get_eligibility_criteria_summary condition r = Ok v ->
     exists entries,
       getitem v "criteria" = Ok (VList entries) /\
       Forall2 identified_by l entries /\
       getitem v "number_of_trials" = Ok (VInt (Z.of_nat (List.length l)))).
Proof.
  intros Hs E. split; intros v H.
  - rewrite get_trial_phases_summary_200, E in H by assumption.
    cbn [bind iter] in H. bind_ok H. injection H as <-.
    exists a. pose proof (mapM_length _ _ _ E0) as L.
    split; [reflexivity|]. split; [| cbn; now rewrite L].
    apply mapM_Forall2 in E0. eapply Forall2_impl; [| exact E0].
    intros x y. apply trial_entry_identification.
  - rewrite get_eligibility_criteria_summary_200, E in H by assumption.
    cbn [bind iter] in H. bind_ok H. injection H as <-.
    exists a. pose proof (mapM_length _ _ _ E0) as L.
    split; [reflexivity|]. split; [| cbn; now rewrite L].
    apply mapM_Forall2 in E0. eapply Forall2_impl; [| exact E0].
    intros x y. apply criteria_entry_identification.
Qed.

End EveryRecord.

Lemma entries_follow_the_records_witness :
  let l := [bare_study (VStr "NCT01") (VStr "A"); bare_study (VStr "NCT02") (VStr "B")] in
  (exists entries,
     getitem (VDict [("condition", VStr "asthma"); ("phase", VStr "PHASE3");
                     ("count", VInt 2);
                     ("trials",
                      VList [VDict [("nct_id", VStr "NCT01"); ("title", VStr "A");
                                    ("phase", VList [NA]); ("start_date", NA);
                                    ("completion_date", NA)];
                             VDict [("nct_id", VStr "NCT02"); ("title", VStr "B");
                                    ("phase", VList [NA]); ("start_date", NA);
                                    ("completion_date", NA)]])])
       "trials" = Ok (VList entries) /\
     Forall2 identified_by l entries /\
     getitem (VDict [("condition", VStr "asthma"); ("phase", VStr "PHASE3");
                     ("count", VInt 2);
                     ("trials",
                      VList [VDict [("nct_id", VStr "NCT01"); ("title", VStr "A");
                                    ("phase", VList [NA]); ("start_date", NA);
                                    ("completion_date", NA)];
                             VDict [("nct_id", VStr "NCT02"); ("title", VStr "B");
                                    ("phase", VList [NA]); ("start_date", NA);
                                    ("completion_date", NA)]])])
       "count" = Ok (VInt (Z.of_nat (List.length l)))).
Proof.
  intros l.
  apply (@entries_follow_the_records sample_runtime (VStr "asthma") (VStr "PHASE3")
           two_trials l eq_refl eq_refl).
  reflexivity.
Defined.

(** ** More on get_trial_locations *)

Lemma collect_facilities_ext (k k' studies : value) :
  (forall loc, country_mismatch k loc = country_mismatch k' loc) ->
  collect_facilities k studies = collect_facilities k' studies.
Proof.
  intros H. unfold collect_facilities.
  destruct (iter studies) as [items|e]; cbn; [| reflexivity].
  apply foldM_ext. intros acc study. unfold study_step.
  destruct (getitem study "protocolSection") as [p|e]; cbn; [| reflexivity].
  destruct (contains "contactsLocationsModule" p) as [[|]|e]; cbn; try reflexivity.
  destruct (getitem p "contactsLocationsModule") as [m|e]; cbn; [| reflexivity].
  destruct (get m "locations" (VList [])) as [ls|e]; cbn; [| reflexivity].
  destruct (iter ls) as [locs|e]; cbn; [| reflexivity].
  apply foldM_ext. intros acc' loc. unfold location_step. now rewrite H.
Qed.

Lemma kept_entry_matches (c : string) (loc : value) (ys : list value) :
  c <> "" ->
  kept_entry (VStr c) loc = Ok ys ->
  Forall (fun info => exists s, getitem info "country" = Ok (VStr s)
                                /\ lower s = lower c) ys.
Proof.
  intros Hc H. unfold kept_entry, country_mismatch in H.
  assert (T : truthy (VStr c) = true)
    by (cbn; destruct c; [congruence | reflexivity]).
  rewrite T in H.
  destruct loc as [| | | | |d]; try discriminate H. cbn [get bind] in H.
  destruct (lookup "country" d) as [x|] eqn:L.
  - destruct x as [| | |s| |]; try discriminate H. cbn [py_lower bind] in H.
    destruct (negb (String.eqb (lower s) (lower c))) eqn:N.
    + injection H as <-. constructor.
    + unfold facility_info in H. cbn [get bind] in H. rewrite L in H.
      injection H as <-. constructor; [| constructor].
      exists s. split; [reflexivity|].
      now apply negb_false_iff, String.eqb_eq in N.
  - cbn [py_lower bind lower] in H.
    assert (E : String.eqb "" (lower c) = false).
    { apply String.eqb_neq. intros E. now apply (lower_nonempty c Hc). }
    rewrite E in H. injection H as <-. constructor.
Qed.

Section Locations.

(** X3. A country argument that Python takes for false (the empty
    string as well as [None]) means no country at all: the request, the
    result and the history are those of a call without country. *)
Theorem falsy_country_is_no_country
  (condition country : value) (w : world) (t : list event) :
  truthy country = false ->
  get_trial_locations condition country w t = get_trial_locations condition VNone w t.
Proof.
  intros F.
  assert (P : get_trial_locations_params condition country
              = get_trial_locations_params condition VNone).
  { unfold get_trial_locations_params. now rewrite F. }
  unfold get_trial_locations, pbind, http_get, lift. rewrite P.
  destruct (requests_get w t STUDIES_URL _) as [r|e]; [| reflexivity].
  f_equal. unfold get_trial_locations_summary.
  destruct (status_code r =? 200)%Z; [| reflexivity].
  destruct (json r) as [data|e]; cbn [bind]; [| reflexivity].
  destruct (get data "studies" (VList [])) as [studies|e]; cbn [bind]; [| reflexivity].
  rewrite (collect_facilities_ext country VNone).
  - unfold py_or. now rewrite F.
  - intros loc. unfold country_mismatch. now rewrite F.
Qed.

(** X4. Only the [str.lower()] form of the country argument matters to
    the scan: on the same studies, two arguments with the same lowercase
    form collect the same facilities, or raise the same exception. *)
Theorem country_argument_case_is_irrelevant (c c' : string) (studies : value) :
  lower c = lower c' ->
  collect_facilities (VStr c) studies = collect_facilities (VStr c') studies.
Proof.
  intros H. apply collect_facilities_ext. intros loc.
  assert (T : truthy (VStr c) = truthy (VStr c')).
  { destruct c, c'; try reflexivity; discriminate H. }
  unfold country_mismatch. rewrite T. cbn [py_lower]. now rewrite H.
Qed.

(** X5. With a non-empty country argument, every facility that is
    collected has a country, a string, whose [str.lower()] form is that
    of the argument. *)
Theorem collected_facilities_match_country
  (c : string) (studies : value) (collected : list value) :
  c <> "" ->
  collect_facilities (VStr c) studies = Ok collected ->
  Forall (fun info => exists s, getitem info "country" = Ok (VStr s)
                                /\ lower s = lower c) collected.
Proof.
  intros Hc H. rewrite collect_facilities_scanned in H. bind_ok H.
  injection H as <-. rename a into scan.
  assert (S : Forall (fun info => exists s, getitem info "country" = Ok (VStr s)
                                            /\ lower s = lower c) scan).
  { unfold scanned in E. bind_ok E.
    eapply (concatM_Forall (fun _ => True)); [| | exact E].
    - intros study ys _ Hk. unfold kept_entries_of_study in Hk.
      do 2 bind_ok Hk. destruct a1; [| injection Hk as <-; constructor].
      do 3 bind_ok Hk.
      eapply (concatM_Forall (fun _ => True)); [| | exact Hk].
      + intros loc ys' _. now apply kept_entry_matches.
      + apply Forall_forall. intros; exact I.
    - apply Forall_forall. intros; exact I. }
  apply Forall_forall. intros r Hr. rewrite Forall_forall in S. apply S.
  apply fold_add_new_In in Hr as [[] | Hr]. exact Hr.
Qed.

End Locations.

Lemma foldM_study_step_grows (country : value) (items : list value)
  (acc acc' : list value) :
  foldM (study_step country) items acc = Ok acc' -> exists more, acc' = acc ++ more.
Proof.
  revert acc. induction items as [|x items IH]; intros acc H; cbn in H.
  - injection H as <-. exists []. now rewrite app_nil_r.
  - bind_ok H. rewrite study_step_add_new in E. bind_ok E. injection E as <-.
    destruct (IH _ H) as (more & ->).
    assert (G : forall l acc0, exists m, fold_left add_new l acc0 = acc0 ++ m).
    { clear. induction l as [|y l IHl]; intros acc0; cbn.
      - exists []. now rewrite app_nil_r.
      - unfold add_new at 2. destruct (list_contains acc0 y); [apply IHl|].
        destruct (IHl (acc0 ++ [y])) as (m & ->). exists (y :: m).
        now rewrite <- app_assoc. }
    destruct (G a0 acc) as (m & ->). exists (m ++ more). now rewrite app_assoc.
Qed.

Section LocationsOfStudies.

(** X6. A study record that has a protocol section without
    ["contactsLocationsModule"] adds nothing and breaks nothing: wherever
    it stands among the studies, the outcome is the one without it. *)
Theorem study_without_locations_is_skipped
  (country : value) (before after : list value) (study : value)
  (protocol : list (string * value)) :
  getitem study "protocolSection" = Ok (VDict protocol) ->
  lookup "contactsLocationsModule" protocol = None ->
  collect_facilities country (VList (before ++ study :: after)) =
    collect_facilities country (VList (before ++ after)).
Proof.
  intros Hp Hl. unfold collect_facilities. cbn [iter bind].
  rewrite !foldM_app.
  destruct (foldM (study_step country) before []) as [acc|e]; cbn [bind];
    [| reflexivity].
  cbn [foldM]. unfold study_step at 1. rewrite Hp. cbn [bind contains].
  assert (E : existsb (String.eqb "contactsLocationsModule") (keys protocol) = false).
  { destruct (existsb _ (keys protocol)) eqn:E; [| reflexivity].
    apply lookup_in_keys in E as (x & Hx). congruence. }
  rewrite E. reflexivity.
Qed.

(** X7. The list of facilities only grows, at its end: the facilities
    collected from the first studies of a response are a prefix of the
    facilities collected from all of them. *)
Theorem facilities_of_first_studies_are_a_prefix
  (country : value) (first rest : list value) (collected : list value) :
  collect_facilities country (VList (first ++ rest)) = Ok collected ->
  exists mine more,
    collect_facilities country (VList first) = Ok mine /\
    collected = mine ++ more.
Proof.
  unfold collect_facilities. cbn [iter bind]. rewrite foldM_app. intros H.
  bind_ok H. exists a. destruct (foldM_study_step_grows _ _ _ _ H) as (more & ->).
  exists more. split; reflexivity.
Qed.

End LocationsOfStudies.

Lemma falsy_country_is_no_country_witness :
  get_trial_locations (VStr "depression") (VStr "")
    (stub_world (ok_200 (VDict [("studies", VList [study_at (sites 2)])])) []) [] =
  get_trial_locations (VStr "depression") VNone
    (stub_world (ok_200 (VDict [("studies", VList [study_at (sites 2)])])) []) [].
Proof.
  apply (falsy_country_is_no_country (VStr "depression") (VStr "")). reflexivity.
Defined.

Lemma country_argument_case_is_irrelevant_witness :
  collect_facilities (VStr "Spain") (VList [study_at (sites 2)]) =
  collect_facilities (VStr "SPAIN") (VList [study_at (sites 2)]).
Proof.
  apply (country_argument_case_is_irrelevant "Spain" "SPAIN").
  reflexivity.
Defined.

Lemma collected_facilities_match_country_witness :
  Forall (fun info => exists s, getitem info "country" = Ok (VStr s)
                                /\ lower s = lower "spain")
    [location "Hospital del Mar" "Barcelona" "Spain"].
Proof.
  apply (collected_facilities_match_country "spain"
           (VList [study_at [location "Hospital del Mar" "Barcelona" "Spain";
                             location "Hopital Cochin" "Paris" "France"]])).
  - discriminate.
  - reflexivity.
Defined.

Lemma study_without_locations_is_skipped_witness :
  collect_facilities VNone
    (VList ([study_at (sites 1)] ++ bare_study (VStr "NCT01") (VStr "A")
              :: [study_at (sites 2)])) =
  collect_facilities VNone (VList ([study_at (sites 1)] ++ [study_at (sites 2)])).
Proof.
  apply (study_without_locations_is_skipped VNone [study_at (sites 1)]
           [study_at (sites 2)] (bare_study (VStr "NCT01") (VStr "A"))
           [("identificationModule",
             VDict [("nctId", VStr "NCT01"); ("briefTitle", VStr "A")])]).
  - reflexivity.
  - reflexivity.
Defined.

Lemma facilities_of_first_studies_are_a_prefix_witness :
  exists mine more,
    collect_facilities VNone (VList [study_at (sites 1)]) = Ok mine /\
    sites 2 = mine ++ more.
Proof.
  apply (facilities_of_first_studies_are_a_prefix VNone
           [study_at (sites 1)] [study_at (sites 2)] (sites 2)).
  reflexivity.
Defined.

(** * Further properties of the function table and the catalog *)

Lemma lookup_app (k : string) (d d' : list (string * value)) :
  lookup k (d ++ d') = match lookup k d with
                       | Some x => Some x
                       | None => lookup k d'
                       end.
Proof.
  induction d as [|[k' x] d IH]; cbn; [reflexivity|].
  now destruct (String.eqb k k').
Qed.

Section FunctionTable.
Context `{RT : Runtime}.

(** X8. Calling a function of the table with the arguments of an
    invocation has one of two outcomes: the call is rejected with
    [TypeError] before anything is sent, or exactly one request goes to
    the registry, for the condition the invocation names.  Arguments that
    are not an object with a ["condition"] entry are always rejected. *)
Theorem invocation_is_rejected_or_sends_one_request
  (fname : string) (f : value -> prog value) (args : value)
  (w : world) (t : list event) :
  resolve fname = Ok f ->
  ((fst (f args w t) = Raise TypeError /\ snd (f args w t) = t) \/
   (exists params c,
      snd (f args w t) = t ++ [Get STUDIES_URL params] /\
      getitem args "condition" = Ok c /\
      lookup "query.cond" params = Some c)) /\
  ((forall c, getitem args "condition" <> Ok c) ->
   f args w t = (Raise TypeError, t)).
Proof.
  intros R. pose proof (table_function_outcome fname f args w t R) as D.
  split; [exact D|]. intros N.
  destruct D as [[D1 D2] | (params & c & _ & Hc & _)].
  - destruct (f args w t); cbn in *. now subst.
  - now destruct (N c).
Qed.

End FunctionTable.

Lemma invocation_is_rejected_or_sends_one_request_witness :
  let f := call_with_kwargs get_trial_phases "condition" "phase" None in
  let args := VDict [("phase", VStr "PHASE3")] in
  let w := stub_world two_trials [] in
  ((fst (f args w []) = Raise TypeError /\ snd (f args w []) = []) \/
   (exists params c,
      snd (f args w []) = [] ++ [Get STUDIES_URL params] /\
      getitem args "condition" = Ok c /\
      lookup "query.cond" params = Some c)) /\
  ((forall c, getitem args "condition" <> Ok c) ->
   f args w [] = (Raise TypeError, [])).
Proof.
  intros f args w.
  apply (@invocation_is_rejected_or_sends_one_request sample_runtime
           "get_trial_phases" f args w []).
  reflexivity.
Defined.

(** What decides whether a keyword call is accepted. *)
Lemma call_with_kwargs_accepts
  (h : value -> value -> prog value) (build : value -> value -> list (string * value))
  (second : string) (default : option value)
  (d : list (string * value)) (w : world) (t : list event) :
  (forall c x w t, snd (h c x w t) = t ++ [Get STUDIES_URL (build c x)]) ->
  if forallb (fun k => existsb (String.eqb k) ["condition"; second]) (keys d)
     && existsb (String.eqb "condition") (keys d)
     && (existsb (String.eqb second) (keys d)
         || match default with Some _ => true | None => false end)
  then exists params,
         snd (call_with_kwargs h "condition" second default (VDict d) w t)
           = t ++ [Get STUDIES_URL params]
  else call_with_kwargs h "condition" second default (VDict d) w t
         = (Raise TypeError, t).
Proof.
  intros Hh. unfold call_with_kwargs, lift.
  assert (E : forallb (fun k => existsb (String.eqb k) ["condition"; second]) (keys d)
              = forallb (fun k => String.eqb k "condition" || String.eqb k second)
                  (keys d)).
  { assert (P : forall k, existsb (String.eqb k) ["condition"; second]
                          = String.eqb k "condition" || String.eqb k second)
      by (intros k; cbn; now rewrite orb_false_r).
    induction (keys d) as [|k ks IH]; [reflexivity|].
    cbn [forallb]. now rewrite P, IH. }
  rewrite E, !existsb_keys_lookup. clear E.
  destruct (forallb (fun k => String.eqb k "condition" || String.eqb k second)
              (keys d)); cbn [andb]; cbv iota; [| reflexivity].
  destruct (lookup "condition" d) as [c|]; cbn [andb]; cbv iota; [| reflexivity].
  destruct (lookup second d) as [x|]; cbn [orb]; cbv iota.
  - exists (build c x). apply Hh.
  - destruct default as [x|]; cbv iota; [| reflexivity]. exists (build c x). apply Hh.
Qed.

Section Catalog.
Context `{RT : Runtime}.

(** X9. The catalog shown to the model and the function table agree.
    They list the same four names in the same order; and for every entry
    of the catalog, an invocation whose arguments fit the entry (only
    announced parameters, all required ones) is accepted by the function
    of that name and sends its request, while arguments that do not fit
    are rejected with [TypeError] before anything is sent. *)
Theorem catalog_agrees_with_function_table
  (entry : value) (fname : string) (d : list (string * value))
  (w : world) (t : list event) :
  In entry catalog ->
  declared_name entry = Some fname ->
  map (fun kf => Some (fst kf)) available_functions = map declared_name catalog /\
  exists f,
    resolve fname = Ok f /\
    if conforms entry d
    then exists params, snd (f (VDict d) w t) = t ++ [Get STUDIES_URL params]
    else f (VDict d) w t = (Raise TypeError, t).
Proof.
  intros Hin Hn. split; [reflexivity|].
  unfold catalog, tools in Hin. cbn [In] in Hin.
  destruct Hin as [<- | [<- | [<- | [<- | []]]]]; cbn in Hn; injection Hn as <-.
  - eexists. split; [reflexivity|].
    pose proof (call_with_kwargs_accepts count_trials count_trials_params
                  "status" (Some (VStr "RECRUITING")) d w t
                  (fun c x w t => helper_trace _ _ w t)) as A.
    unfold conforms. cbn [declared_properties declared_required at_path lookup
                           String.eqb Ascii.eqb Bool.eqb tool keys map fst flat_map app
                           forallb].
    cbn in A |- *. rewrite orb_true_r, !andb_true_r in *. exact A.
  - eexists. split; [reflexivity|].
    pose proof (call_with_kwargs_accepts get_eligibility_criteria
                  get_eligibility_criteria_params
                  "max_trials" (Some (VInt 5)) d w t
                  (fun c x w t => helper_trace _ _ w t)) as A.
    unfold conforms. cbn in A |- *. rewrite orb_true_r, !andb_true_r in *. exact A.
  - eexists. split; [reflexivity|].
    pose proof (call_with_kwargs_accepts get_trial_locations
                  get_trial_locations_params
                  "country" (Some VNone) d w t
                  (fun c x w t => helper_trace _ _ w t)) as A.
    unfold conforms. cbn in A |- *. rewrite orb_true_r, !andb_true_r in *. exact A.
  - eexists. split; [reflexivity|].
    pose proof (call_with_kwargs_accepts get_trial_phases get_trial_phases_params
                  "phase" None d w t
                  (fun c x w t => helper_trace _ _ w t)) as A.
    unfold conforms. cbn in A |- *.
    rewrite orb_false_r, !andb_true_r in *. rewrite <- andb_assoc in A. exact A.
Qed.

End Catalog.

Lemma call_with_kwargs_default
  (h : value -> value -> prog value) (second : string) (dv : value)
  (d : list (string * value)) :
  String.eqb "condition" second = false ->
  lookup second d = None ->
  call_with_kwargs h "condition" second (Some dv) (VDict d) =
  call_with_kwargs h "condition" second (Some dv) (VDict (d ++ [(second, dv)])).
Proof.
  intros N L. unfold call_with_kwargs, keys.
  rewrite map_app, forallb_app, !lookup_app, L. cbn [map fst forallb lookup].
  rewrite String.eqb_refl, orb_true_r, andb_true_r, N.
  destruct (forallb _ (map fst d)); [| reflexivity].
  destruct (lookup "condition" d) as [c|]; reflexivity.
Qed.

Section Defaults.
Context `{RT : Runtime}.

(** X10. The defaults the catalog announces are the defaults the
    functions apply: when an invocation leaves out a parameter for which
    its catalog entry gives a default, the call does what it does with
    that default passed explicitly. *)
Theorem announced_defaults_are_applied
  (entry : value) (fname parameter : string) (dv : value)
  (d : list (string * value)) (f : value -> prog value) :
  In entry catalog ->
  declared_name entry = Some fname ->
  declared_default entry parameter = Some dv ->
  lookup parameter d = None ->
  resolve fname = Ok f ->
  f (VDict d) = f (VDict (d ++ [(parameter, dv)])).
Proof.
  intros Hin Hn Hd L R.
  unfold catalog, tools in Hin. cbn [In] in Hin.
  destruct Hin as [<- | [<- | [<- | [<- | []]]]]; cbn in Hn; injection Hn as <-;
    cbn in R; injection R as <-;
    unfold declared_default in Hd; cbn [at_path tool lookup String.eqb Ascii.eqb
                                        Bool.eqb] in Hd.
  - destruct (String.eqb parameter "condition"); [discriminate Hd|].
    destruct (String.eqb parameter "status") eqn:E; [| discriminate Hd].
    apply String.eqb_eq in E. subst. cbn in Hd. injection Hd as <-.
    apply call_with_kwargs_default; [reflexivity | assumption].
  - destruct (String.eqb parameter "condition"); [discriminate Hd|].
    destruct (String.eqb parameter "max_trials") eqn:E; [| discriminate Hd].
    apply String.eqb_eq in E. subst. cbn in Hd. injection Hd as <-.
    apply call_with_kwargs_default; [reflexivity | assumption].
  - destruct (String.eqb parameter "condition"); [discriminate Hd|].
    destruct (String.eqb parameter "country"); discriminate Hd.
  - destruct (String.eqb parameter "condition"); [discriminate Hd|].
    destruct (String.eqb parameter "phase"); discriminate Hd.
Qed.

End Defaults.

Lemma catalog_agrees_with_function_table_witness :
  map (fun kf => Some (fst kf)) (@available_functions sample_runtime)
    = map declared_name catalog /\
  exists f,
    @resolve sample_runtime "get_trial_phases" = Ok f /\
    if conforms (nth 3 catalog VNone)
         [("condition", VStr "asthma"); ("phase", VStr "PHASE3")]
    then exists params,
           snd (f (VDict [("condition", VStr "asthma"); ("phase", VStr "PHASE3")])
                  (stub_world two_trials []) [])
             = [] ++ [Get STUDIES_URL params]
    else f (VDict [("condition", VStr "asthma"); ("phase", VStr "PHASE3")])
           (stub_world two_trials []) [] = (Raise TypeError, []).
Proof.
  apply (@catalog_agrees_with_function_table sample_runtime
           (nth 3 catalog VNone) "get_trial_phases").
  - cbn. auto 6.
  - reflexivity.
Defined.

Lemma announced_defaults_are_applied_witness :
  call_with_kwargs count_trials "condition" "status" (Some (VStr "RECRUITING"))
    (VDict [("condition", VStr "diabetes")]) =
  call_with_kwargs count_trials "condition" "status" (Some (VStr "RECRUITING"))
    (VDict ([("condition", VStr "diabetes")] ++ [("status", VStr "RECRUITING")])).
Proof.
  apply (@announced_defaults_are_applied sample_runtime
           (nth 0 catalog VNone) "count_trials" "status" (VStr "RECRUITING")
           [("condition", VStr "diabetes")]).
  - cbn. auto.
  - reflexivity.
  - reflexivity.
  - reflexivity.
  - reflexivity.
Defined.

(** * Further properties of the agent *)

Section AgentRuns.
Context `{RT : Runtime}.

(** Whatever happens to an invocation, it adds at most one registry call
    and no completion call to the history. *)
Lemma tool_step_events (w : world) (t t' : list event)
  (messages : list chat_message) (tc : tool_call) (o : result (list chat_message)) :
  tool_step messages tc w t = (o, t') ->
  exists events,
    t' = t ++ events /\
    completion_calls events = [] /\
    (List.length (registry_calls events) <= 1)%nat.
Proof.
  unfold tool_step, pbind, lift, print, ret. intros H.
  destruct (json_loads (arguments (function tc))) as [args|e].
  - destruct (resolve (name (function tc))) as [f|e] eqn:R.
    + destruct (f args w _) as [o' t1] eqn:F.
      destruct (table_function_outcome _ _ args w
                  ((t ++ [PrintCalling (name (function tc))]) ++ [PrintArgs args]) R)
        as [[_ D] | (params & c & D & _)]; rewrite F in D; cbn [snd] in D; subst t1.
      * exists [PrintCalling (name (function tc)); PrintArgs args].
        destruct o'; injection H as <- <-; rewrite <- app_assoc; repeat split;
          cbn; lia.
      * exists [PrintCalling (name (function tc)); PrintArgs args;
                Get STUDIES_URL params].
        destruct o'; injection H as <- <-; rewrite <- !app_assoc; repeat split;
          cbn; lia.
    + injection H as <- <-.
      exists [PrintCalling (name (function tc)); PrintArgs args].
      rewrite <- app_assoc. repeat split. cbn. lia.
  - injection H as <- <-. exists []. rewrite app_nil_r. repeat split. cbn. lia.
Qed.

Lemma for_each_tool_step_events (w : world) (calls : list tool_call) :
  forall (t t' : list event) (messages : list chat_message)
         (o : result (list chat_message)),
    for_each tool_step calls messages w t = (o, t') ->
    exists events,
      t' = t ++ events /\
      completion_calls events = [] /\
      (List.length (registry_calls events) <= List.length calls)%nat.
Proof.
  induction calls as [|tc calls IH]; intros t t' messages o H.
  - cbn in H. injection H as <- <-. exists []. rewrite app_nil_r.
    repeat split. cbn. lia.
  - cbn [for_each] in H. unfold pbind at 1 in H.
    destruct (tool_step messages tc w t) as [[acc|e] t1] eqn:S.
    + destruct (tool_step_events _ _ _ _ _ _ S) as (ev1 & -> & C1 & N1).
      destruct (IH _ _ _ _ H) as (ev2 & -> & C2 & N2).
      exists (ev1 ++ ev2). rewrite app_assoc. split; [reflexivity|].
      unfold completion_calls, registry_calls in *.
      rewrite !flat_map_app, length_app, C1, C2. split; [reflexivity|]. cbn. lia.
    + injection H as <- <-.
      destruct (tool_step_events _ _ _ _ _ _ S) as (ev1 & -> & C1 & N1).
      exists ev1. repeat split; try assumption. cbn. lia.
Qed.

Lemma run_agent_history
  (w : world) (t : list event) (user_question model : string) :
  exists rest,
    snd (run_agent user_question model w t)
      = t ++ Create (first_request user_question model) :: rest /\
    (completion_calls rest = [] \/
     exists messages, completion_calls rest = [final_request model messages]) /\
    (List.length (registry_calls rest)
       <= List.length (requested_invocations w t user_question model))%nat.
Proof.
  unfold run_agent, requested_invocations, pbind, create, lift, ret.
  destruct (completions_create w t (first_request user_question model))
    as [first|e]; [| exists []; repeat split; [now left | cbn; lia]].
  destruct (first_message first) as [m|e];
    [| exists []; repeat split; [now left | cbn; lia]].
  destruct (tool_calls m) as [[|tc calls]|];
    try (exists []; repeat split; [now left | cbn; lia]).
  destruct (for_each tool_step (tc :: calls) _ w _) as [[messages|e] t2] eqn:L;
    destruct (for_each_tool_step_events _ _ _ _ _ _ L) as (events & -> & C & N).
  - exists (events ++ [Create (final_request model messages)]).
    split; [| split].
    + destruct (completions_create w _ (final_request model messages)) as [final|e];
        [destruct (first_message final) |]; cbn [snd];
        now rewrite <- !app_assoc.
    + right. exists messages. unfold completion_calls in *.
      now rewrite flat_map_app, C.
    + unfold registry_calls in *. rewrite flat_map_app, length_app.
      cbn [flat_map app List.length] in N |- *. lia.
  - exists events. split; [| split].
    + cbn [snd]. now rewrite <- app_assoc.
    + now left.
    + exact N.
Qed.

(** X11. A run of [run_agent] only adds to the history.  Whatever the
    two services answer, it makes one or two completion calls, never
    more: the first one with the catalog, and, if there is a second one,
    that one without; and it never makes more registry calls than the
    first completion has invocations. *)
Theorem run_agent_sends_no_more_than_asked
  (w : world) (t : list event) (user_question model : string) :
  exists done,
    snd (run_agent user_question model w t) = t ++ done /\
    (completion_calls done = [first_request user_question model] \/
     exists messages,
       completion_calls done
         = [first_request user_question model; final_request model messages]) /\
    (List.length (registry_calls done)
       <= List.length (requested_invocations w t user_question model))%nat.
Proof.
  destruct (run_agent_history w t user_question model) as (rest & Hs & Hc & Hn).
  exists (Create (first_request user_question model) :: rest).
  split; [exact Hs|]. split.
  - unfold completion_calls in *. cbn [flat_map app].
    destruct Hc as [-> | (messages & ->)]; [now left | right; now exists messages].
  - exact Hn.
Qed.

(** X12. An exception raised while an invocation is executed ends
    the run: [run_agent] raises that exception, the second completion
    call is not made, and the history stops where the invocation
    failed. *)
Theorem failed_invocation_ends_the_run
  (w : world) (t t2 : list event) (user_question model : string)
  (first : completion) (m : response_message) (calls : list tool_call) (e : exn) :
  completions_create w t (first_request user_question model) = Ok first ->
  first_message first = Ok m ->
  tool_calls m = Some calls ->
  for_each tool_step calls (initial_messages user_question ++ [Assistant m]) w
    (t ++ [Create (first_request user_question model)]) = (Raise e, t2) ->
  run_agent user_question model w t = (Raise e, t2) /\
  exists events,
    t2 = t ++ Create (first_request user_question model) :: events /\
    completion_calls events = [] /\
    (List.length (registry_calls events) <= List.length calls)%nat.
Proof.
  intros H1 Hm Hc L. split.
  - unfold run_agent, pbind, create, lift. rewrite H1, Hm, Hc.
    destruct calls as [|tc calls]; [discriminate L|]. now rewrite L.
  - destruct (for_each_tool_step_events _ _ _ _ _ _ L) as (events & -> & C & N).
    exists events. rewrite <- app_assoc. repeat split; assumption.
Qed.

End AgentRuns.

Lemma failed_invocation_ends_the_run_witness :
  let calls := [invoke "call_1" "get_trial_phases" "{}";
                invoke "call_2" "get_trial_phases" (sample_dumps asthma_phase3)] in
  let w := stub_world two_trials [asks calls; says "never asked"] in
  let q := "Show me Phase 3 Asthma trials" in
  let t2 := [Create (first_request q DEFAULT_MODEL);
             PrintCalling "get_trial_phases"; PrintArgs (VDict [])] in
  @run_agent sample_runtime q DEFAULT_MODEL w [] = (Raise TypeError, t2) /\
  exists events,
    t2 = [] ++ Create (first_request q DEFAULT_MODEL) :: events /\
    completion_calls events = [] /\
    (List.length (registry_calls events) <= List.length calls)%nat.
Proof.
  intros calls w q t2.
  apply (@failed_invocation_ends_the_run sample_runtime w [] t2 q DEFAULT_MODEL
           (asks calls) {| content := None; tool_calls := Some calls |} calls TypeError).
  - reflexivity.
  - reflexivity.
  - reflexivity.
  - vm_compute. reflexivity.
Defined.

Lemma call_with_kwargs_accepted
  (h : value -> value -> prog value) (second : string) (default : option value)
  (d : list (string * value)) :
  forallb (fun k => existsb (String.eqb k) ["condition"; second]) (keys d)
  && existsb (String.eqb "condition") (keys d)
  && (existsb (String.eqb second) (keys d)
      || match default with Some _ => true | None => false end) = true ->
  exists c x, call_with_kwargs h "condition" second default (VDict d) = h c x.
Proof.
  unfold call_with_kwargs.
  assert (E : forallb (fun k => existsb (String.eqb k) ["condition"; second]) (keys d)
              = forallb (fun k => String.eqb k "condition" || String.eqb k second)
                  (keys d)).
  { assert (P : forall k, existsb (String.eqb k) ["condition"; second]
                          = String.eqb k "condition" || String.eqb k second)
      by (intros k; cbn; now rewrite orb_false_r).
    induction (keys d) as [|k ks IH]; [reflexivity|].
    cbn [forallb]. now rewrite P, IH. }
  rewrite E, !existsb_keys_lookup. clear E.
  destruct (forallb (fun k => String.eqb k "condition" || String.eqb k second)
              (keys d)); [| discriminate].
  destruct (lookup "condition" d) as [c|]; [| discriminate].
  destruct (lookup second d) as [x|]; [intros _; now exists c, x|].
  destruct default as [x|]; [intros _; now exists c, x | discriminate].
Qed.

Section RegistryDown.
Context `{RT : Runtime}.

(** An invocation that fits the catalog ends in a call of its helper. *)
Lemma fitting_invocation_calls_helper (entry : value) (fname : string)
  (d : list (string * value)) :
  In entry catalog ->
  declared_name entry = Some fname ->
  conforms entry d = true ->
  exists f c x,
    resolve fname = Ok f /\
    (f (VDict d) = count_trials c x \/
     f (VDict d) = get_eligibility_criteria c x \/
     f (VDict d) = get_trial_locations c x \/
     f (VDict d) = get_trial_phases c x).
Proof.
  intros Hin Hn Hc.
  unfold catalog, tools in Hin. cbn [In] in Hin.
  destruct Hin as [<- | [<- | [<- | [<- | []]]]]; cbn in Hn; injection Hn as <-;
    unfold conforms in Hc; cbn in Hc.
  - destruct (call_with_kwargs_accepted count_trials "status"
                (Some (VStr "RECRUITING")) d) as (c & x & E).
    { cbn. now rewrite orb_true_r, !andb_true_r in *. }
    eexists. exists c, x. split; [reflexivity | auto].
  - destruct (call_with_kwargs_accepted get_eligibility_criteria "max_trials"
                (Some (VInt 5)) d) as (c & x & E).
    { cbn. now rewrite orb_true_r, !andb_true_r in *. }
    eexists. exists c, x. split; [reflexivity | auto].
  - destruct (call_with_kwargs_accepted get_trial_locations "country"
                (Some VNone) d) as (c & x & E).
    { cbn. now rewrite orb_true_r, !andb_true_r in *. }
    eexists. exists c, x. split; [reflexivity | auto].
  - destruct (call_with_kwargs_accepted get_trial_phases "phase" None d)
      as (c & x & E).
    { cbn. rewrite orb_false_r, !andb_true_r in *. now rewrite <- andb_assoc. }
    eexists. exists c, x. split; [reflexivity | auto 6].
Qed.

(** X13. A registry that is down does not stop the agent.  When the
    registry answers every request with the same non-200 response and
    every invocation fits the catalog, the loop over the invocations does
    not raise: it makes one registry call per invocation and appends, for
    each of them, a tool-result message that carries the error dictionary
    of that response. *)
Theorem registry_errors_become_tool_results
  (w : world) (r : response) (calls : list tool_call) :
  (forall t params, requests_get w t STUDIES_URL params = Ok r) ->
  status_code r <> 200%Z ->
  Forall fits_catalog calls ->
  forall (t : list event) (messages : list chat_message),
  exists events,
    for_each tool_step calls messages w t =
      (Ok (messages ++
           map (fun tc => ToolResult (id tc) (name (function tc))
                            (json_dumps (api_error r))) calls),
       t ++ events) /\
    List.length (registry_calls events) = List.length calls /\
    completion_calls events = [].
Proof.
  intros Hw Hs HF. apply not_200 in Hs.
  induction HF as [|tc calls (entry & d & Hin & Hn & HL & Hc) HF IH];
    intros t messages.
  - exists []. cbn. rewrite !app_nil_r. repeat split.
  - destruct (fitting_invocation_calls_helper _ _ _ Hin Hn Hc)
      as (f & c & x & R & Hf).
    assert (S : exists params,
               f (VDict d) w ((t ++ [PrintCalling (name (function tc))])
                                ++ [PrintArgs (VDict d)])
               = (Ok (api_error r),
                  ((t ++ [PrintCalling (name (function tc))])
                     ++ [PrintArgs (VDict d)]) ++ [Get STUDIES_URL params])).
    { destruct Hf as [-> | [-> | [-> | ->]]]; eexists.
      - rewrite (count_trials_run _ _ r) by apply Hw.
        unfold count_trials_summary. now rewrite Hs.
      - rewrite (get_eligibility_criteria_run _ _ r) by apply Hw.
        unfold get_eligibility_criteria_summary. now rewrite Hs.
      - rewrite (get_trial_locations_run _ _ r) by apply Hw.
        unfold get_trial_locations_summary. now rewrite Hs.
      - rewrite (get_trial_phases_run _ _ r) by apply Hw.
        unfold get_trial_phases_summary. now rewrite Hs. }
    destruct S as (params & S).
    destruct (IH (((t ++ [PrintCalling (name (function tc))])
                     ++ [PrintArgs (VDict d)]) ++ [Get STUDIES_URL params])
                 (messages ++ [ToolResult (id tc) (name (function tc))
                                 (json_dumps (api_error r))]))
      as (events & E & N & C).
    exists ([PrintCalling (name (function tc)); PrintArgs (VDict d);
             Get STUDIES_URL params] ++ events).
    split; [| split].
    + assert (T : tool_step messages tc w t
                  = (Ok (messages ++ [ToolResult (id tc) (name (function tc))
                                        (json_dumps (api_error r))]),
                     ((t ++ [PrintCalling (name (function tc))])
                        ++ [PrintArgs (VDict d)]) ++ [Get STUDIES_URL params])).
      { unfold tool_step, pbind, lift, print, ret. now rewrite HL, R, S. }
      cbn [for_each]. unfold pbind at 1. rewrite T, E. cbn [map].
      now rewrite <- !app_assoc.
    + unfold registry_calls in *. rewrite flat_map_app, length_app, N. reflexivity.
    + unfold completion_calls in *. rewrite flat_map_app, C. reflexivity.
Qed.

End RegistryDown.

Lemma registry_errors_become_tool_results_witness :
  let calls := [invoke "call_1" "get_trial_phases" (sample_dumps asthma_phase3);
                invoke "call_2" "count_trials" (sample_dumps diabetes)] in
  let w := stub_world not_found [] in
  exists events,
    for_each (@tool_step sample_runtime) calls [] w [] =
      (Ok ([] ++
           map (fun tc => ToolResult (id tc) (name (function tc))
                            (sample_dumps (api_error not_found))) calls),
       [] ++ events) /\
    List.length (registry_calls events) = List.length calls /\
    completion_calls events = [].
Proof.
  intros calls w.
  apply (@registry_errors_become_tool_results sample_runtime w not_found calls).
  - intros t params. reflexivity.
  - simpl. lia.
  - repeat constructor.
    + exists (nth 3 catalog VNone), [("condition", VStr "asthma"); ("phase", VStr "PHASE3")].
      repeat split. cbn. auto 6.
    + exists (nth 0 catalog VNone), [("condition", VStr "diabetes")].
      repeat split. cbn. auto.
Defined.

(** * Properties of the script around the agent *)

Lemma skipn_length_app {A : Type} (l l' : list A) : skipn (List.length l) (l ++ l') = l'.
Proof. induction l as [|x l IH]; [reflexivity | exact IH]. Qed.

Lemma agent_history_app (c c' : list console_event) :
  agent_history (c ++ c') = agent_history c ++ agent_history c'.
Proof. apply flat_map_app. Qed.

Lemma agent_history_map_Agent (l : list event) : agent_history (map Agent l) = l.
Proof.
  induction l as [|e l IH]; [reflexivity|].
  cbn [map]. change (agent_history (Agent e :: map Agent l))
    with (e :: agent_history (map Agent l)). now rewrite IH.
Qed.

Lemma questions_put_app (c c' : list console_event) :
  questions_put (c ++ c') = questions_put c ++ questions_put c'.
Proof.
  unfold questions_put, completion_calls.
  now rewrite agent_history_app, flat_map_app, filter_app.
Qed.

Lemma reports_app (c c' : list console_event) :
  reports (c ++ c') = (reports c + reports c')%nat.
Proof. unfold reports. now rewrite filter_app, length_app. Qed.

Section MainFacts.
Context `{RT : Runtime}.

(** One question: one run of the agent, whose first completion call is
    the only one with the catalog, and one line of report. *)
Lemma try_run_agent_log (w : world) (before after question : string)
  (c : list console_event) :
  exists tail,
    try_run_agent w before after question c = c ++ tail /\
    questions_put tail = [first_request question DEFAULT_MODEL] /\
    reports tail = 1%nat.
Proof.
  unfold try_run_agent.
  destruct (run_agent_history w (agent_history c)
              question DEFAULT_MODEL) as (rest & Hs & Hc & _).
  destruct (run_agent question DEFAULT_MODEL w (agent_history c)) as [o h'].
  cbn [snd] in Hs. subst h'. rewrite skipn_length_app.
  assert (Q : forall report : console_event,
             agent_history [report] = [] ->
             questions_put
               (map Agent (Create (first_request question DEFAULT_MODEL) :: rest)
                  ++ [report])
             = [first_request question DEFAULT_MODEL]).
  { intros report Hr. rewrite questions_put_app.
    assert (E : questions_put [report] = [])
      by (unfold questions_put; now rewrite Hr).
    rewrite E, app_nil_r.
    unfold questions_put. rewrite agent_history_map_Agent.
    unfold completion_calls in *. cbn [flat_map app filter first_request req_tools].
    destruct Hc as [-> | (messages & ->)]; reflexivity. }
  assert (R : forall report : console_event,
             reports [report] = 1%nat ->
             reports
               (map Agent (Create (first_request question DEFAULT_MODEL) :: rest)
                  ++ [report]) = 1%nat).
  { intros report Hr. rewrite reports_app, Hr.
    replace (reports (map Agent _)) with 0%nat; [reflexivity|].
    unfold reports. generalize (Create (first_request question DEFAULT_MODEL) :: rest).
    induction l as [|e l IH]; [reflexivity | exact IH]. }
  destruct o as [answer|e]; eexists; (split; [now rewrite <- app_assoc|]);
    (split; [apply Q | apply R]); reflexivity.
Qed.

Lemma test_loop_log (w : world) (questions : list string) :
  forall (i : Z) (c : list console_event),
  exists tail,
    test_loop w i questions c = c ++ tail /\
    questions_put tail = map (fun q => first_request q DEFAULT_MODEL) questions /\
    reports tail = List.length questions.
Proof.
  induction questions as [|q questions IH]; intros i c.
  - exists []. cbn. now rewrite app_nil_r.
  - cbn [test_loop]. set (c1 := c ++ _).
    destruct (try_run_agent_log w (NL ++ "ANSWER:" ++ NL) "" q c1)
      as (t1 & -> & Q1 & R1).
    destruct (IH (i + 1)%Z ((c1 ++ t1) ++ [Say NL])) as (t2 & -> & Q2 & R2).
    subst c1. eexists. split; [now rewrite <- !app_assoc|].
    rewrite !questions_put_app, !reports_app, Q1, Q2, R1, R2.
    split; reflexivity.
Qed.

Lemma interactive_mode_log (w : world) (stdin : list string) :
  forall c : list console_event,
  exists tail,
    interactive_mode w stdin c
      = (if has_quit stdin then Quit else EndOfInput, c ++ tail) /\
    questions_put tail
      = map (fun q => first_request q DEFAULT_MODEL) (questions_before_quit stdin) /\
    reports tail = List.length (questions_before_quit stdin).
Proof.
  induction stdin as [|q stdin IH]; intros c.
  - eexists. split; [reflexivity|]. split; reflexivity.
  - cbn [interactive_mode questions_before_quit has_quit existsb].
    destruct (is_quit q) eqn:E; cbn [orb].
    + eexists. split; [reflexivity|]. split; reflexivity.
    + set (c0 := c ++ _).
      destruct (try_run_agent_log w (" Answer:" ++ NL) NL q c0) as (t1 & -> & Q1 & R1).
      destruct (IH (c0 ++ t1)) as (t2 & -> & Q2 & R2).
      subst c0. eexists. split; [now rewrite <- !app_assoc|].
      rewrite !questions_put_app, !reports_app, Q1, Q2, R1, R2.
      split; reflexivity.
Qed.

(** X14. The script puts every question to the model, whatever fails on
    the way: the four test questions and then every line of the input up
    to the first quit word, each exactly once and in this order, and it
    prints one answer or one error for each.  It ends by [break] when the
    input holds a quit word, and otherwise when the input is
    exhausted. *)
Theorem main_puts_every_question (w : world) (stdin : list string) :
  exists log,
    main w stdin = (if has_quit stdin then Quit else EndOfInput, log) /\
    questions_put log
      = map (fun q => first_request q DEFAULT_MODEL)
          (test_questions ++ questions_before_quit stdin) /\
    reports log = (4 + List.length (questions_before_quit stdin))%nat.
Proof.
  unfold main.
  destruct (test_loop_log w test_questions 1
              [Say RULE; Say "CLINICAL TRIALS AGENT"; Say RULE]) as (t1 & -> & Q1 & R1).
  destruct (interactive_mode_log w stdin
              (([Say RULE; Say "CLINICAL TRIALS AGENT"; Say RULE] ++ t1)
                 ++ [Say (NL ++ RULE)%string; Say "INTERACTIVE MODE"; Say RULE]))
    as (t2 & -> & Q2 & R2).
  eexists. split; [reflexivity|].
  rewrite !questions_put_app, !reports_app, Q1, Q2, R1, R2, map_app.
  split; reflexivity.
Qed.

End MainFacts.

Lemma is_quit_iff (line : string) :
  is_quit line = true <->
  exists k, In k ["quit"; "exit"; "q"] /\ same_up_to_case line k.
Proof.
  unfold is_quit. rewrite existsb_exists. split.
  - intros (k & Hk & E). exists k. split; [assumption|].
    apply String.eqb_eq in E. apply lower_same_up_to_case. rewrite E.
    cbn in Hk. destruct Hk as [<- | [<- | [<- | []]]]; reflexivity.
  - intros (k & Hk & S). exists k. split; [assumption|].
    apply String.eqb_eq. apply lower_same_up_to_case in S. rewrite S.
    cbn in Hk. destruct Hk as [<- | [<- | [<- | []]]]; reflexivity.
Qed.

Section QuitWords.
Context `{RT : Runtime}.

Lemma interactive_mode_stops (w : world) (before : list string) (word : string)
  (after : list string) :
  is_quit word = true ->
  forall c, interactive_mode w (before ++ word :: after) c
            = interactive_mode w (before ++ [word]) c.
Proof.
  intros Q. induction before as [|q before IH]; intros c.
  - cbn [app interactive_mode]. now rewrite Q.
  - cbn [app interactive_mode]. destruct (is_quit q); [reflexivity | apply IH].
Qed.

(** X15. The dialogue ends at a line that is ["quit"], ["exit"] or
    ["q"] in any mix of upper and lower case: the script is left by
    [break], and nothing that follows the line is read, so the script does
    what it does when the input stops there.  No other line ends the
    dialogue. *)
Theorem quit_word_ends_the_script
  (w : world) (before : list string) (word k : string) (after : list string) :
  In k ["quit"; "exit"; "q"] ->
  same_up_to_case word k ->
  main w (before ++ word :: after) = main w (before ++ [word]) /\
  fst (main w (before ++ word :: after)) = Quit /\
  forall line, is_quit line = true ->
    exists k', In k' ["quit"; "exit"; "q"] /\ same_up_to_case line k'.
Proof.
  intros Hk S.
  assert (Q : is_quit word = true) by (apply is_quit_iff; eauto).
  split; [| split].
  - unfold main. now apply interactive_mode_stops.
  - unfold main.
    destruct (interactive_mode_log w (before ++ word :: after)
                (test_loop w 1 test_questions
                   [Say RULE; Say "CLINICAL TRIALS AGENT"; Say RULE]
                 ++ [Say (NL ++ RULE)%string; Say "INTERACTIVE MODE"; Say RULE]))
      as (tail & -> & _).
    unfold has_quit. rewrite existsb_app. cbn [existsb fst]. rewrite Q.
    now rewrite orb_true_r.
  - intros line. apply is_quit_iff.
Qed.

End QuitWords.

Lemma quit_word_ends_the_script_witness :
  let w := stub_world not_found [] in
  @main sample_runtime w (["How many trials for asthma?"] ++ "Exit" :: ["never read"])
    = @main sample_runtime w (["How many trials for asthma?"] ++ ["Exit"]) /\
  fst (@main sample_runtime w
         (["How many trials for asthma?"] ++ "Exit" :: ["never read"])) = Quit /\
  forall line, is_quit line = true ->
    exists k', In k' ["quit"; "exit"; "q"] /\ same_up_to_case line k'.
Proof.
  intros w.
  apply (@quit_word_ends_the_script sample_runtime w
           ["How many trials for asthma?"] "Exit" "exit" ["never read"]).
  - simpl. auto.
  - repeat constructor; right; reflexivity.
Defined.

(** The script on a world where the completion endpoint is down: every
    question is reported as an error, and the script goes on to the
    dialogue. *)
Example main_with_endpoint_down :
  let (how, log) := @main sample_runtime (stub_world not_found []) ["q"] in
  how = Quit /\
  filter (fun x => match x with SayError _ => true | _ => false end) log
    = [SayError APIError; SayError APIError; SayError APIError; SayError APIError].
Proof. vm_compute. split; reflexivity. Qed.

(** * The facilities that are returned *)

Section Returned.

(** X16. On a 200 response, the list ["facilities"] that
    [get_trial_locations] returns has no entry equal to a later one, and
    its length is the smaller of 20 and the ["number_of_facilities"]
    reported beside it. *)
Theorem returned_facilities_are_distinct
  (condition country : value) (r : response) (v : value) :
  status_code r = 200%Z ->
  get_trial_locations_summary condition country r = Ok v ->
  exists listed n,
    getitem v "facilities" = Ok (VList listed) /\
    getitem v "number_of_facilities" = Ok (VInt (Z.of_nat n)) /\
    distinct listed /\
    List.length listed = Nat.min 20 n.
Proof.
  intros Hs H.
  rewrite get_trial_locations_summary_200 in H by assumption.
  do 2 bind_ok H. injection H as <-.
  pose proof (collected_facilities_distinct _ _ _ E0) as D.
  exists (firstn 20 a0), (List.length a0). repeat split.
  - now apply distinct_firstn.
  - apply length_firstn.
Qed.

End Returned.

Lemma returned_facilities_are_distinct_witness :
  exists listed n,
    getitem (VDict [("condition", VStr "depression"); ("country", VStr "all");
                    ("number_of_facilities", VInt 21);
                    ("facilities", VList (sites 20))]) "facilities"
      = Ok (VList listed) /\
    getitem (VDict [("condition", VStr "depression"); ("country", VStr "all");
                    ("number_of_facilities", VInt 21);
                    ("facilities", VList (sites 20))]) "number_of_facilities"
      = Ok (VInt (Z.of_nat n)) /\
    distinct listed /\
    List.length listed = Nat.min 20 n.
Proof.
  apply (returned_facilities_are_distinct (VStr "depression") VNone
           (ok_200 (VDict [("studies", VList [study_at (sites 21)])]))).
  - reflexivity.
  - vm_compute. reflexivity.
Defined.
